(** * Evaluation engine of the ontology quiz generator

    A shallow embedding of [ontology_quiz_generator.py] and of the part of
    [python_ontology.py] it reads, with the properties of its similarity
    score, of its evaluation table and of its classification metrics.

    Conventions of the embedding.
    - A Python [float] is an IEEE 754 binary64 value: a [spec_float] of the
      Standard Library with [prec = 53] and [emax = 1024], and the operations
      of [SpecFloat] at these parameters.
    - A Python [int] is a [Z]; [a / b] on two ints is the correctly rounded
      quotient and raises [ZeroDivisionError] or [OverflowError].
    - A Python [str] is a [string] whose characters are the code points
      U+0000..U+00FF.
    - A [dict] keyed by strings is a [gmap string _], a [set] of strings a
      [gset string].
    - Code that can raise runs in the error monad [result].
    - The sentence encoder and scikit-learn are libraries that the module
      imports when it can: they are parameters of the embedding, absent
      ([None]) when the import fails. *)

From Stdlib Require Import ZArith NArith Lia List Bool Ascii String DecimalString.
From Stdlib Require Import Floats.SpecFloat.
From stdpp Require Import base option list gmap strings.

Import ListNotations.
Local Open Scope string_scope.
Local Open Scope list_scope.
Local Open Scope Z_scope.

(** ** Exceptions and the error monad *)

Inductive exception : Type :=
| ZeroDivisionError
| OverflowError.

Inductive result (A : Type) : Type :=
| Ok (a : A)
| Raise (e : exception).

Arguments Ok {A} a.
Arguments Raise {A} e.

#[global] Instance result_ret : MRet result := fun _ a => Ok a.

#[global] Instance result_bind : MBind result := fun _ _ k c =>
  match c with
  | Ok a => k a
  | Raise e => Raise e
  end.

(** ** Python floats *)

Module PyFloat.

Definition prec : Z := 53.
Definition emax : Z := 1024.

Definition float : Type := spec_float.

(** The float a literal or [float(n)] denotes for an int [n]. *)
Definition of_int (n : Z) : float := binary_normalize prec emax n 0 false.

(** An int seen as an unrounded operand of a division. *)
Definition operand (n : Z) : float :=
  match n with
  | Z0 => S754_zero false
  | Zpos p => S754_finite false p 0
  | Zneg p => S754_finite true p 0
  end.

Definition is_zero (x : float) : bool :=
  match x with
  | S754_zero _ => true
  | _ => false
  end.

(** [bool(x)] for a float: every value but the zeros is true. *)
Definition truthy (x : float) : bool := negb (is_zero x).

Definition add (x y : float) : float := SFadd prec emax x y.
Definition mul (x y : float) : float := SFmul prec emax x y.

(** [x / y] on floats. *)
Definition truediv (x y : float) : result float :=
  if is_zero y then Raise ZeroDivisionError else Ok (SFdiv prec emax x y).

(** [a / b] on ints: the quotient rounded once, to nearest even. *)
Definition int_truediv (a b : Z) : result float :=
  if b =? 0 then Raise ZeroDivisionError
  else match SFdiv prec emax (operand a) (operand b) with
       | S754_infinity _ => Raise OverflowError
       | q => Ok q
       end.

(** [x > y], [x >= y] and [x <= y]; all are false on a NaN. *)
Definition gt (x y : float) : bool :=
  match SFcompare x y with
  | Some Gt => true
  | _ => false
  end.

Definition ge (x y : float) : bool :=
  match SFcompare x y with
  | Some (Gt | Eq) => true
  | _ => false
  end.

Definition le (x y : float) : bool := SFleb x y.

(** The literals of the source. *)
Definition zero : float := S754_zero false.
Definition one : float := S754_finite false 4503599627370496 (-52).
Definition lit_0_9 : float := S754_finite false 8106479329266893 (-53).
Definition lit_0_7 : float := S754_finite false 6305039478318694 (-53).
Definition lit_0_5 : float := S754_finite false 4503599627370496 (-53).

End PyFloat.

Import PyFloat.

(** ** Python strings *)

Module PyStr.

(** The line feed of ["\n"]. *)
Definition nl : string := String (ascii_of_N 10) EmptyString.

(** [c.isspace()] on U+0000..U+00FF. *)
Definition is_space (c : ascii) : bool :=
  let n := N_of_ascii c in
  ((9 <=? n) && (n <=? 13) || (28 <=? n) && (n <=? 32) || (n =? 133) || (n =? 160))%N.

(** [c.lower()] on U+0000..U+00FF: A-Z and the accented capitals. *)
Definition lower_char (c : ascii) : ascii :=
  let n := N_of_ascii c in
  if ((65 <=? n) && (n <=? 90) || (192 <=? n) && (n <=? 222) && negb (n =? 215))%N
  then ascii_of_N (n + 32)
  else c.

Fixpoint lower (s : string) : string :=
  match s with
  | EmptyString => EmptyString
  | String c s' => String (lower_char c) (lower s')
  end.

(** [s.split()]: the maximal runs of characters that are not white space.
    [word] is the run being read. *)
Fixpoint split_from (word s : string) : list string :=
  match s with
  | EmptyString =>
      match word with
      | EmptyString => []
      | _ => [word]
      end
  | String c s' =>
      if is_space c
      then match word with
           | EmptyString => split_from EmptyString s'
           | _ => word :: split_from EmptyString s'
           end
      else split_from (word +:+ String c EmptyString) s'
  end.

Definition split (s : string) : list string := split_from EmptyString s.

(** [sep.join(l)]. *)
Fixpoint join (sep : string) (l : list string) : string :=
  match l with
  | [] => EmptyString
  | [x] => x
  | x :: rest => x +:+ sep +:+ join sep rest
  end.

(** [bool(s)] for a string. *)
Definition nonempty (s : string) : bool :=
  match s with
  | EmptyString => false
  | _ => true
  end.

Definition decimal (n : Z) : string := NilZero.string_of_uint (N.to_uint (Z.to_N n)).

Definition two_digits (n : Z) : string :=
  if n <? 10 then "0" +:+ decimal n else decimal n.

(** The hundredths nearest to [m * 2 ^ e], ties to even. *)
Definition hundredths (m : positive) (e : Z) : Z :=
  if 0 <=? e then 100 * Zpos m * 2 ^ e
  else
    let den := 2 ^ (- e) in
    let q := (100 * Zpos m) / den in
    let r := (100 * Zpos m) mod den in
    match 2 * r ?= den with
    | Lt => q
    | Eq => if Z.even q then q else q + 1
    | Gt => q + 1
    end.

(** [format(x, ".2f")]. *)
Definition format_2f (x : float) : string :=
  match x with
  | S754_nan => "nan"
  | S754_infinity s => if s then "-inf" else "inf"
  | S754_zero s => if s then "-0.00" else "0.00"
  | S754_finite s m e =>
      let h := hundredths m e in
      (if s then "-" else "") +:+ decimal (h / 100) +:+ "." +:+ two_digits (h mod 100)
  end.

End PyStr.

Import PyStr.

(** ** python_ontology.py *)

Record Relationship : Type := {
  rel_type : string;
  rel_target : string
}.

#[local] Unset Elimination Schemes.
Inductive OntologyNode : Type :=
| Node (name description difficulty : string)
       (examples : list string)
       (relationships : list Relationship)
       (children : list OntologyNode).
#[local] Set Elimination Schemes.

Definition name (n : OntologyNode) : string :=
  let '(Node x _ _ _ _ _) := n in x.
Definition description (n : OntologyNode) : string :=
  let '(Node _ x _ _ _ _) := n in x.
Definition node_difficulty (n : OntologyNode) : string :=
  let '(Node _ _ x _ _ _) := n in x.
Definition examples (n : OntologyNode) : list string :=
  let '(Node _ _ _ x _ _) := n in x.
Definition relationships (n : OntologyNode) : list Relationship :=
  let '(Node _ _ _ _ x _) := n in x.
Definition children (n : OntologyNode) : list OntologyNode :=
  let '(Node _ _ _ _ _ x) := n in x.

(** The constructor of the dataclass: no relationship, no child. *)
Definition OntologyNode_init (name description difficulty : string)
    (examples : list string) : OntologyNode :=
  Node name description difficulty examples [] [].

(** [self.children.append(child)] read on trees: the tree of [self] after
    the call, for a child that is an object apart from [self], as every
    child is in [build_python_ontology]. The call in place, on objects that
    may be shared, is [Heap.add_child] below, with the relation of the
    two. *)
Definition add_child (self child : OntologyNode) : OntologyNode :=
  let '(Node n d f e r c) := self in Node n d f e r (c ++ [child]).

(** [self.relationships.append(Relationship(relation, target))]. *)
Definition add_relationship (self : OntologyNode) (relation target : string)
    : OntologyNode :=
  let '(Node n d f e r c) := self in
  Node n d f e (r ++ [{| rel_type := relation; rel_target := target |}]) c.

(** [self.children.extend(nodes)]. *)
Definition children_extend (self : OntologyNode) (nodes : list OntologyNode)
    : OntologyNode :=
  let '(Node n d f e r c) := self in Node n d f e r (c ++ nodes).

Definition dquote : string := String (ascii_of_N 34) EmptyString.

Definition build_python_ontology : OntologyNode :=
  let root :=
    OntologyNode_init
      "PythonProgramming"
      "Comprehensive ontology covering Python concepts and their relationships."
      "Beginner"
      [] in
  let core :=
    OntologyNode_init
      "CoreLanguage"
      "Fundamental Python syntax and features."
      "Beginner"
      [] in
  let data_types :=
    OntologyNode_init
      "DataTypes"
      "Primitive and composite types available in Python."
      "Beginner"
      ["x = 1"; "name = 'Alice'"] in
  let numbers :=
    OntologyNode_init
      "Numbers"
      "Integers, floats and numeric operations."
      "Beginner"
      ["result = 2 + 3"] in
  let strings :=
    OntologyNode_init
      "Strings"
      "Text sequences and related operations."
      "Beginner"
      ["greeting = 'hello'.upper()"] in
  let lists :=
    OntologyNode_init
      "Lists"
      "Mutable ordered collections."
      "Beginner"
      ["items = [1, 2, 3]"] in
  let tuples :=
    OntologyNode_init
      "Tuples"
      "Immutable ordered collections."
      "Beginner"
      ["point = (1, 2)"] in
  let dictionaries :=
    OntologyNode_init
      "Dictionaries"
      "Key-value mappings."
      "Beginner"
      ["ages = {'Bob': 30}"] in
  let sets :=
    OntologyNode_init
      "Sets"
      "Unordered collections of unique elements."
      "Beginner"
      ["unique = set([1, 2, 2, 3])"] in
  let booleans :=
    OntologyNode_init
      "Booleans"
      "True/False values used in logic."
      "Beginner"
      ["flag = True"] in
  let arithmetic :=
    OntologyNode_init
      "Arithmetic"
      "Basic mathematical operations such as addition and subtraction."
      "Beginner"
      ["result = 2 + 2"; "total = 5 - 3"] in
  let keywords :=
    OntologyNode_init
      "Keywords"
      "Reserved words that have special meaning in Python syntax."
      "Beginner"
      ["if"; "for"; "while"] in
  let builtins_node :=
    OntologyNode_init
      "Builtins"
      "Common functions that are always available in Python."
      "Beginner"
      ["len(obj)"; "range(10)"] in
  let modules :=
    OntologyNode_init
      "Modules"
      "Organizing and importing reusable pieces of code."
      "Intermediate"
      ["import math"] in
  let data_types :=
    foldl add_child data_types
      [numbers; strings; lists; tuples; dictionaries; sets; booleans; arithmetic; keywords; builtins_node; modules] in
  let control_structures :=
    OntologyNode_init
      "ControlStructures"
      "Flow control statements and loops."
      "Beginner"
      ["if x > 0:"; "for i in range(5):"] in
  let conditions :=
    OntologyNode_init
      "Conditions"
      "if/elif/else statements."
      "Beginner"
      ["if value == 1:"] in
  let loops :=
    OntologyNode_init
      "Loops"
      "for and while loops."
      "Beginner"
      ["while count < 10:"] in
  let control_structures :=
    children_extend control_structures
      [conditions; loops] in
  let functions :=
    OntologyNode_init
      "Functions"
      "Function definitions and calls."
      "Intermediate"
      ["def add(a, b):"; "return a + b"] in
  let classes :=
    OntologyNode_init
      "Classes"
      "Object-oriented programming with classes."
      "Intermediate"
      ["class Car:"; "    pass"] in
  let fileio :=
    OntologyNode_init
      "FileIO"
      "Reading from and writing to files on disk."
      "Intermediate"
      ["open('data.txt', 'r')"] in
  let exceptions :=
    OntologyNode_init
      "Exceptions"
      "Handling errors with try/except blocks."
      "Intermediate"
      [("try:" +:+ nl +:+ "    pass" +:+ nl +:+ "except Exception:")] in
  let concurrency :=
    OntologyNode_init
      "Concurrency"
      "Running multiple operations at the same time."
      "Advanced"
      ["import threading"] in
  let core :=
    children_extend core
      [data_types; control_structures; functions; classes; fileio; exceptions] in
  let stdlib :=
    OntologyNode_init
      "StandardLibrary"
      "Commonly used modules that ship with Python."
      "Intermediate"
      ["import os"; "import sys"] in
  let json_mod :=
    OntologyNode_init
      "json"
      "JSON encoding and decoding."
      "Intermediate"
      ["import json"; ("json.loads('{" +:+ dquote +:+ "key" +:+ dquote +:+ ": 1}')")] in
  let csv_mod :=
    OntologyNode_init
      "csv"
      "CSV reading and writing."
      "Intermediate"
      ["import csv"; "csv.reader(...)"] in
  let stdlib :=
    children_extend stdlib
      [json_mod; csv_mod] in
  let functional :=
    OntologyNode_init
      "FunctionalProgramming"
      "Using functions as first-class objects and related paradigms."
      "Intermediate"
      ["map(str, items)"; "lambda x: x * 2"] in
  let decorators :=
    OntologyNode_init
      "Decorators"
      "Functions that modify other functions or methods."
      "Advanced"
      ["@cache"; "def func(...): ..."] in
  let functional :=
    add_child functional decorators in
  let ds_algo :=
    OntologyNode_init
      "DataStructuresAlgorithms"
      "Classic data structures and algorithms."
      "Intermediate"
      ["stack.append(x)"; "sorted(items)"] in
  let searching :=
    OntologyNode_init
      "Searching"
      "Techniques such as binary search."
      "Intermediate"
      ["bisect.bisect_left(...)"] in
  let sorting :=
    OntologyNode_init
      "Sorting"
      "Algorithms that order data."
      "Intermediate"
      ["sorted(list_of_values)"] in
  let algorithms :=
    OntologyNode_init
      "Algorithms"
      "General techniques for solving computational problems."
      "Intermediate"
      ["binary search"; "merge sort"] in
  let ds_algo :=
    children_extend ds_algo
      [searching; sorting; algorithms] in
  let web :=
    OntologyNode_init
      "WebFrameworks"
      "Popular Python web frameworks."
      "Intermediate"
      ["from flask import Flask"] in
  let flask :=
    OntologyNode_init
      "Flask"
      "Lightweight WSGI web application framework."
      "Intermediate"
      ["app = Flask(__name__)"] in
  let django :=
    OntologyNode_init
      "Django"
      "Full-featured web framework for large applications."
      "Intermediate"
      ["django-admin startproject mysite"] in
  let web :=
    children_extend web
      [flask; django] in
  let data_science :=
    OntologyNode_init
      "DataScienceLibraries"
      "Libraries used for data analysis and visualization."
      "Intermediate"
      ["import numpy as np"; "import pandas as pd"] in
  let numpy_node :=
    OntologyNode_init
      "NumPy"
      "Numerical computing with arrays."
      "Intermediate"
      ["np.array([1, 2, 3])"] in
  let pandas_node :=
    OntologyNode_init
      "Pandas"
      "Data analysis and manipulation library."
      "Intermediate"
      ["pd.DataFrame({'a': [1, 2]})"] in
  let matplotlib_node :=
    OntologyNode_init
      "Matplotlib"
      "2D plotting library for creating visualizations."
      "Intermediate"
      ["plt.plot(x, y)"] in
  let data_science :=
    children_extend data_science
      [numpy_node; pandas_node; matplotlib_node] in
  let ml :=
    OntologyNode_init
      "MachineLearning"
      "Frameworks for building machine learning models."
      "Advanced"
      ["import tensorflow as tf"] in
  let tensorflow_node :=
    OntologyNode_init
      "TensorFlow"
      "End-to-end platform for machine learning."
      "Advanced"
      ["tf.constant([1, 2])"] in
  let pytorch_node :=
    OntologyNode_init
      "PyTorch"
      "Deep learning framework emphasizing flexibility."
      "Advanced"
      ["import torch"] in
  let ml :=
    children_extend ml
      [tensorflow_node; pytorch_node] in
  let testing :=
    OntologyNode_init
      "TestingDebugging"
      "Tools for testing and debugging Python code."
      "Intermediate"
      ["import unittest"] in
  let unittest_node :=
    OntologyNode_init
      "unittest"
      "Built-in unit testing framework."
      "Intermediate"
      ["unittest.TestCase"] in
  let pytest_node :=
    OntologyNode_init
      "pytest"
      "Popular third-party testing framework."
      "Intermediate"
      ["pytest.raises(ValueError)"] in
  let testing :=
    children_extend testing
      [unittest_node; pytest_node] in
  let devops :=
    OntologyNode_init
      "DevOps"
      "Practices for packaging and deploying Python applications."
      "Advanced"
      ["docker build"; "pip install"] in
  let venv_node :=
    OntologyNode_init
      "VirtualEnvironments"
      "Isolated Python environments for dependency management."
      "Intermediate"
      ["python -m venv env"] in
  let packaging_node :=
    OntologyNode_init
      "Packaging"
      "Creating distributable Python packages."
      "Advanced"
      ["python -m build"] in
  let devops :=
    children_extend devops
      [venv_node; packaging_node] in
  let root :=
    children_extend root
      [core; stdlib; functional; ds_algo; web; data_science; ml; concurrency; testing; devops] in
  root.

Fixpoint node_count (n : OntologyNode) : nat :=
  let '(Node _ _ _ _ _ c) := n in
  S ((fix count_all (l : list OntologyNode) : nat :=
        match l with
        | [] => O
        | x :: l' => (node_count x + count_all l')%nat
        end) c).

Definition nodes_count (l : list OntologyNode) : nat :=
  foldr (fun x acc => (node_count x + acc)%nat) O l.

(** The loop of [iter_nodes]: the last element of [stack] is its top. The
    nodes are yielded in the order of the loop; [None] when [fuel] turns of
    the loop do not empty the stack. *)
Fixpoint iter_nodes_loop (fuel : nat) (stack : list OntologyNode)
    : option (list OntologyNode) :=
  match rev stack with
  | [] => Some []
  | node :: below =>
      match fuel with
      | O => None
      | S fuel' =>
          rest ← iter_nodes_loop fuel' (rev below ++ children node);
          Some (node :: rest)
      end
  end.

Definition iter_nodes (root : OntologyNode) : option (list OntologyNode) :=
  iter_nodes_loop (node_count root) [root].

(** [{node.name: node.description for node in nodes}]: a later node
    overwrites an earlier one of the same name. *)
Definition dict_of_nodes (nodes : list OntologyNode) : gmap string string :=
  foldl (fun d node => <[name node := description node]> d) ∅ nodes.

Definition ontology_as_dict (root : OntologyNode) : option (gmap string string) :=
  dict_of_nodes <$> iter_nodes root.

(** ** ontology_quiz_generator.py *)

(** [d.update(items)]. *)
Definition dict_update {V : Type} (d : gmap string V) (items : list (string * V))
    : gmap string V :=
  foldl (fun d kv => <[kv.1 := kv.2]> d) d items.

Definition ONTOLOGY_ROOT : OntologyNode := build_python_ontology.

Definition LEARNING_MATERIALS : gmap string string :=
  dict_update (default ∅ (ontology_as_dict ONTOLOGY_ROOT))
    [ ("Algorithms",
       "Algorithms are step-by-step procedures for solving problems. In "
       +:+ "Python, you can implement algorithms for sorting, searching, and "
       +:+ "manipulating data.");
      ("RelationalOperator",
       "In Python, relational operators compare two values and return a Boolean result (True or False).");
      ("LogicalOperator",
       "In Python, logical operators combine multiple conditions into a single Boolean result.");
      ("Variable",
       "In Python, a variable is a named reference to a value stored in memory.") ].

(** One question of the bank, the dict that [load_mcq_bank] builds per row. *)
Record MCQ : Type := {
  question : string;
  options : list string;
  answer : string;
  difficulty : string
}.

(** One row of the evaluation table: the values of its dict at the keys
    "Domain", "Generated Learning Material", "Accuracy Score (%)", "MCQs" and
    "Description". *)
Record Row : Type := {
  Domain : string;
  Generated_Learning_Material : string;
  Accuracy_Score : string;
  MCQs : string;
  Description : string
}.

(** The dict of the metrics, at the keys "accuracy", "precision", "recall"
    and "f1". *)
Record Metrics : Type := {
  accuracy : float;
  precision : float;
  recall : float;
  f1 : float
}.

(** [sum(1 for t, p in pairs if cond(t, p))]. *)
Definition count_pairs (cond : Z -> Z -> bool) (pairs : list (Z * Z)) : Z :=
  foldl Z.add 0 (map (fun _ => 1) (List.filter (fun tp => cond tp.1 tp.2) pairs)).

(** The metrics used when scikit-learn cannot be imported. *)
Definition compute_metrics (y_true y_pred : list Z) : result Metrics :=
  let pairs := zip y_true y_pred in
  let tp := count_pairs (fun t p => (t =? p) && (p =? 1)) pairs in
  let fp := count_pairs (fun t p => (t =? 0) && (p =? 1)) pairs in
  let fn := count_pairs (fun t p => (t =? 1) && (p =? 0)) pairs in
  let tn := count_pairs (fun t p => (t =? p) && (p =? 0)) pairs in
  accuracy ← int_truediv (tp + tn) (tp + fp + fn + tn);
  precision ← (if negb (tp + fp =? 0) then int_truediv tp (tp + fp) else Ok zero);
  recall ← (if negb (tp + fn =? 0) then int_truediv tp (tp + fn) else Ok zero);
  f1 ← (if truthy (add precision recall)
        then truediv (mul (mul (of_int 2) precision) recall) (add precision recall)
        else Ok zero);
  Ok {| accuracy := accuracy; precision := precision; recall := recall; f1 := f1 |}.

(** The four functions of [sklearn.metrics] that the module imports, the
    last three at [zero_division=0]. *)
Record Sklearn : Type := {
  accuracy_score : list Z -> list Z -> result float;
  precision_score : list Z -> list Z -> result float;
  recall_score : list Z -> list Z -> result float;
  f1_score : list Z -> list Z -> result float
}.

(** [generate_mcqs]. *)
Definition generate_mcqs (domain : string) (bank : gmap string (list MCQ))
    : list MCQ :=
  default [] (bank !! domain).

(** [generate_learning_material]. *)
Definition generate_learning_material (domain : string) : string :=
  default "No materials available for this topic." (LEARNING_MATERIALS !! domain).

(** The lines one question adds to [mcq_lines]. *)
Definition append_mcq (mcq_lines : list string) (mcq : MCQ) : list string :=
  let mcq_lines := mcq_lines ++ ["Q: " +:+ question mcq] in
  let mcq_lines := foldl (fun ls opt => ls ++ [" - " +:+ opt]) mcq_lines (options mcq) in
  let mcq_lines := mcq_lines ++ ["Answer: " +:+ answer mcq] in
  mcq_lines ++ [""].

(** [mcq_text]: the lines of all the questions, joined by line feeds. *)
Definition format_mcqs (mcqs : list MCQ) : string :=
  join nl (foldl append_mcq [] mcqs).

(** A [for] loop whose body can raise. *)
Fixpoint for_each {S A : Type} (body : S -> A -> result S) (st : S) (l : list A)
    : result S :=
  match l with
  | [] => Ok st
  | x :: l' => st' ← body st x; for_each body st' l'
  end.

Definition default_threshold : float := lit_0_9.

Section Evaluation.

(** The state that the imports of the module leave behind: the sentence
    encoder and the cosine of two of its embeddings, when
    [sentence_transformers] loads, and the functions of scikit-learn, when
    it can be imported. *)
Context {tensor : Type}.
Variable MODEL : option (string -> tensor).
Variable util : option (tensor -> tensor -> float).
Variable sklearn : option Sklearn.

(** [bert_similarity]: the cosine of the two embeddings, or the Jaccard index
    of the two sets of tokens when [MODEL] or [util] is [None]. *)
Definition bert_similarity (text_a text_b : string) : result float :=
  match MODEL, util with
  | Some encode, Some cos_sim =>
      if negb (nonempty text_a) && negb (nonempty text_b) then Ok one
      else
        let emb_a := encode text_a in
        let emb_b := encode text_b in
        Ok (cos_sim emb_a emb_b)
  | _, _ =>
      let set_a : gset string := list_to_set (split (lower text_a)) in
      let set_b : gset string := list_to_set (split (lower text_b)) in
      if (size set_a =? 0)%nat && (size set_b =? 0)%nat then Ok one
      else int_truediv (Z.of_nat (size (set_a ∩ set_b)))
                       (Z.of_nat (size (set_a ∪ set_b)))
  end.

(** [evaluate_material]: a domain that the lookup does not hold has the
    empty reference. *)
Definition evaluate_material (material domain : string) : result float :=
  let reference := default "" (LEARNING_MATERIALS !! domain) in
  bert_similarity material reference.

(** The body of the loop over the domains; the state is
    [(table, y_true, y_pred)]. *)
Definition evaluation_step (mcq_bank : gmap string (list MCQ)) (threshold : float)
    (st : list Row * list Z * list Z) (domain : string)
    : result (list Row * list Z * list Z) :=
  let '(table, y_true, y_pred) := st in
  let material := generate_learning_material domain in
  score ← evaluate_material material domain;
  let mcqs := generate_mcqs domain mcq_bank in
  let y_true := y_true ++ [1] in
  let y_pred := y_pred ++ [if ge score threshold then 1 else 0] in
  let mcq_text := format_mcqs mcqs in
  let description :=
    if gt score lit_0_9 then "Excellent alignment with reference material."
    else if gt score lit_0_7 then "Good alignment but could improve in specific areas."
    else "Moderate alignment, requires improvements in content generation." in
  Ok (table ++ [{| Domain := domain;
                   Generated_Learning_Material := material;
                   Accuracy_Score := format_2f (mul score (of_int 100)) +:+ "%";
                   MCQs := mcq_text;
                   Description := description |}],
      y_true, y_pred).

(** The loop of [create_evaluation_table], from the three empty lists. *)
Definition evaluation_loop (domains : list string)
    (mcq_bank : gmap string (list MCQ)) (threshold : float)
    : result (list Row * list Z * list Z) :=
  for_each (evaluation_step mcq_bank threshold) ([], [], []) domains.

(** [create_evaluation_table]: the loop, then the metrics of its labels, by
    scikit-learn when it was imported and by [compute_metrics] otherwise. *)
Definition create_evaluation_table (domains : list string)
    (mcq_bank : gmap string (list MCQ)) (threshold : float)
    : result (list Row * Metrics) :=
  '(table, y_true, y_pred) ← evaluation_loop domains mcq_bank threshold;
  metrics ← match sklearn with
            | Some sk =>
                acc ← accuracy_score sk y_true y_pred;
                prec ← precision_score sk y_true y_pred;
                rec ← recall_score sk y_true y_pred;
                f ← f1_score sk y_true y_pred;
                Ok {| accuracy := acc; precision := prec; recall := rec; f1 := f |}
            | None => compute_metrics y_true y_pred
            end;
  Ok (table, metrics).

End Evaluation.

(** ** Definitions of the proofs

    *** Rounding to nearest even, on integer codes

    The rounding step of [SpecFloat] carries a mantissa with a round bit and
    a sticky bit. [4 * m + 2 * round + sticky] is the code of such a value:
    the codes are ordered as the values they stand for. *)

Definition loc_code (l : location) : Z :=
  match l with
  | loc_Exact => 0
  | loc_Inexact Lt => 1
  | loc_Inexact Eq => 2
  | loc_Inexact Gt => 3
  end.

Definition rcode (mrs : shr_record) : Z :=
  4 * shr_m mrs + loc_code (loc_of_shr_record mrs).

Definition sticky_half (u : Z) : Z :=
  2 * (u / 4) + (if u mod 4 =? 0 then 0 else 1).

Definition rne (u : Z) : Z :=
  let m := u / 4 in
  let c := u mod 4 in
  if c <=? 1 then m
  else if c =? 2 then (if Z.even m then m else m + 1)
  else m + 1.

Definition pack (m e : Z) : spec_float :=
  match m with
  | Z0 => S754_zero false
  | Zpos p => if e <=? emax - prec then S754_finite false p e else S754_infinity false
  | Zneg _ => S754_nan
  end.

Definition round_at (u e : Z) : spec_float :=
  let m := rne u in
  if m <? 2 ^ 53 then pack m e else pack (2 ^ 52) (e + 1).

(** The quotient [a / b] seen at exponent [E]: four times its integer part
    at that exponent plus the position of the rest. *)

Definition rem_code (r b : Z) : Z :=
  if r =? 0 then 0
  else match 2 * r ?= b with
       | Lt => 1
       | Eq => 2
       | Gt => 3
       end.

Definition qcode (a b E : Z) : Z :=
  let n := a * 2 ^ (- E) in
  4 * (n / b) + rem_code (n mod b) b.

(** [m * 2 ^ E] is the quotient [a / b] rounded to nearest even: [m] is the
    rounded integer part at exponent [E], it fits the 53 bits of a mantissa,
    and one exponent lower it would not, unless [E] is the least exponent. *)

Definition rounds_to (a b m E : Z) : Prop :=
  -1074 <= E <= 0 /\ m = rne (qcode a b E) /\ m < 2 ^ 53 /\
  (E = -1074 \/ 2 ^ 53 <= rne (qcode a b (E - 1))).

(** *** The order of the comparisons: a key per float, ordered lexically *)

Definition fkey (x : spec_float) : option (Z * Z * Z) :=
  match x with
  | S754_nan => None
  | S754_infinity true => Some (-2, 0, 0)
  | S754_finite true m e => Some (-1, - e, Zneg m)
  | S754_zero _ => Some (0, 0, 0)
  | S754_finite false m e => Some (1, e, Zpos m)
  | S754_infinity false => Some (2, 0, 0)
  end.

Definition lexcmp (k k' : Z * Z * Z) : comparison :=
  let '(a, b, c) := k in
  let '(a', b', c') := k' in
  match a ?= a' with
  | Eq => match b ?= b' with
          | Eq => c ?= c'
          | r => r
          end
  | r => r
  end.

Definition lexle (k k' : Z * Z * Z) : Prop :=
  let '(a, b, c) := k in
  let '(a', b', c') := k' in
  a < a' \/ (a = a' /\ (b < b' \/ (b = b' /\ c <= c'))).

(** *** The words of the specification *)

(** The tokens of a text: lower-cased, split at white space, as a set. *)
Definition token_set (text : string) : gset string :=
  list_to_set (split (lower text)).

(** The Jaccard index of two sets, 1.0 when both are empty. *)
Definition jaccard_index (A B : gset string) : result float :=
  if decide (A = ∅ /\ B = ∅) then Ok one
  else int_truediv (Z.of_nat (size (A ∩ B))) (Z.of_nat (size (A ∪ B))).

Section Scores.

Context {tensor : Type}.
Variable MODEL : option (string -> tensor).
Variable util : option (tensor -> tensor -> float).

(** The score of the row of [domain]. *)
Definition row_score (domain : string) : result float :=
  evaluate_material MODEL util (generate_learning_material domain) domain.

(** Is the row of [domain] a predicted positive at [threshold]? *)
Definition predicted_positive (threshold : float) (domain : string) : bool :=
  match row_score domain with
  | Ok score => ge score threshold
  | Raise _ => false
  end.

(** The number of rows whose score is at least [threshold]. *)
Definition predicted_positives (threshold : float) (domains : list string) : Z :=
  Z.of_nat (length (List.filter (predicted_positive threshold) domains)).

(** The label appended to [y_pred] for [domain]. *)
Definition label_of (threshold : float) (domain : string) : Z :=
  if predicted_positive threshold domain then 1 else 0.

(** The verdict of a score. *)
Definition verdict_of (score : float) : string :=
  if gt score lit_0_9 then "Excellent alignment with reference material."
  else if gt score lit_0_7 then "Good alignment but could improve in specific areas."
  else "Moderate alignment, requires improvements in content generation.".

(** The row appended to [table] for [domain], given its score. *)
Definition row_of (mcq_bank : gmap string (list MCQ)) (domain : string)
    (score : float) : Row :=
  {| Domain := domain;
     Generated_Learning_Material := generate_learning_material domain;
     Accuracy_Score := format_2f (mul score (of_int 100)) +:+ "%";
     MCQs := format_mcqs (generate_mcqs domain mcq_bank);
     Description := verdict_of score |}.

End Scores.

(** The number of labels 1 in [y_pred]. *)
Definition positives (y_pred : list Z) : Z :=
  Z.of_nat (length (List.filter (fun p => p =? 1) y_pred)).

(** The lines of one question in the formatted block. *)
Definition mcq_lines_of (mcq : MCQ) : list string :=
  ("Q: " +:+ question mcq)
    :: map (fun opt => " - " +:+ opt) (options mcq)
    ++ ["Answer: " +:+ answer mcq; ""].

(** ** The rest of the code

    *** Errors of the loader, of [main] and of the web route *)

Inductive error : Type :=
| KeyError (key : string)
| ValueError
| Uncaught (e : exception).

Inductive outcome (A : Type) : Type :=
| Done (a : A)
| Fail (e : error).

Arguments Done {A} a.
Arguments Fail {A} e.

#[global] Instance outcome_ret : MRet outcome := fun _ a => Done a.

#[global] Instance outcome_bind : MBind outcome := fun _ _ k c =>
  match c with
  | Done a => k a
  | Fail e => Fail e
  end.

(** An exception of the evaluation that nothing catches. *)
Definition uncaught {A : Type} (r : result A) : outcome A :=
  match r with
  | Ok a => Done a
  | Raise e => Fail (Uncaught e)
  end.

(** *** ontology_quiz_generator.py: [load_mcq_bank]

    The rows are the dicts that [csv.DictReader] yields, one per line of the
    file after the header, with a string in every cell; the bank is a dict in
    the order of its insertions, a list of items with distinct keys. *)

(** [row[key]]. *)
Definition getitem (row : gmap string string) (key : string) : outcome string :=
  match row !! key with
  | Some v => Done v
  | None => Fail (KeyError key)
  end.

(** The domain and the question that the body of the loop reads off a row. *)
Definition mcq_of_row (row : gmap string string) : outcome (string * MCQ) :=
  domain ← getitem row "Domain";
  q ← getitem row "Question";
  a ← getitem row "A";
  b ← getitem row "B";
  c ← getitem row "C";
  d ← getitem row "D";
  ans ← getitem row "Answer";
  Done (domain,
        {| question := q;
           options := [a; b; c; d];
           answer := ans;
           difficulty := default "Beginner" (row !! "Difficulty") |}).

(** [bank.setdefault(domain, []).append(mcq)]. *)
Fixpoint setdefault_append (bank : list (string * list MCQ)) (domain : string)
    (mcq : MCQ) : list (string * list MCQ) :=
  match bank with
  | [] => [(domain, [mcq])]
  | (k, v) :: rest =>
      if String.eqb k domain then (k, v ++ [mcq]) :: rest
      else (k, v) :: setdefault_append rest domain mcq
  end.

Fixpoint load_rows (bank : list (string * list MCQ)) (rows : list (gmap string string))
    : outcome (list (string * list MCQ)) :=
  match rows with
  | [] => Done bank
  | row :: rows' =>
      '(domain, mcq) ← mcq_of_row row;
      load_rows (setdefault_append bank domain mcq) rows'
  end.

Definition load_mcq_bank (rows : list (gmap string string))
    : outcome (list (string * list MCQ)) :=
  load_rows [] rows.

(** The dict of a list of items, as [.get] reads it. *)
Definition dict_of_items (items : list (string * list MCQ)) : gmap string (list MCQ) :=
  list_to_map items.

(** [list(bank.keys())]. *)
Definition keys (items : list (string * list MCQ)) : list string := map fst items.

(** *** ontology_quiz_generator.py: [main] *)

(** What [main] leaves behind: the header and the rows handed to the writer
    of "evaluation_table.csv", and the lines printed. *)
Record Report : Type := {
  csv_fieldnames : list string;
  csv_rows : list Row;
  printed : list string
}.

(** ["-" * n]. *)
Fixpoint dashes (n : nat) : string :=
  match n with
  | O => EmptyString
  | S n' => String "-" (dashes n')
  end.

(** [f"{x * 100:.2f}%"]. *)
Definition percent (x : float) : string := format_2f (mul x (of_int 100)) +:+ "%".

(** The lines printed for a row of the table. *)
Definition print_row (row : Row) : list string :=
  ["Domain: " +:+ Domain row; "Accuracy: " +:+ Accuracy_Score row]
  ++ (if nonempty (MCQs row) then ["MCQs:" +:+ nl +:+ MCQs row] else [])
  ++ [dashes 40].

Section Main.

Context {tensor : Type}.
Variable MODEL : option (string -> tensor).
Variable util : option (tensor -> tensor -> float).
Variable sklearn : option Sklearn.

Definition main (rows : list (gmap string string)) : outcome Report :=
  mcq_bank ← load_mcq_bank rows;
  let domains := keys mcq_bank in
  '(table, metrics) ← uncaught (create_evaluation_table MODEL util sklearn domains
                                   (dict_of_items mcq_bank) default_threshold);
  Done {| csv_fieldnames := ["Domain"; "Generated Learning Material";
                             "Accuracy Score (%)"; "MCQs"; "Description"];
          csv_rows := table;
          printed := concat (map print_row table)
                     ++ ["Overall Metrics:";
                         "Accuracy: " +:+ percent (accuracy metrics);
                         "Precision: " +:+ percent (precision metrics);
                         "Recall: " +:+ percent (recall metrics);
                         "F1-Score: " +:+ percent (f1 metrics)] |}.

End Main.

(** *** flask_app.py: the route [quiz]

    The module builds its own lookup from the ontology, without the update of
    the generator; [evaluate_material] reads the lookup of the generator. *)

Definition FLASK_LEARNING_MATERIALS : gmap string string :=
  default ∅ (ontology_as_dict ONTOLOGY_ROOT).

(** The keyword arguments of [render_template("quiz.html", ...)]. *)
Record QuizPage : Type := {
  page_domain : option string;
  page_questions : list MCQ;
  page_difficulty : string;
  page_similarity : string
}.

Section Quiz.

Context {tensor : Type}.
Variable MODEL : option (string -> tensor).
Variable util : option (tensor -> tensor -> float).

(** The bank loaded when the module is imported. *)
Variable MCQ_BANK : gmap string (list MCQ).

(** [int(s)] on a string: [None] when it raises [ValueError]. *)
Variable py_int : string -> option Z.

(** [random.sample(population, k)]: [None] when it raises [ValueError]. *)
Variable random_sample : list MCQ -> Z -> option (list MCQ).

(** [d.get(key, default)] at a key that may be [None]. *)
Definition get_or {V : Type} (d : gmap string V) (key : option string) (dflt : V) : V :=
  match key with
  | Some k => default dflt (d !! k)
  | None => dflt
  end.

(** [evaluate_material(material, domain)] at a domain that may be [None]. *)
Definition evaluate_material_at (material : string) (domain : option string)
    : result float :=
  match domain with
  | Some d => evaluate_material MODEL util material d
  | None => bert_similarity MODEL util material ""
  end.

Definition quiz (form : gmap string string) : outcome QuizPage :=
  let domain := form !! "domain" in
  let difficulty' := default "Any" (form !! "difficulty") in
  let num := match form !! "num" with
             | Some s => default 5 (py_int s)
             | None => 5
             end in
  let questions := get_or MCQ_BANK domain [] in
  let questions :=
    if negb (String.eqb difficulty' "Any")
    then List.filter (fun q => String.eqb (difficulty q) difficulty') questions
    else questions in
  sampled ← match random_sample questions (Z.min num (Z.of_nat (length questions))) with
            | Some l => Done l
            | None => Fail ValueError
            end;
  sim ← (if (0 <? length questions)%nat
         then score ← uncaught (evaluate_material_at
                                  (get_or FLASK_LEARNING_MATERIALS domain "") domain);
              Done (mul score (of_int 100))
         else Done zero);
  Done {| page_domain := domain;
          page_questions := sampled;
          page_difficulty := difficulty';
          page_similarity := format_2f sim |}.

End Quiz.

(** *** python_ontology.py: the nodes as objects

    [add_child] appends to the list of children of an object in place, and a
    child is a reference: an object may be the child of several nodes, or of
    itself. The store maps a reference to its object. *)

Module Heap.

Definition ref : Type := nat.

Record Object : Type := {
  obj_name : string;
  obj_description : string;
  obj_difficulty : string;
  obj_examples : list string;
  obj_relationships : list Relationship;
  obj_children : list ref
}.

Abbreviation heap := (gmap ref Object).

(** [node.children]. *)
Definition children_of (h : heap) (node : ref) : list ref :=
  match h !! node with
  | Some o => obj_children o
  | None => []
  end.

(** [self.children.append(child)]: the object of [self] changes in place,
    for every holder of a reference to it. *)
Definition add_child (h : heap) (self child : ref) : heap :=
  alter (fun o => {| obj_name := obj_name o;
                     obj_description := obj_description o;
                     obj_difficulty := obj_difficulty o;
                     obj_examples := obj_examples o;
                     obj_relationships := obj_relationships o;
                     obj_children := obj_children o ++ [child] |}) self h.

(** The loop of [iter_nodes] on references: the last element of [stack] is
    its top; [None] when [fuel] turns of the loop do not empty the stack. *)
Fixpoint iter_nodes_loop (fuel : nat) (h : heap) (stack : list ref)
    : option (list ref) :=
  match rev stack with
  | [] => Some []
  | node :: below =>
      match fuel with
      | O => None
      | S fuel' =>
          rest ← iter_nodes_loop fuel' h (rev below ++ children_of h node);
          Some (node :: rest)
      end
  end.

Definition iter_nodes (fuel : nat) (h : heap) (root : ref) : option (list ref) :=
  iter_nodes_loop fuel h [root].

End Heap.


(** The object at a reference, with the objects below it, read as a tree:
    the value that the functions on [OntologyNode] take. *)
#[local] Unset Elimination Schemes.
#[local] Set Elimination Schemes.

(** Four objects: a root with the child [1], and apart from them a node [2]
    with the child [3]. *)
Definition sample_object (name : string) (children : list Heap.ref) : Heap.Object :=
  {| Heap.obj_name := name; Heap.obj_description := ""; Heap.obj_difficulty := "Beginner";
     Heap.obj_examples := []; Heap.obj_relationships := [];
     Heap.obj_children := children |}.

Definition sample_heap : Heap.heap :=
  {[ 0%nat := sample_object "Root" [1%nat];
     1%nat := sample_object "A" [];
     2%nat := sample_object "B" [3%nat];
     3%nat := sample_object "C" [] ]}.

(** The trees that the objects [0] and [2] of [sample_heap] stand for. *)
Definition sample_parent : OntologyNode :=
  Node "Root" "" "Beginner" [] [] [ Node "A" "" "Beginner" [] [] [] ].

Definition sample_child : OntologyNode :=
  Node "B" "" "Beginner" [] [] [ Node "C" "" "Beginner" [] [] [] ].

(** *** Definitions of the further proofs *)

(** The nodes of a tree, the root first, then the subtrees from the last
    child to the first. *)
Fixpoint preorder (n : OntologyNode) : list OntologyNode :=
  n :: (fix from_last (l : list OntologyNode) : list OntologyNode :=
          match l with
          | [] => []
          | x :: l' => from_last l' ++ preorder x
          end) (children n).

(** The elements of a list in the order of their first occurrence. *)
Fixpoint first_occurrences (l : list string) : list string :=
  match l with
  | [] => []
  | x :: l' => x :: List.filter (fun y => negb (String.eqb y x)) (first_occurrences l')
  end.

(** The domains and questions of the rows, when every row has its columns. *)
Fixpoint parse_rows (rows : list (gmap string string)) : outcome (list (string * MCQ)) :=
  match rows with
  | [] => Done []
  | row :: rows' =>
      item ← mcq_of_row row;
      items ← parse_rows rows';
      Done (item :: items)
  end.

(** The questions of a domain among the parsed rows, in their order. *)
Definition questions_of (domain : string) (items : list (string * MCQ)) : list MCQ :=
  map snd (List.filter (fun item => String.eqb item.1 domain) items).

(** The bank after the items, from a bank. *)
Definition group_into (bank : list (string * list MCQ)) (items : list (string * MCQ))
    : list (string * list MCQ) :=
  foldl (fun b item => setdefault_append b item.1 item.2) bank items.

(** Is [x] one of [l]? *)
Definition mem (x : string) (l : list string) : bool := existsb (String.eqb x) l.

(** Three rows of a file, the second without its optional column. *)
Definition sample_row (domain q a b c d ans : string) : gmap string string :=
  {[ "Domain" := domain; "Question" := q; "A" := a; "B" := b; "C" := c; "D" := d;
     "Answer" := ans ]}.

Definition sample_rows : list (gmap string string) :=
  [ <["Difficulty" := "Advanced"]>
      (sample_row "Loops" "Which keyword starts a loop?" "for" "if" "def" "try" "for");
    sample_row "Lists" "Which is a list?" "[1]" "(1,)" "{1}" "1" "[1]";
    <["Difficulty" := "Beginner"]>
      (sample_row "Loops" "Which loop tests a condition?" "while" "with" "pass" "del" "while") ].

(** The domains and questions of [sample_rows]. *)
Definition sample_items : list (string * MCQ) :=
  [ ("Loops",
     {| question := "Which keyword starts a loop?";
        options := ["for"; "if"; "def"; "try"];
        answer := "for"; difficulty := "Advanced" |});
    ("Lists",
     {| question := "Which is a list?";
        options := ["[1]"; "(1,)"; "{1}"; "1"];
        answer := "[1]"; difficulty := "Beginner" |});
    ("Loops",
     {| question := "Which loop tests a condition?";
        options := ["while"; "with"; "pass"; "del"];
        answer := "while"; difficulty := "Beginner" |}) ].

(** What [main] leaves behind on [sample_rows], without the sentence encoder
    and without scikit-learn. *)
Definition sample_report : Report :=
  {| csv_fieldnames := ["Domain"; "Generated Learning Material";
                        "Accuracy Score (%)"; "MCQs"; "Description"];
     csv_rows := zip_with (row_of (dict_of_items (group_into [] sample_items)))
                          ["Loops"; "Lists"] [one; one];
     printed := concat (map print_row
                          (zip_with (row_of (dict_of_items (group_into [] sample_items)))
                                    ["Loops"; "Lists"] [one; one]))
                ++ ["Overall Metrics:"; "Accuracy: 100.00%"; "Precision: 100.00%";
                    "Recall: 100.00%"; "F1-Score: 100.00%"] |}.

(** Does the lookup of the generator hold the domain? *)
Definition known_domain (domain : string) : bool :=
  match LEARNING_MATERIALS !! domain with
  | Some _ => true
  | None => false
  end.

(** The questions that [quiz] samples from: those of the domain of the form,
    of the difficulty of the form unless it is "Any". *)
Definition eligible_questions (MCQ_BANK : gmap string (list MCQ))
    (form : gmap string string) : list MCQ :=
  let questions := match form !! "domain" with
                   | Some d => default [] (MCQ_BANK !! d)
                   | None => []
                   end in
  if negb (String.eqb (default "Any" (form !! "difficulty")) "Any")
  then List.filter (fun q => String.eqb (difficulty q) (default "Any" (form !! "difficulty")))
                   questions
  else questions.

(** The number of questions that [quiz] asks [random.sample] for. *)
Definition requested (py_int : string -> option Z) (MCQ_BANK : gmap string (list MCQ))
    (form : gmap string string) : Z :=
  Z.min (match form !! "num" with
         | Some s => default 5 (py_int s)
         | None => 5
         end)
        (Z.of_nat (length (eligible_questions MCQ_BANK form))).

(** The topics that the generator adds to its lookup or replaces in it. *)
Definition updated_topics : list string :=
  ["Algorithms"; "RelationalOperator"; "LogicalOperator"; "Variable"].

Definition required_columns : list string :=
  ["Domain"; "Question"; "A"; "B"; "C"; "D"; "Answer"].

(** A pair of labels that [compute_metrics] counts: both are 0 or 1. *)
Definition counted (t p : Z) : bool :=
  ((t =? 0) || (t =? 1)) && ((p =? 0) || (p =? 1)).

(** The number of counted pairs, and of those whose labels agree. *)
Definition counted_pairs (y_true y_pred : list Z) : Z :=
  Z.of_nat (length (List.filter (fun tp => counted tp.1 tp.2) (zip y_true y_pred))).

Definition agreements (y_true y_pred : list Z) : Z :=
  Z.of_nat (length (List.filter (fun tp => counted tp.1 tp.2 && (tp.1 =? tp.2))
                                (zip y_true y_pred))).


(** A form that asks for the questions of "Lists", a bank with one question
    of that domain, and one of the samples that [random.sample] may return:
    the first [k] questions. *)
Definition sample_form : gmap string string := {[ "domain" := "Lists" ]}.

Definition sample_bank : gmap string (list MCQ) :=
  dict_of_items (group_into [] sample_items).

Definition first_questions (population : list MCQ) (k : Z) : option (list MCQ) :=
  if (k <? 0) || (Z.of_nat (length population) <? k) then None
  else Some (firstn (Z.to_nat k) population).

Definition sample_page : QuizPage :=
  {| page_domain := Some "Lists";
     page_questions := [ {| question := "Which is a list?";
                            options := ["[1]"; "(1,)"; "{1}"; "1"];
                            answer := "[1]"; difficulty := "Beginner" |} ];
     page_difficulty := "Any";
     page_similarity := "100.00" |}.
(** * Properties *)

(** ** The literals *)

Example one_is_float_of_1 : of_int 1 = one.
Proof. reflexivity. Qed.

Example lit_0_9_is_9_tenths : int_truediv 9 10 = Ok lit_0_9.
Proof. vm_compute. reflexivity. Qed.

Example lit_0_7_is_7_tenths : int_truediv 7 10 = Ok lit_0_7.
Proof. vm_compute. reflexivity. Qed.

Example lit_0_5_is_half : int_truediv 1 2 = Ok lit_0_5.
Proof. vm_compute. reflexivity. Qed.

(** ** Strings *)

Example format_2f_values :
  format_2f (mul one (of_int 100)) = "100.00" /\
  format_2f (mul lit_0_5 (of_int 100)) = "50.00" /\
  format_2f (S754_finite false 1 (-3)) = "0.12" /\
  format_2f (S754_finite true 3 (-3)) = "-0.38".
Proof. vm_compute. repeat split. Qed.

Example is_space_values :
  map (fun n => is_space (ascii_of_N n)) [8; 9; 13; 14; 27; 28; 32; 33; 133; 160; 161]%N
  = [false; true; true; false; false; true; true; false; true; true; false].
Proof. reflexivity. Qed.

Example lower_char_values :
  map (fun n => N_of_ascii (lower_char (ascii_of_N n))) [64; 65; 90; 91; 97; 192; 215; 222; 223]%N
  = [64; 97; 122; 91; 97; 224; 215; 254; 223]%N.
Proof. reflexivity. Qed.

Example split_tabs_and_feeds :
  split ("a" +:+ String (ascii_of_N 9) "b" +:+ nl +:+ nl +:+ "c d ") = ["a"; "b"; "c"; "d"].
Proof. vm_compute. reflexivity. Qed.

Example split_lower_value :
  split (lower "  The Cat SAT  ") = ["the"; "cat"; "sat"].
Proof. vm_compute. reflexivity. Qed.

(** ** The ontology *)

Lemma node_count_children n : node_count n = S (nodes_count (children n)).
Proof.
  destruct n as [n d f e r c]. reflexivity.
Qed.

Lemma nodes_count_app l l' :
  nodes_count (l ++ l') = (nodes_count l + nodes_count l')%nat.
Proof.
  induction l as [|x l IH]; [reflexivity|].
  cbn [app nodes_count foldr]. fold (nodes_count (l ++ l')) (nodes_count l).
  rewrite IH. lia.
Qed.

(** With as many turns as the stack holds nodes, the loop of [iter_nodes]
    empties its stack and yields each node once. *)
Lemma iter_nodes_loop_total fuel : forall stack,
  (nodes_count stack <= fuel)%nat ->
  exists nodes, iter_nodes_loop fuel stack = Some nodes /\
                length nodes = nodes_count stack.
Proof.
  induction fuel as [|fuel IH]; intros stack Hfuel.
  - destruct stack as [|x stack]; [exists []; split; reflexivity|].
    exfalso. cbn [nodes_count foldr] in Hfuel.
    rewrite node_count_children in Hfuel. lia.
  - destruct (rev stack) as [|node below] eqn:Hrev.
    + exists []. cbn [iter_nodes_loop]. rewrite Hrev. split; [reflexivity|].
      apply (f_equal (@rev _)) in Hrev. rewrite rev_involutive in Hrev.
      rewrite Hrev. reflexivity.
    + assert (stack = rev below ++ [node]) as Hstack.
      { apply (f_equal (@rev _)) in Hrev. rewrite rev_involutive in Hrev.
        exact Hrev. }
      assert (nodes_count stack
              = S (nodes_count (rev below ++ children node))) as Hcount.
      { rewrite Hstack, !nodes_count_app. cbn [nodes_count foldr].
        rewrite node_count_children. lia. }
      destruct (IH (rev below ++ children node) ltac:(lia)) as (rest & Hrest & Hlen).
      exists (node :: rest). cbn [iter_nodes_loop]. rewrite Hrev, Hrest.
      split; [reflexivity|]. cbn [length]. lia.
Qed.

(** [iter_nodes] yields the nodes of every tree. *)
Lemma iter_nodes_total root :
  exists nodes, iter_nodes root = Some nodes /\ length nodes = node_count root.
Proof.
  destruct (iter_nodes_loop_total (node_count root) [root]) as (nodes & H & Hlen).
  - cbn [nodes_count foldr]. lia.
  - exists nodes. split; [exact H|]. rewrite Hlen. cbn [nodes_count foldr]. lia.
Qed.

(** The loop of [iter_nodes] empties its stack on the ontology: the fuel is
    enough and the dictionary is the one of its 47 nodes. *)
Lemma iter_nodes_ontology :
  exists nodes, iter_nodes ONTOLOGY_ROOT = Some nodes /\ length nodes = 47%nat.
Proof. eexists. split; vm_compute; reflexivity. Qed.

Lemma ontology_as_dict_total root : is_Some (ontology_as_dict root).
Proof.
  unfold ontology_as_dict. destruct (iter_nodes_total root) as (nodes & -> & _).
  eexists. reflexivity.
Qed.

(** The update of the module replaces the description of "Algorithms" and
    adds three topics to the 47 of the ontology. *)
Example learning_materials_size : size LEARNING_MATERIALS = 50%nat.
Proof. vm_compute. reflexivity. Qed.

Example learning_materials_algorithms :
  description <$> (nodes ← iter_nodes ONTOLOGY_ROOT;
                   head (List.filter (fun n => String.eqb (name n) "Algorithms") nodes))
  = Some "General techniques for solving computational problems." /\
  LEARNING_MATERIALS !! "Algorithms"
  = Some ("Algorithms are step-by-step procedures for solving problems. In "
          +:+ "Python, you can implement algorithms for sorting, searching, and "
          +:+ "manipulating data.").
Proof. split; vm_compute; reflexivity. Qed.

Example learning_materials_missing : LEARNING_MATERIALS !! "Quantum" = None.
Proof. vm_compute. reflexivity. Qed.

Example learning_materials_lists :
  LEARNING_MATERIALS !! "Lists" = Some "Mutable ordered collections.".
Proof. vm_compute. reflexivity. Qed.

(** ** Rounding: the codes *)

Lemma rcode_of_loc m l : rcode (shr_record_of_loc m l) = 4 * m + loc_code l.
Proof. destruct l as [|[]]; reflexivity. Qed.

Lemma loc_code_range l : 0 <= loc_code l < 4.
Proof. destruct l as [|[]]; simpl; lia. Qed.

Lemma shr_m_rcode mrs : shr_m mrs = rcode mrs / 4.
Proof.
  unfold rcode. pose proof (loc_code_range (loc_of_shr_record mrs)).
  apply Z.div_unique with (r := loc_code (loc_of_shr_record mrs)); lia.
Qed.

Lemma div4_code m c : 0 <= c < 4 -> (4 * m + c) / 4 = m.
Proof. intros H. symmetry. apply Z.div_unique with (r := c); lia. Qed.

Lemma mod4_code m c : 0 <= c < 4 -> (4 * m + c) mod 4 = c.
Proof. intros H. symmetry. apply Z.mod_unique with (q := m); lia. Qed.

Lemma sticky_half_code m c :
  0 <= c < 4 -> sticky_half (4 * m + c) = 2 * m + (if c =? 0 then 0 else 1).
Proof. intros H. unfold sticky_half. now rewrite div4_code, mod4_code. Qed.

Lemma shr_1_code mrs : 0 <= shr_m mrs -> rcode (shr_1 mrs) = sticky_half (rcode mrs).
Proof.
  destruct mrs as [m r s]. cbn [shr_m]. intros Hm. unfold rcode.
  rewrite sticky_half_code by apply loc_code_range.
  destruct m as [|p|p]; [| |lia].
  - destruct r, s; reflexivity.
  - destruct p as [p|p|]; cbn [shr_1 shr_m];
      [rewrite (Pos2Z.inj_xI p) | rewrite (Pos2Z.inj_xO p) |];
      destruct r, s; cbn [loc_of_shr_record loc_code orb]; simpl Z.eqb; cbv iota; lia.
Qed.

Lemma rne_code mrs :
  round_nearest_even (shr_m mrs) (loc_of_shr_record mrs) = rne (rcode mrs).
Proof.
  unfold rne. rewrite <- shr_m_rcode.
  assert (rcode mrs mod 4 = loc_code (loc_of_shr_record mrs)) as ->.
  { unfold rcode. pose proof (loc_code_range (loc_of_shr_record mrs)).
    symmetry. apply Z.mod_unique with (q := shr_m mrs); lia. }
  destruct (loc_of_shr_record mrs) as [|[]]; reflexivity.
Qed.

Lemma sticky_half_mono u v : 0 <= u <= v -> sticky_half u <= sticky_half v.
Proof.
  intros H. unfold sticky_half.
  destruct (Z.eqb_spec (u mod 4) 0), (Z.eqb_spec (v mod 4) 0);
    Z.div_mod_to_equations; lia.
Qed.

Lemma rne_mono u v : 0 <= u <= v -> rne u <= rne v.
Proof.
  intros H. unfold rne.
  destruct (Z.eq_dec (u / 4) (v / 4)) as [Heq|Hne].
  - rewrite Heq.
    destruct (Z.leb_spec (u mod 4) 1), (Z.leb_spec (v mod 4) 1);
      destruct (Z.eqb_spec (u mod 4) 2), (Z.eqb_spec (v mod 4) 2);
      destruct (Z.even (v / 4));
      Z.div_mod_to_equations; lia.
  - destruct (Z.leb_spec (u mod 4) 1), (Z.leb_spec (v mod 4) 1);
      destruct (Z.eqb_spec (u mod 4) 2), (Z.eqb_spec (v mod 4) 2);
      destruct (Z.even (u / 4)), (Z.even (v / 4));
      Z.div_mod_to_equations; lia.
Qed.

Lemma rne_bounds u : u / 4 <= rne u <= u / 4 + 1.
Proof.
  unfold rne.
  destruct (Z.leb_spec (u mod 4) 1); [lia|].
  destruct (Z.eqb_spec (u mod 4) 2); [destruct (Z.even (u / 4))|]; lia.
Qed.

Lemma rne_exact m : rne (4 * m) = m.
Proof.
  unfold rne. replace (4 * m) with (4 * m + 0) by lia.
  rewrite div4_code, mod4_code by lia. reflexivity.
Qed.

Lemma rne_sticky_half_le u : 0 <= u -> rne (sticky_half u) <= rne u.
Proof.
  intros Hu.
  pose proof (rne_bounds u) as Hb. pose proof (rne_bounds (sticky_half u)) as Hs.
  assert (u / 4 <= 1 \/ 2 <= u / 4) as [Hsmall|Hbig] by lia.
  - assert (0 <= u < 8) as Hr by (Z.div_mod_to_equations; lia).
    assert (u = 0 \/ u = 1 \/ u = 2 \/ u = 3 \/ u = 4 \/ u = 5 \/ u = 6 \/ u = 7)
      as Hc by lia.
    destruct Hc as [->|[->|[->|[->|[->|[->|[->| ->]]]]]]]; vm_compute; discriminate.
  - unfold sticky_half in Hs |- *.
    destruct (Z.eqb_spec (u mod 4) 0); Z.div_mod_to_equations; lia.
Qed.

(** Digits. *)

Lemma digits2_pos_bounds p :
  2 ^ (Zpos (digits2_pos p) - 1) <= Zpos p < 2 ^ Zpos (digits2_pos p).
Proof.
  induction p as [p IH|p IH|]; cbn [digits2_pos].
  - rewrite Pos2Z.inj_succ, (Pos2Z.inj_xI p).
    replace (Z.succ (Zpos (digits2_pos p)) - 1) with (Z.succ (Zpos (digits2_pos p) - 1)) by lia.
    rewrite !Z.pow_succ_r by lia. lia.
  - rewrite Pos2Z.inj_succ, (Pos2Z.inj_xO p).
    replace (Z.succ (Zpos (digits2_pos p)) - 1) with (Z.succ (Zpos (digits2_pos p) - 1)) by lia.
    rewrite !Z.pow_succ_r by lia. lia.
  - vm_compute. split; [discriminate | reflexivity].
Qed.

Lemma Zdigits2_nonneg q : 0 <= q -> 0 <= Zdigits2 q.
Proof. destruct q; simpl; lia. Qed.

Lemma Zdigits2_le k q : 0 <= k -> 0 <= q < 2 ^ k -> Zdigits2 q <= k.
Proof.
  intros Hk [Hq Hlt]. destruct q as [|p|p]; [simpl; lia| |lia].
  cbn [Zdigits2]. pose proof (digits2_pos_bounds p) as [Hlo _].
  destruct (Z.le_gt_cases (Zpos (digits2_pos p)) k) as [|Hgt]; [assumption|].
  assert (2 ^ k <= 2 ^ (Zpos (digits2_pos p) - 1)) by (apply Z.pow_le_mono_r; lia).
  lia.
Qed.

Lemma Zdigits2_ge k q : 0 < q -> 2 ^ (k - 1) <= q -> k <= Zdigits2 q.
Proof.
  intros Hq Hlo. destruct q as [|p|p]; [lia| |lia].
  cbn [Zdigits2]. pose proof (digits2_pos_bounds p) as [_ Hhi].
  destruct (Z.le_gt_cases k (Zpos (digits2_pos p))) as [|Hgt]; [assumption|].
  assert (2 ^ Zpos (digits2_pos p) <= 2 ^ (k - 1)) by (apply Z.pow_le_mono_r; lia).
  lia.
Qed.

Lemma pow2_53 : 2 ^ 53 = 9007199254740992. Proof. reflexivity. Qed.

Lemma pow2_54 : 2 ^ 54 = 18014398509481984. Proof. reflexivity. Qed.

Lemma pow2_52 : 2 ^ 52 = 4503599627370496. Proof. reflexivity. Qed.

(** The two shifts of the rounding step. *)

Lemma shr_fexp_keep m e l :
  0 <= m < 2 ^ 53 -> -1074 <= e ->
  shr_fexp prec emax m e l = (shr_record_of_loc m l, e).
Proof.
  intros Hm He. unfold shr_fexp, shr.
  pose proof (Zdigits2_le 53 m ltac:(lia) Hm) as Hd.
  assert (fexp prec emax (Zdigits2 m + e) - e <= 0) as Hn
    by (unfold fexp, emin, prec, emax; lia).
  destruct (fexp prec emax (Zdigits2 m + e) - e); [reflexivity|lia|reflexivity].
Qed.

Lemma shr_fexp_once m e l :
  2 ^ 53 <= m < 2 ^ 54 -> -1074 <= e ->
  shr_fexp prec emax m e l = (shr_1 (shr_record_of_loc m l), e + 1).
Proof.
  intros Hm He. unfold shr_fexp, shr.
  pose proof (Zdigits2_le 54 m ltac:(lia) ltac:(lia)) as Hd.
  pose proof (Zdigits2_ge 54 m ltac:(lia) ltac:(change (54 - 1) with 53; lia)) as Hd'.
  assert (fexp prec emax (Zdigits2 m + e) - e = 1) as ->
    by (unfold fexp, emin, prec, emax; lia).
  reflexivity.
Qed.

Lemma bra_round_at mrs e :
  0 <= shr_m mrs < 2 ^ 53 -> -1074 <= e ->
  (let '(mrs2, e2) :=
     shr_fexp prec emax (round_nearest_even (shr_m mrs) (loc_of_shr_record mrs)) e loc_Exact in
   match shr_m mrs2 with
   | Z0 => S754_zero false
   | Zpos m => if e2 <=? emax - prec then S754_finite false m e2 else S754_infinity false
   | Zneg _ => S754_nan
   end) = round_at (rcode mrs) e.
Proof.
  intros Hm He. rewrite rne_code. unfold round_at.
  pose proof (rne_bounds (rcode mrs)) as Hb. rewrite <- shr_m_rcode in Hb.
  destruct (Z.ltb_spec (rne (rcode mrs)) (2 ^ 53)) as [Hlt|Hge].
  - rewrite shr_fexp_keep by lia. reflexivity.
  - assert (rne (rcode mrs) = 2 ^ 53) as -> by lia.
    rewrite shr_fexp_once; [reflexivity | rewrite pow2_53, pow2_54; lia | lia].
Qed.

Lemma bra_small m e l :
  0 <= m < 2 ^ 53 -> -1074 <= e ->
  binary_round_aux prec emax false m e l = round_at (4 * m + loc_code l) e.
Proof.
  intros Hm He. unfold binary_round_aux. rewrite shr_fexp_keep by assumption.
  rewrite <- rcode_of_loc. apply bra_round_at; [|assumption].
  rewrite shr_m_rcode, rcode_of_loc, div4_code by apply loc_code_range. assumption.
Qed.

Lemma bra_big m e l :
  2 ^ 53 <= m < 2 ^ 54 -> -1074 <= e ->
  binary_round_aux prec emax false m e l
  = round_at (sticky_half (4 * m + loc_code l)) (e + 1).
Proof.
  intros Hm He. unfold binary_round_aux. rewrite shr_fexp_once by assumption.
  assert (shr_m (shr_record_of_loc m l) = m) as Hsm
    by (rewrite shr_m_rcode, rcode_of_loc, div4_code by apply loc_code_range; reflexivity).
  rewrite <- rcode_of_loc, <- shr_1_code by (rewrite Hsm; lia).
  apply bra_round_at; [|lia].
  rewrite shr_m_rcode, shr_1_code, rcode_of_loc by (rewrite Hsm; lia).
  pose proof (loc_code_range l).
  rewrite sticky_half_code by assumption.
  rewrite pow2_53, pow2_54 in *.
  destruct (loc_code l =? 0); Z.div_mod_to_equations; lia.
Qed.

Lemma rem_code_range r b : 0 <= rem_code r b < 4.
Proof. unfold rem_code. destruct (r =? 0), (2 * r ?= b); lia. Qed.

Lemma new_location_code b r :
  0 < b -> 0 <= r < b -> loc_code (new_location b r) = rem_code r b.
Proof.
  intros Hb Hr. unfold new_location, new_location_even, new_location_odd, rem_code.
  destruct (Z.even b) eqn:Hev; destruct (Z.eqb_spec r 0); try reflexivity.
  assert (Z.odd b = true) as Hodd by (rewrite <- Z.negb_even, Hev; reflexivity).
  apply Z.odd_spec in Hodd as [k Hk].
  destruct (Z.compare_spec (2 * r + 1) b), (Z.compare_spec (2 * r) b);
    try reflexivity; lia.
Qed.

Lemma qcode_nonneg a b E : 0 <= a -> 0 < b -> 0 <= qcode a b E.
Proof.
  intros Ha Hb. unfold qcode.
  pose proof (rem_code_range ((a * 2 ^ (- E)) mod b) b).
  assert (0 <= 2 ^ (- E)) by (apply Z.pow_nonneg; lia).
  assert (0 <= a * 2 ^ (- E) / b)
    by (apply Z.div_pos; [apply Z.mul_nonneg_nonneg|]; lia).
  lia.
Qed.

Lemma qcode_div4 a b E : qcode a b E / 4 = a * 2 ^ (- E) / b.
Proof. unfold qcode. apply div4_code, rem_code_range. Qed.

Lemma rem_code_spec r b :
  (r = 0 /\ rem_code r b = 0) \/ (r <> 0 /\ 2 * r < b /\ rem_code r b = 1) \/
  (r <> 0 /\ 2 * r = b /\ rem_code r b = 2) \/ (r <> 0 /\ b < 2 * r /\ rem_code r b = 3).
Proof.
  unfold rem_code.
  destruct (Z.eqb_spec r 0); [left; auto|right].
  destruct (Z.compare_spec (2 * r) b); auto.
Qed.

Ltac rem_cases r b :=
  let H := fresh "Hc" in
  destruct (rem_code_spec r b) as [(? & H)|[(? & ? & H)|[(? & ? & H)|(? & ? & H)]]];
  rewrite H; clear H; try lia.

Lemma qcode_step a b E :
  0 < b -> E < 0 -> sticky_half (qcode a b E) = qcode a b (E + 1).
Proof.
  intros Hb HE. unfold qcode.
  rewrite sticky_half_code by apply rem_code_range.
  replace (- E) with (Z.succ (- (E + 1))) by lia.
  rewrite Z.pow_succ_r by lia.
  set (n := a * 2 ^ (- (E + 1))).
  replace (a * (2 * 2 ^ (- (E + 1)))) with (2 * n) by (unfold n; lia).
  pose proof (Z.div_mod n b ltac:(lia)) as Hn.
  pose proof (Z.mod_pos_bound n b Hb) as Hr.
  set (q := n / b) in *. set (r := n mod b) in *.
  clearbody q r. clearbody n.
  destruct (Z.compare_spec (2 * r) b) as [Heq|Hlt|Hgt].
  - assert (2 * n / b = 2 * q + 1) as ->
      by (symmetry; apply Z.div_unique with (r := 0); lia).
    assert ((2 * n) mod b = 0) as ->
      by (symmetry; apply Z.mod_unique with (q := 2 * q + 1); lia).
    rem_cases 0 b. rem_cases r b. cbn [Z.eqb]. lia.
  - assert (2 * n / b = 2 * q) as ->
      by (symmetry; apply Z.div_unique with (r := 2 * r); lia).
    assert ((2 * n) mod b = 2 * r) as ->
      by (symmetry; apply Z.mod_unique with (q := 2 * q); lia).
    rem_cases (2 * r) b; rem_cases r b; cbn [Z.eqb Pos.eqb]; lia.
  - assert (2 * n / b = 2 * q + 1) as ->
      by (symmetry; apply Z.div_unique with (r := 2 * r - b); lia).
    assert ((2 * n) mod b = 2 * r - b) as ->
      by (symmetry; apply Z.mod_unique with (q := 2 * q + 1); lia).
    rem_cases (2 * r - b) b; rem_cases r b; cbn [Z.eqb Pos.eqb]; lia.
Qed.

Lemma rem_code_mono r r' b : 0 <= r <= r' -> rem_code r b <= rem_code r' b.
Proof.
  intros H. unfold rem_code.
  destruct (Z.eqb_spec r 0), (Z.eqb_spec r' 0);
    destruct (Z.compare_spec (2 * r) b), (Z.compare_spec (2 * r') b); lia.
Qed.

Lemma qcode_mono a a' b E :
  0 < b -> 0 <= a <= a' -> qcode a b E <= qcode a' b E.
Proof.
  intros Hb Ha. unfold qcode.
  assert (0 <= 2 ^ (- E)) as Hp by (apply Z.pow_nonneg; lia).
  set (n := a * 2 ^ (- E)). set (n' := a' * 2 ^ (- E)).
  assert (0 <= n <= n') as Hn by (unfold n, n'; nia).
  pose proof (Z.div_mod n b ltac:(lia)). pose proof (Z.mod_pos_bound n b Hb).
  pose proof (Z.div_mod n' b ltac:(lia)). pose proof (Z.mod_pos_bound n' b Hb).
  pose proof (rem_code_range (n mod b) b). pose proof (rem_code_range (n' mod b) b).
  assert (n / b <= n' / b) as Hq by (apply Z.div_le_mono; lia).
  destruct (Z.eq_dec (n / b) (n' / b)) as [Heq|Hne]; [|lia].
  rewrite Heq. pose proof (rem_code_mono (n mod b) (n' mod b) b ltac:(nia)). lia.
Qed.

Lemma round_at_spec a b e1 :
  0 <= a -> 0 < b -> -1074 <= e1 < 0 ->
  qcode a b e1 / 4 < 2 ^ 53 ->
  (e1 = -1074 \/ 2 ^ 52 <= qcode a b e1 / 4) ->
  exists m E, round_at (qcode a b e1) e1 = pack m E /\ rounds_to a b m E.
Proof.
  intros Ha Hb He Hhi Hlo. unfold round_at.
  pose proof (rne_bounds (qcode a b e1)) as Hr.
  destruct (Z.ltb_spec (rne (qcode a b e1)) (2 ^ 53)) as [Hlt|Hge].
  - exists (rne (qcode a b e1)), e1. split; [reflexivity|]. unfold rounds_to.
    split; [lia|]. split; [reflexivity|]. split; [assumption|].
    destruct Hlo as [Hlo|Hlo]; [left; assumption|right].
    pose proof (qcode_step a b (e1 - 1) Hb ltac:(lia)) as Hstep.
    replace (e1 - 1 + 1) with e1 in Hstep by lia.
    pose proof (rne_bounds (qcode a b (e1 - 1))) as Hw.
    unfold sticky_half in Hstep. rewrite pow2_52, pow2_53 in *.
    destruct (qcode a b (e1 - 1) mod 4 =? 0); Z.div_mod_to_equations; lia.
  - exists (2 ^ 52), (e1 + 1). split; [reflexivity|]. unfold rounds_to.
    rewrite <- (qcode_step a b e1 Hb) by lia.
    assert (qcode a b e1 / 4 = 2 ^ 53 - 1 /\ 2 <= qcode a b e1 mod 4 < 4)
      as [Hq Hc].
    { unfold rne in Hge.
      pose proof (Z.mod_pos_bound (qcode a b e1) 4 ltac:(lia)).
      destruct (Z.leb_spec (qcode a b e1 mod 4) 1); [lia|].
      destruct (qcode a b e1 mod 4 =? 2);
        [destruct (Z.even (qcode a b e1 / 4))|]; lia. }
    assert (sticky_half (qcode a b e1) = 2 ^ 54 - 1) as Hs.
    { rewrite (Z.div_mod (qcode a b e1) 4) at 1 by lia.
      rewrite sticky_half_code by lia. rewrite Hq.
      destruct (Z.eqb_spec (qcode a b e1 mod 4) 0); [lia|reflexivity]. }
    split; [lia|]. split; [rewrite Hs; reflexivity|]. split; [reflexivity|].
    right. replace (e1 + 1 - 1) with e1 by lia. lia.
Qed.

Lemma div_eucl_div_mod n b : Z.div_eucl n b = (n / b, n mod b).
Proof. unfold Z.div, Z.modulo. destruct (Z.div_eucl n b); reflexivity. Qed.

Lemma SFdiv_rounds_to pa pb :
  Zpos pa <= Zpos pb ->
  exists m E,
    SFdiv prec emax (S754_finite false pa 0) (S754_finite false pb 0) = pack m E /\
    rounds_to (Zpos pa) (Zpos pb) m E.
Proof.
  intros Hab.
  pose proof (digits2_pos_bounds pa) as [Halo Hahi].
  pose proof (digits2_pos_bounds pb) as [Hblo Hbhi].
  set (d1 := Zpos (digits2_pos pa)) in *. set (d2 := Zpos (digits2_pos pb)) in *.
  assert (0 < d1) as Hd1 by (unfold d1; lia).
  assert (d1 <= d2) as Hd.
  { destruct (Z.le_gt_cases d1 d2) as [|Hgt]; [assumption|].
    assert (2 ^ d2 <= 2 ^ (d1 - 1)) by (apply Z.pow_le_mono_r; lia). lia. }
  set (e0 := Z.max (d1 - d2 - 53) (-1074)).
  assert (-1074 <= e0 <= -53) as He0 by (unfold e0; lia).
  set (n := Zpos pa * 2 ^ (- e0)).
  assert (0 < 2 ^ (- e0)) as Hpow by (apply Z.pow_pos_nonneg; lia).
  assert (n / Zpos pb < 2 ^ 54) as Hqhi.
  { apply Z.div_lt_upper_bound; [lia|].
    assert (2 ^ d1 * 2 ^ (- e0) <= 2 ^ 54 * 2 ^ (d2 - 1)) as Hle.
    { rewrite <- !Z.pow_add_r by lia. apply Z.pow_le_mono_r; unfold e0; lia. }
    unfold n. nia. }
  assert (e0 = -1074 \/ 2 ^ 52 <= n / Zpos pb) as Hqlo.
  { destruct (Z.eq_dec e0 (-1074)) as [|Hne]; [left; assumption|right].
    apply Z.div_le_lower_bound; [lia|].
    assert (2 ^ 52 * 2 ^ d2 <= 2 ^ (d1 - 1) * 2 ^ (- e0)) as Hle.
    { rewrite <- !Z.pow_add_r by lia. apply Z.pow_le_mono_r; unfold e0 in *; lia. }
    unfold n. nia. }
  assert (0 <= n / Zpos pb) as Hq0 by (apply Z.div_pos; unfold n; lia).
  assert (SFdiv_core_binary prec emax (Zpos pa) 0 (Zpos pb) 0
          = (n / Zpos pb, e0, new_location (Zpos pb) (n mod Zpos pb))) as Hcore.
  { unfold SFdiv_core_binary. cbn [Zdigits2]. fold d1 d2.
    assert (Z.min (fexp prec emax (d1 + 0 - (d2 + 0))) (0 - 0) = e0) as ->
      by (unfold fexp, emin, prec, emax, e0; lia).
    assert (0 - 0 - e0 = - e0) as -> by lia.
    assert (exists s, - e0 = Zpos s) as [s Hs]
      by (exists (Z.to_pos (- e0)); lia).
    rewrite Hs at 1. rewrite Z.shiftl_mul_pow2 by lia. fold n.
    rewrite div_eucl_div_mod. reflexivity. }
  unfold SFdiv. rewrite Hcore. cbn [xorb].
  pose proof (Z.mod_pos_bound n (Zpos pb) ltac:(lia)) as Hr.
  pose proof (new_location_code (Zpos pb) (n mod Zpos pb) ltac:(lia) Hr) as Hloc.
  assert (4 * (n / Zpos pb) + loc_code (new_location (Zpos pb) (n mod Zpos pb))
          = qcode (Zpos pa) (Zpos pb) e0) as Hcode
    by (rewrite Hloc; reflexivity).
  destruct (Z.lt_ge_cases (n / Zpos pb) (2 ^ 53)) as [Hsmall|Hbig].
  - rewrite bra_small, Hcode by lia.
    apply round_at_spec; try lia; rewrite qcode_div4; fold n; lia.
  - rewrite bra_big, Hcode by lia.
    rewrite qcode_step by lia.
    apply round_at_spec; try lia.
    + rewrite <- qcode_step, <- Hcode by lia.
      rewrite sticky_half_code by apply loc_code_range.
      rewrite pow2_53, pow2_54 in *.
      destruct (loc_code (new_location (Zpos pb) (n mod Zpos pb)) =? 0);
        Z.div_mod_to_equations; lia.
    + right. rewrite <- qcode_step, <- Hcode by lia.
      rewrite sticky_half_code by apply loc_code_range.
      rewrite pow2_52, pow2_53 in *.
      destruct (loc_code (new_location (Zpos pb) (n mod Zpos pb)) =? 0);
        Z.div_mod_to_equations; lia.
Qed.

Lemma rne_qcode_antitone a b (k : nat) E :
  0 <= a -> 0 < b -> E + Z.of_nat k <= 0 ->
  rne (qcode a b (E + Z.of_nat k)) <= rne (qcode a b E).
Proof.
  intros Ha Hb. induction k as [|k IH]; intros HE.
  - rewrite Z.add_0_r. lia.
  - rewrite Nat2Z.inj_succ in *.
    replace (E + Z.succ (Z.of_nat k)) with (E + Z.of_nat k + 1) by lia.
    rewrite <- qcode_step by lia.
    pose proof (rne_sticky_half_le (qcode a b (E + Z.of_nat k))
                  (qcode_nonneg a b _ Ha Hb)).
    specialize (IH ltac:(lia)). lia.
Qed.

Lemma rounds_to_nonneg a b m E : 0 <= a -> 0 < b -> rounds_to a b m E -> 0 <= m.
Proof.
  intros Ha Hb (_ & -> & _). pose proof (rne_bounds (qcode a b E)).
  pose proof (qcode_nonneg a b E Ha Hb).
  assert (0 <= qcode a b E / 4) by (apply Z.div_pos; lia). lia.
Qed.

Lemma rounds_to_order a a' b m E m' E' :
  0 <= a <= a' -> 0 < b ->
  rounds_to a b m E -> rounds_to a' b m' E' ->
  (E < E' /\ 0 < m') \/ (E = E' /\ m <= m').
Proof.
  intros Ha Hb (HE & Hm & Hlt & Hmin) (HE' & Hm' & Hlt' & Hmin').
  destruct (Z.lt_trichotomy E E') as [Hlt1|[Heq|Hgt]].
  - left. split; [assumption|].
    destruct Hmin' as [|Hmin']; [lia|].
    pose proof (qcode_step a' b (E' - 1) Hb ltac:(lia)) as Hstep.
    replace (E' - 1 + 1) with E' in Hstep by lia.
    rewrite Hm', <- Hstep.
    pose proof (rne_bounds (qcode a' b (E' - 1))) as Hw.
    pose proof (rne_bounds (sticky_half (qcode a' b (E' - 1)))) as Hs.
    unfold sticky_half in Hs |- *. rewrite pow2_53 in *.
    destruct (qcode a' b (E' - 1) mod 4 =? 0); Z.div_mod_to_equations; lia.
  - right. split; [assumption|]. subst E' m m'.
    apply rne_mono. split; [apply qcode_nonneg; lia|apply qcode_mono; lia].
  - exfalso. destruct Hmin as [|Hmin]; [lia|].
    pose proof (rne_qcode_antitone a b (Z.to_nat (E - 1 - E')) E'
                  ltac:(lia) Hb ltac:(lia)) as Hanti.
    replace (E' + Z.of_nat (Z.to_nat (E - 1 - E'))) with (E - 1) in Hanti by lia.
    assert (rne (qcode a b E') <= rne (qcode a' b E')) as Hmono
      by (apply rne_mono; split; [apply qcode_nonneg; lia|apply qcode_mono; lia]).
    lia.
Qed.

Lemma pack_le m E m' E' :
  0 <= m -> E' <= 0 ->
  (E < E' /\ 0 < m') \/ (E = E' /\ m <= m') ->
  SFleb (pack m E) (pack m' E') = true.
Proof.
  intros Hm HE' Hord. unfold pack.
  assert (E <= 0) as HE by lia.
  assert ((E <=? emax - prec) = true) as ->
    by (apply Z.leb_le; unfold emax, prec; lia).
  assert ((E' <=? emax - prec) = true) as ->
    by (apply Z.leb_le; unfold emax, prec; lia).
  destruct m as [|p|p]; [| |lia]; destruct m' as [|p'|p']; try lia; try reflexivity.
  unfold SFleb, SFcompare.
  destruct Hord as [[Hlt _]|[-> Hle]].
  - apply Z.compare_lt_iff in Hlt. rewrite Hlt. reflexivity.
  - rewrite Z.compare_refl.
    change (Pos.compare_cont Eq p p') with (Pos.compare p p').
    destruct (Pos.compare_spec p p'); try reflexivity. lia.
Qed.

Lemma qcode_self a E : 0 < a -> E <= 0 -> qcode a a E = 4 * 2 ^ (- E).
Proof.
  intros Ha HE. unfold qcode.
  rewrite (Z.mul_comm a), Z.div_mul, Z.mod_mul by lia. unfold rem_code. simpl. lia.
Qed.

Lemma rounds_to_self a : 0 < a -> rounds_to a a (2 ^ 52) (-52).
Proof.
  intros Ha. unfold rounds_to.
  rewrite !qcode_self, !rne_exact by lia.
  split; [lia|]. split; [reflexivity|]. split; [reflexivity|].
  right. simpl. lia.
Qed.

Lemma SFdiv_self p :
  SFdiv prec emax (S754_finite false p 0) (S754_finite false p 0)
  = S754_finite false 4503599627370496 (-52).
Proof.
  destruct (SFdiv_rounds_to p p ltac:(lia)) as (m & E & -> & Hr).
  pose proof (rounds_to_self (Zpos p) ltac:(lia)) as Hs.
  assert (0 <= Zpos p <= Zpos p) as Hp by lia.
  pose proof (rounds_to_order _ _ _ _ _ _ _ Hp (Pos2Z.pos_is_pos p) Hr Hs) as H1.
  pose proof (rounds_to_order _ _ _ _ _ _ _ Hp (Pos2Z.pos_is_pos p) Hs Hr) as H2.
  assert (E = -52 /\ m = 2 ^ 52) as [-> ->] by lia.
  reflexivity.
Qed.

Lemma SFcompare_key x y :
  SFcompare x y =
  match fkey x, fkey y with
  | Some k, Some k' => Some (lexcmp k k')
  | _, _ => None
  end.
Proof.
  destruct x as [sx|sx| |sx mx ex], y as [sy|sy| |sy my ey];
    try destruct sx; try destruct sy; try reflexivity.
  cbn [SFcompare fkey lexcmp]. change (-1 ?= -1) with Eq. cbv iota.
  rewrite Z.compare_opp, (Z.compare_antisym ex ey).
  destruct (ex ?= ey); reflexivity.
Qed.

Lemma lexcmp_le k k' : lexcmp k k' <> Gt <-> lexle k k'.
Proof.
  destruct k as [[a b] c], k' as [[a' b'] c']. unfold lexcmp, lexle.
  destruct (Z.compare_spec a a'), (Z.compare_spec b b'), (Z.compare_spec c c');
    split; intros Hc; try lia; try discriminate; try (exfalso; apply Hc; reflexivity).
Qed.

Lemma lexle_trans k1 k2 k3 : lexle k1 k2 -> lexle k2 k3 -> lexle k1 k3.
Proof.
  destruct k1 as [[a1 b1] c1], k2 as [[a2 b2] c2], k3 as [[a3 b3] c3].
  unfold lexle. lia.
Qed.

Lemma SFleb_key x y :
  SFleb x y = true <->
  exists k k', fkey x = Some k /\ fkey y = Some k' /\ lexle k k'.
Proof.
  unfold SFleb. rewrite SFcompare_key.
  destruct (fkey x) as [k|], (fkey y) as [k'|].
  - pose proof (lexcmp_le k k') as Hc. split.
    + intros H. exists k, k'. split; [reflexivity|]. split; [reflexivity|].
      apply Hc. destruct (lexcmp k k'); discriminate.
    + intros (? & ? & [= <-] & [= <-] & H). apply Hc in H.
      destruct (lexcmp k k'); congruence.
  - split; [discriminate|]. intros (? & ? & _ & [=] & _).
  - split; [discriminate|]. intros (? & ? & [=] & _).
  - split; [discriminate|]. intros (? & ? & [=] & _).
Qed.

Lemma lexcmp_antisym k k' : lexcmp k' k = CompOpp (lexcmp k k').
Proof.
  destruct k as [[a b] c], k' as [[a' b'] c']. unfold lexcmp.
  rewrite (Z.compare_antisym a a'), (Z.compare_antisym b b'), (Z.compare_antisym c c').
  destruct (a ?= a'), (b ?= b'), (c ?= c'); reflexivity.
Qed.

Lemma ge_SFleb x y : ge x y = SFleb y x.
Proof.
  unfold ge, SFleb. rewrite (SFcompare_key x y), (SFcompare_key y x).
  destruct (fkey x) as [k|], (fkey y) as [k'|]; try reflexivity.
  rewrite (lexcmp_antisym k k'). destruct (lexcmp k k'); reflexivity.
Qed.

Lemma SFleb_trans x y z : SFleb x y = true -> SFleb y z = true -> SFleb x z = true.
Proof.
  rewrite !SFleb_key.
  intros (k1 & k2 & H1 & H2 & H12) (k2' & k3 & H2' & H3 & H23).
  rewrite H2 in H2'. injection H2' as <-.
  exists k1, k3. split; [assumption|]. split; [assumption|].
  eapply lexle_trans; eassumption.
Qed.

(** [s >= t2] and [t1 <= t2] give [s >= t1]. *)
Lemma ge_le_trans s t1 t2 : ge s t2 = true -> le t1 t2 = true -> ge s t1 = true.
Proof.
  rewrite !ge_SFleb. unfold le. intros H1 H2. eapply SFleb_trans; eassumption.
Qed.

Lemma le_ge x y : le x y = true -> ge y x = true.
Proof. rewrite ge_SFleb. trivial. Qed.

(** ** The division of two ints *)

Lemma pack_not_infinity m E : E <= 0 -> forall s, pack m E <> S754_infinity s.
Proof.
  intros HE s. unfold pack. destruct m; try discriminate.
  assert ((E <=? emax - prec) = true) as ->
    by (apply Z.leb_le; unfold emax, prec; lia).
  discriminate.
Qed.

Lemma int_truediv_rounds_to a b :
  0 < a <= b ->
  exists m E, int_truediv a b = Ok (pack m E) /\ rounds_to a b m E.
Proof.
  intros Hab. unfold int_truediv.
  destruct (Z.eqb_spec b 0) as [|_]; [lia|].
  destruct a as [|pa|pa]; [lia| |lia]. destruct b as [|pb|pb]; [lia| |lia].
  cbn [operand].
  destruct (SFdiv_rounds_to pa pb ltac:(lia)) as (m & E & -> & Hr).
  exists m, E. split; [|assumption].
  pose proof (pack_not_infinity m E ltac:(destruct Hr; lia)) as Hinf.
  destruct (pack m E); try reflexivity. exfalso. eapply Hinf. reflexivity.
Qed.

(** The rounded quotient is within half a unit of the last place of the
    quotient: [| m * 2 ^ E - a / b | <= 2 ^ E / 2], cleared of fractions. *)
Lemma rounds_to_half_ulp a b m E :
  0 < b -> rounds_to a b m E -> 2 * Z.abs (m * b - a * 2 ^ (- E)) <= b.
Proof.
  intros Hb (_ & -> & _). unfold rne, qcode.
  rewrite div4_code, mod4_code by apply rem_code_range.
  set (n := a * 2 ^ (- E)).
  pose proof (Z.div_mod n b ltac:(lia)) as Hn.
  pose proof (Z.mod_pos_bound n b Hb) as Hr.
  set (q := n / b) in *. set (r := n mod b) in *. clearbody q r. clearbody n.
  destruct (rem_code_spec r b) as [(? & ->)|[(? & ? & ->)|[(? & ? & ->)|(? & ? & ->)]]];
    cbn [Z.leb Z.eqb Pos.eqb Z.compare Pos.compare Pos.compare_cont];
    try destruct (Z.even q); nia.
Qed.

Lemma int_truediv_zero b : 0 < b -> int_truediv 0 b = Ok zero.
Proof.
  intros Hb. unfold int_truediv.
  destruct (Z.eqb_spec b 0) as [|_]; [lia|].
  destruct b as [|pb|pb]; [lia| |lia]. reflexivity.
Qed.

(** [a / a] is 1.0. *)
Lemma int_truediv_self a : 0 < a -> int_truediv a a = Ok one.
Proof.
  intros Ha. unfold int_truediv.
  destruct (Z.eqb_spec a 0) as [|_]; [lia|].
  destruct a as [|pa|pa]; [lia| |lia]. cbn [operand].
  rewrite SFdiv_self. reflexivity.
Qed.

(** A quotient of at most 1 never raises. *)
Lemma int_truediv_le_Ok a b :
  0 <= a <= b -> 0 < b -> exists q, int_truediv a b = Ok q.
Proof.
  intros Hab Hb. destruct (Z.eq_dec a 0) as [->|Hne].
  - exists zero. apply int_truediv_zero. assumption.
  - destruct (int_truediv_rounds_to a b ltac:(lia)) as (m & E & H & _). eauto.
Qed.

(** The division is monotone in its numerator. *)
Lemma int_truediv_mono a a' b q q' :
  0 <= a <= a' -> a' <= b -> 0 < b ->
  int_truediv a b = Ok q -> int_truediv a' b = Ok q' ->
  le q q' = true.
Proof.
  intros Ha Ha' Hb Hq Hq'. unfold le.
  destruct (Z.eq_dec a' 0) as [->|Hne'].
  - assert (a = 0) as -> by lia. rewrite Hq in Hq'. injection Hq' as <-.
    rewrite int_truediv_zero in Hq by assumption. injection Hq as <-. reflexivity.
  - destruct (int_truediv_rounds_to a' b ltac:(lia)) as (m' & E' & H' & Hr').
    rewrite H' in Hq'. injection Hq' as <-.
    assert (E' <= 0) as HE' by (destruct Hr'; lia).
    destruct (Z.eq_dec a 0) as [->|Hne].
    + rewrite int_truediv_zero in Hq by assumption. injection Hq as <-.
      change zero with (pack 0 E'). apply pack_le; [lia|assumption|].
      right. split; [reflexivity|]. eapply rounds_to_nonneg; [| |eassumption]; lia.
    + destruct (int_truediv_rounds_to a b ltac:(lia)) as (m & E & H & Hr).
      rewrite H in Hq. injection Hq as <-.
      apply pack_le; [|assumption|].
      * eapply rounds_to_nonneg; [| |eassumption]; lia.
      * eapply rounds_to_order; [| |eassumption|eassumption]; lia.
Qed.

(** ** The similarity score *)

Lemma size_empty_L (A : gset string) : size A = 0%nat <-> A = ∅.
Proof. rewrite size_empty_iff. apply leibniz_equiv_iff. Qed.

Lemma size_zero_empty (A : gset string) : (size A =? 0)%nat = true <-> A = ∅.
Proof. rewrite Nat.eqb_eq. apply size_empty_L. Qed.

(** Without the encoder or without its cosine, [bert_similarity] is the
    Jaccard index of the token sets. *)
Lemma bert_similarity_lexical {tensor} MODEL util a b :
  MODEL = None \/ util = None ->
  @bert_similarity tensor MODEL util a b = jaccard_index (token_set a) (token_set b).
Proof.
  intros Hnone.
  assert (bert_similarity MODEL util a b =
          if (size (token_set a) =? 0)%nat && (size (token_set b) =? 0)%nat then Ok one
          else int_truediv (Z.of_nat (size (token_set a ∩ token_set b)))
                           (Z.of_nat (size (token_set a ∪ token_set b)))) as ->.
  { unfold bert_similarity, token_set.
    destruct MODEL, util; try reflexivity. destruct Hnone; discriminate. }
  unfold jaccard_index.
  destruct (decide (token_set a = ∅ /\ token_set b = ∅)) as [[Ha Hb]|Hne].
  - rewrite Ha, Hb. reflexivity.
  - destruct (size (token_set a) =? 0)%nat eqn:Ea;
      destruct (size (token_set b) =? 0)%nat eqn:Eb; try reflexivity.
    exfalso. apply Hne. split; apply size_zero_empty; assumption.
Qed.

Lemma bert_similarity_fallback {tensor} (util : option (tensor -> tensor -> float)) a b :
  bert_similarity None util a b = jaccard_index (token_set a) (token_set b).
Proof. apply bert_similarity_lexical. left. reflexivity. Qed.

Lemma jaccard_index_total A B : exists s, jaccard_index A B = Ok s.
Proof.
  unfold jaccard_index. destruct (decide (A = ∅ /\ B = ∅)) as [|Hne]; [eauto|].
  apply int_truediv_le_Ok.
  - assert (size (A ∩ B) <= size (A ∪ B))%nat.
    { apply subseteq_size. etrans; [apply intersection_subseteq_l|apply union_subseteq_l]. }
    lia.
  - destruct (Nat.eq_dec (size (A ∪ B)) 0%nat) as [Hz|Hnz]; [|lia].
    exfalso. apply Hne. apply size_empty_L in Hz. apply empty_union_L. assumption.
Qed.

Lemma jaccard_index_self A : jaccard_index A A = Ok one.
Proof.
  unfold jaccard_index. destruct (decide (A = ∅ /\ A = ∅)) as [|Hne]; [reflexivity|].
  rewrite (idemp_L (∩) A), (idemp_L (∪) A).
  apply int_truediv_self.
  destruct (Nat.eq_dec (size A) 0%nat) as [Hz|Hnz]; [|lia].
  exfalso. apply Hne. apply size_empty_L in Hz. auto.
Qed.

Lemma jaccard_index_comm A B : jaccard_index A B = jaccard_index B A.
Proof.
  unfold jaccard_index. rewrite (comm_L (∩) A B), (comm_L (∪) A B).
  destruct (decide (A = ∅ /\ B = ∅)) as [[Ha Hb]|Hne];
    destruct (decide (B = ∅ /\ A = ∅)) as [[Hb' Ha']|Hne']; try reflexivity.
  - exfalso. apply Hne'. auto.
  - exfalso. apply Hne. auto.
Qed.

Example token_sets_of_the_example :
  token_set "the cat sat" = {[ "the"; "cat"; "sat" ]} /\
  size (token_set "the cat sat" ∩ token_set "the dog sat") = 2%nat /\
  size (token_set "the cat sat" ∪ token_set "the dog sat") = 4%nat.
Proof. repeat split; vm_compute; reflexivity. Qed.

(** The Jaccard index lies between 0.0 and 1.0. *)
Lemma jaccard_index_range A B s :
  jaccard_index A B = Ok s -> le zero s = true /\ le s one = true.
Proof.
  unfold jaccard_index. destruct (decide (A = ∅ /\ B = ∅)) as [|Hne].
  - intros [= <-]. split; reflexivity.
  - intros Hs.
    assert (size (A ∩ B) <= size (A ∪ B))%nat as Hsub.
    { apply subseteq_size. etrans; [apply intersection_subseteq_l|apply union_subseteq_l]. }
    assert (size (A ∪ B) <> 0)%nat as Hpos.
    { intros Hz. apply Hne. apply size_empty_L in Hz. apply empty_union_L. assumption. }
    split.
    + eapply (int_truediv_mono 0 _ (Z.of_nat (size (A ∪ B)))); [| | | |exact Hs];
        try lia. apply int_truediv_zero. lia.
    + eapply (int_truediv_mono _ (Z.of_nat (size (A ∪ B))) (Z.of_nat (size (A ∪ B))));
        [| | |exact Hs|]; try lia. apply int_truediv_self. lia.
Qed.

(** [bert_similarity] never raises. *)
Lemma bert_similarity_total {tensor} MODEL util a b :
  exists s, @bert_similarity tensor MODEL util a b = Ok s.
Proof.
  destruct MODEL as [encode|]; [destruct util as [cos_sim|]|].
  - unfold bert_similarity. destruct (negb (nonempty a) && negb (nonempty b)); eauto.
  - rewrite bert_similarity_lexical by auto. apply jaccard_index_total.
  - rewrite bert_similarity_fallback. apply jaccard_index_total.
Qed.

Lemma row_score_total {tensor} MODEL util domain :
  exists s, @row_score tensor MODEL util domain = Ok s.
Proof. apply bert_similarity_total. Qed.

(** ** The loop over the domains *)

Section Loop.

Context {tensor : Type}.
Variable MODEL : option (string -> tensor).
Variable util : option (tensor -> tensor -> float).
Variable mcq_bank : gmap string (list MCQ).
Variable threshold : float.

Lemma evaluation_step_spec table y_true y_pred domain score :
  row_score MODEL util domain = Ok score ->
  evaluation_step MODEL util mcq_bank threshold (table, y_true, y_pred) domain
  = Ok (table ++ [row_of mcq_bank domain score],
        y_true ++ [1],
        y_pred ++ [label_of MODEL util threshold domain]).
Proof.
  intros Hs. unfold evaluation_step, label_of, predicted_positive, row_score in *.
  rewrite !Hs. reflexivity.
Qed.

Lemma for_each_evaluation_step domains : forall table y_true y_pred,
  exists scores,
    Forall2 (fun d s => row_score MODEL util d = Ok s) domains scores /\
    for_each (evaluation_step MODEL util mcq_bank threshold)
             (table, y_true, y_pred) domains
    = Ok (table ++ zip_with (row_of mcq_bank) domains scores,
          y_true ++ map (fun _ => 1) domains,
          y_pred ++ map (label_of MODEL util threshold) domains).
Proof.
  induction domains as [|d ds IH]; intros table y_true y_pred.
  - exists []. split; [constructor|]. cbn. rewrite !app_nil_r. reflexivity.
  - destruct (row_score_total MODEL util d) as [s Hs].
    destruct (IH (table ++ [row_of mcq_bank d s]) (y_true ++ [1])
                 (y_pred ++ [label_of MODEL util threshold d]))
      as (scores & Hall & Hloop).
    exists (s :: scores). split; [constructor; assumption|].
    cbn [for_each]. rewrite (evaluation_step_spec _ _ _ _ _ Hs).
    cbn [mbind result_bind]. rewrite Hloop.
    cbn [zip_with map]. rewrite <- !app_assoc. reflexivity.
Qed.

(** The loop never raises: it yields one row, one true label 1 and one
    predicted label per domain, in the order of the domains. *)
Lemma evaluation_loop_spec domains :
  exists scores,
    Forall2 (fun d s => row_score MODEL util d = Ok s) domains scores /\
    evaluation_loop MODEL util domains mcq_bank threshold
    = Ok (zip_with (row_of mcq_bank) domains scores,
          map (fun _ => 1) domains,
          map (label_of MODEL util threshold) domains).
Proof.
  destruct (for_each_evaluation_step domains [] [] []) as (scores & Hall & Hloop).
  exists scores. split; [assumption|]. exact Hloop.
Qed.

Lemma evaluation_loop_lookup domains (i : nat) domain :
  domains !! i = Some domain ->
  exists table y_true y_pred score,
    evaluation_loop MODEL util domains mcq_bank threshold
    = Ok (table, y_true, y_pred) /\
    length table = length domains /\
    row_score MODEL util domain = Ok score /\
    table !! i = Some (row_of mcq_bank domain score) /\
    y_true !! i = Some 1 /\
    y_pred !! i = Some (label_of MODEL util threshold domain).
Proof.
  intros Hi. destruct (evaluation_loop_spec domains) as (scores & Hall & Hloop).
  destruct (Forall2_lookup_l _ _ _ _ _ Hall Hi) as (s & Hs & Hscore).
  eexists _, _, _, s. split; [exact Hloop|].
  split; [|split; [exact Hscore|split; [|split]]].
  - rewrite length_zip_with. apply Forall2_length in Hall. lia.
  - rewrite lookup_zip_with, Hi. cbn. rewrite Hs. reflexivity.
  - rewrite list_lookup_fmap, Hi. reflexivity.
  - rewrite list_lookup_fmap, Hi. reflexivity.
Qed.

(** The rows a call returns are the rows of the loop. *)
Lemma create_evaluation_table_rows sklearn domains table y_true y_pred rows metrics :
  evaluation_loop MODEL util domains mcq_bank threshold = Ok (table, y_true, y_pred) ->
  create_evaluation_table MODEL util sklearn domains mcq_bank threshold
  = Ok (rows, metrics) ->
  rows = table.
Proof.
  intros Hloop. unfold create_evaluation_table. rewrite Hloop.
  cbn [mbind result_bind].
  destruct sklearn as [sk|].
  - destruct (accuracy_score sk y_true y_pred); [|discriminate].
    destruct (precision_score sk y_true y_pred); [|discriminate].
    destruct (recall_score sk y_true y_pred); [|discriminate].
    destruct (f1_score sk y_true y_pred); [|discriminate].
    cbn. intros [= <- _]. reflexivity.
  - destruct (compute_metrics y_true y_pred); [|discriminate].
    cbn. intros [= <- _]. reflexivity.
Qed.

End Loop.

(** ** The metrics *)

Lemma foldl_add_ones {A : Type} (l : list A) (acc : Z) :
  foldl Z.add acc (map (fun _ => 1) l) = acc + Z.of_nat (length l).
Proof.
  revert acc. induction l as [|x l IH]; intros acc; cbn [map foldl length].
  - lia.
  - rewrite IH. lia.
Qed.

(** Counting the pairs of [(1, f d)] is counting the [d]. *)
Lemma count_pairs_labels {A : Type} (cond : Z -> Z -> bool) (f : A -> Z) (l : list A) :
  count_pairs cond (zip (map (fun _ => 1) l) (map f l))
  = Z.of_nat (length (List.filter (fun d => cond 1 (f d)) l)).
Proof.
  unfold count_pairs. rewrite foldl_add_ones. f_equal.
  induction l as [|x l IH]; [reflexivity|].
  cbn [map zip_with List.filter fst snd]. destruct (cond 1 (f x)); cbn [length]; lia.
Qed.

Lemma filter_false_length {A : Type} (l : list A) :
  length (List.filter (fun _ => false) l) = 0%nat.
Proof. induction l; [reflexivity|assumption]. Qed.

Lemma filter_split_length {A : Type} (p : A -> bool) (l : list A) :
  (length (List.filter p l) + length (List.filter (fun x => negb (p x)) l))%nat
  = length l.
Proof.
  induction l as [|x l IH]; [reflexivity|].
  cbn [List.filter]. destruct (p x); cbn [negb length]; lia.
Qed.

Lemma filter_length_le {A : Type} (p : A -> bool) (l : list A) :
  (length (List.filter p l) <= length l)%nat.
Proof. pose proof (filter_split_length p l). lia. Qed.

Lemma filter_ext_length {A : Type} (p q : A -> bool) (l : list A) :
  (forall x, p x = q x) ->
  length (List.filter p l) = length (List.filter q l).
Proof.
  intros Hpq. induction l as [|x l IH]; [reflexivity|].
  cbn [List.filter]. rewrite Hpq. destruct (q x); cbn [length]; lia.
Qed.

Lemma filter_mono_length {A : Type} (p q : A -> bool) (l : list A) :
  (forall x, p x = true -> q x = true) ->
  (length (List.filter p l) <= length (List.filter q l))%nat.
Proof.
  intros Hpq. induction l as [|x l IH]; [reflexivity|].
  cbn [List.filter]. destruct (p x) eqn:Hp.
  - rewrite (Hpq x Hp). cbn [length]. lia.
  - destruct (q x); cbn [length]; lia.
Qed.

Section Metrics.

Context {tensor : Type}.
Variable MODEL : option (string -> tensor).
Variable util : option (tensor -> tensor -> float).
Variable threshold : float.

Lemma predicted_positives_range domains :
  0 <= predicted_positives MODEL util threshold domains <= Z.of_nat (length domains).
Proof.
  unfold predicted_positives.
  pose proof (filter_length_le (predicted_positive MODEL util threshold) domains).
  lia.
Qed.

(** The metrics of the labels of a table that is not empty. *)
Lemma compute_metrics_labels domains :
  domains <> [] ->
  let k := predicted_positives MODEL util threshold domains in
  let n := Z.of_nat (length domains) in
  exists acc,
    int_truediv k n = Ok acc /\
    compute_metrics (map (fun _ => 1) domains)
                    (map (label_of MODEL util threshold) domains)
    = (let prec := if 0 <? k then one else zero in
       f ← (if truthy (add prec acc)
            then truediv (mul (mul (of_int 2) prec) acc) (add prec acc)
            else Ok zero);
       Ok {| accuracy := acc; precision := prec; recall := acc; f1 := f |}).
Proof.
  intros Hne k n.
  assert (0 < n) as Hn by (unfold n; destruct domains; [congruence|cbn; lia]).
  pose proof (predicted_positives_range domains) as Hk. fold k n in Hk.
  destruct (int_truediv_le_Ok k n Hk Hn) as [acc Hacc].
  exists acc. split; [assumption|].
  unfold compute_metrics. rewrite !count_pairs_labels.
  set (tp := Z.of_nat (length (List.filter
    (fun d => (1 =? label_of MODEL util threshold d)
              && (label_of MODEL util threshold d =? 1)) domains))).
  set (fp := Z.of_nat (length (List.filter
    (fun d => (1 =? 0) && (label_of MODEL util threshold d =? 1)) domains))).
  set (fn := Z.of_nat (length (List.filter
    (fun d => (1 =? 1) && (label_of MODEL util threshold d =? 0)) domains))).
  set (tn := Z.of_nat (length (List.filter
    (fun d => (1 =? label_of MODEL util threshold d)
              && (label_of MODEL util threshold d =? 0)) domains))).
  assert (tp = k) as Htp.
  { unfold tp, k, predicted_positives. f_equal. apply filter_ext_length.
    intros d. unfold label_of. destruct (predicted_positive _ _ _ d); reflexivity. }
  assert (fp = 0) as Hfp.
  { unfold fp. rewrite (filter_ext_length _ (fun _ => false)) by reflexivity.
    rewrite filter_false_length. reflexivity. }
  assert (tn = 0) as Htn.
  { unfold tn. rewrite (filter_ext_length _ (fun _ => false)).
    - rewrite filter_false_length. reflexivity.
    - intros d. unfold label_of. destruct (predicted_positive _ _ _ d); reflexivity. }
  assert (fn = n - k) as Hfn.
  { unfold fn, n, k, predicted_positives.
    pose proof (filter_split_length (predicted_positive MODEL util threshold) domains) as Hs.
    rewrite (filter_ext_length _
               (fun d => negb (predicted_positive MODEL util threshold d))).
    - lia.
    - intros d. unfold label_of. destruct (predicted_positive _ _ _ d); reflexivity. }
  rewrite Htp, Hfp, Htn, Hfn.
  replace (k + 0 + (n - k) + 0) with n by lia.
  replace (k + 0) with k by lia.
  replace (k + (n - k)) with n by lia.
  rewrite Hacc. cbn [mbind result_bind].
  destruct (Z.eqb_spec n 0) as [|_]; [lia|]. cbn [negb].
  destruct (Z.eqb_spec k 0) as [Hk0|Hk0]; cbn [negb].
  - cbn [mbind result_bind]. rewrite Hk0. reflexivity.
  - rewrite int_truediv_self by lia. cbn [mbind result_bind].
    destruct (Z.ltb_spec 0 k); [reflexivity|lia].
Qed.

End Metrics.

Section Table.

Context {tensor : Type}.
Variable MODEL : option (string -> tensor).
Variable util : option (tensor -> tensor -> float).
Variable mcq_bank : gmap string (list MCQ).
Variable threshold : float.

Lemma positives_labels domains :
  positives (map (label_of MODEL util threshold) domains)
  = predicted_positives MODEL util threshold domains.
Proof.
  unfold positives, predicted_positives. f_equal.
  induction domains as [|d ds IH]; [reflexivity|].
  cbn [map List.filter]. unfold label_of at 1.
  destruct (predicted_positive MODEL util threshold d);
    [change (1 =? 1) with true|change (0 =? 1) with false];
    cbv iota; cbn [length]; lia.
Qed.

(** Without scikit-learn, a call on a sequence of domains that is not empty
    returns the rows of the loop and the metrics of its labels. *)
Lemma create_evaluation_table_nonempty domains :
  domains <> [] ->
  let k := predicted_positives MODEL util threshold domains in
  let prec := if 0 <? k then one else zero in
  exists scores acc f,
    Forall2 (fun d s => row_score MODEL util d = Ok s) domains scores /\
    int_truediv k (Z.of_nat (length domains)) = Ok acc /\
    (if is_zero (add prec acc) then f = zero
     else truediv (mul (mul (of_int 2) prec) acc) (add prec acc) = Ok f) /\
    create_evaluation_table MODEL util None domains mcq_bank threshold
    = Ok (zip_with (row_of mcq_bank) domains scores,
          {| accuracy := acc; precision := prec; recall := acc; f1 := f |}).
Proof.
  intros Hne k prec.
  destruct (evaluation_loop_spec MODEL util mcq_bank threshold domains)
    as (scores & Hall & Hloop).
  destruct (compute_metrics_labels MODEL util threshold domains Hne)
    as (acc & Hacc & Hmetrics).
  fold k in Hacc, Hmetrics. cbv zeta in Hmetrics. fold prec in Hmetrics.
  unfold create_evaluation_table. rewrite Hloop. cbn [mbind result_bind].
  rewrite Hmetrics. unfold truthy, truediv.
  destruct (is_zero (add prec acc)) eqn:Hz; cbn [negb mbind result_bind].
  - exists scores, acc, zero. rewrite Hz. auto.
  - exists scores, acc,
      (SFdiv PyFloat.prec emax (mul (mul (of_int 2) prec) acc) (add prec acc)).
    rewrite Hz. auto.
Qed.

End Table.

(** ** The formatted questions *)

Lemma foldl_option_lines acc opts :
  foldl (fun ls opt => ls ++ [" - " +:+ opt]) acc opts
  = acc ++ map (fun opt => " - " +:+ opt) opts.
Proof.
  revert acc. induction opts as [|o opts IH]; intros acc; cbn [foldl map].
  - rewrite app_nil_r. reflexivity.
  - rewrite IH, <- app_assoc. reflexivity.
Qed.

Lemma append_mcq_lines acc mcq : append_mcq acc mcq = acc ++ mcq_lines_of mcq.
Proof.
  unfold append_mcq, mcq_lines_of. rewrite foldl_option_lines.
  rewrite <- !app_assoc. reflexivity.
Qed.

Lemma foldl_append_mcq acc mcqs :
  foldl append_mcq acc mcqs = acc ++ concat (map mcq_lines_of mcqs).
Proof.
  revert acc. induction mcqs as [|m mcqs IH]; intros acc; cbn [foldl map concat].
  - rewrite app_nil_r. reflexivity.
  - rewrite IH, append_mcq_lines, <- app_assoc. reflexivity.
Qed.

(** The block is the lines of the questions, joined by line feeds. *)
Lemma format_mcqs_lines mcqs :
  format_mcqs mcqs = join nl (concat (map mcq_lines_of mcqs)).
Proof. unfold format_mcqs. rewrite foldl_append_mcq. reflexivity. Qed.

(** The block is empty exactly when there is no question. *)
Lemma format_mcqs_empty mcqs : format_mcqs mcqs = "" <-> mcqs = [].
Proof.
  rewrite format_mcqs_lines. split.
  - destruct mcqs as [|m mcqs]; [reflexivity|]. intros H. exfalso.
    cbn [map concat] in H. unfold mcq_lines_of at 1 in H.
    destruct (options m) as [|o opts]; cbn in H; discriminate.
  - intros ->. reflexivity.
Qed.

(** * The claims *)

(** C1 (the code departs from the claim). For the empty sequence of domains
    the metrics of [compute_metrics] do not exist: the division of the
    accuracy, alone of the four, has no guard against a zero denominator, and
    the call raises [ZeroDivisionError] instead of returning no row and four
    metrics 0.0. *)
Theorem create_evaluation_table_empty_raises {tensor}
    (MODEL : option (string -> tensor)) (util : option (tensor -> tensor -> float))
    (mcq_bank : gmap string (list MCQ)) (threshold : float) :
  evaluation_loop MODEL util [] mcq_bank threshold = Ok ([], [], []) /\
  compute_metrics [] [] = Raise ZeroDivisionError /\
  create_evaluation_table MODEL util None [] mcq_bank threshold
  = Raise ZeroDivisionError.
Proof. repeat split. Qed.

(** C2. For every sequence of domains that is not empty, the call returns,
    and its metrics are: accuracy, the number of rows whose score is at least
    the threshold divided by the number of rows; recall, equal to the
    accuracy; precision, 1.0 when a row has a score at least the threshold
    and 0.0 otherwise; f1, [2 * precision * recall / (precision + recall)],
    and 0.0 when [precision + recall] is zero. *)
Theorem metrics_of_nonempty_table {tensor}
    (MODEL : option (string -> tensor)) (util : option (tensor -> tensor -> float))
    (domains : list string) (mcq_bank : gmap string (list MCQ)) (threshold : float) :
  domains <> [] ->
  exists rows m,
    create_evaluation_table MODEL util None domains mcq_bank threshold = Ok (rows, m) /\
    length rows = length domains /\
    int_truediv (predicted_positives MODEL util threshold domains)
                (Z.of_nat (length rows)) = Ok (accuracy m) /\
    recall m = accuracy m /\
    precision m
    = (if 0 <? predicted_positives MODEL util threshold domains then one else zero) /\
    (if is_zero (add (precision m) (recall m)) then f1 m = zero
     else truediv (mul (mul (of_int 2) (precision m)) (recall m))
                  (add (precision m) (recall m)) = Ok (f1 m)).
Proof.
  intros Hne.
  destruct (create_evaluation_table_nonempty MODEL util mcq_bank threshold domains Hne)
    as (scores & acc & f & Hall & Hacc & Hf & Hcreate).
  eexists _, _. split; [exact Hcreate|].
  assert (length (zip_with (row_of mcq_bank) domains scores) = length domains) as Hlen
    by (rewrite length_zip_with; apply Forall2_length in Hall; lia).
  cbn [accuracy precision recall f1]. rewrite Hlen.
  repeat split; assumption.
Qed.

Lemma metrics_of_nonempty_table_witness :
  exists rows m,
    create_evaluation_table (tensor := unit) None None None
      ["Lists"; "Quantum"] ∅ lit_0_9 = Ok (rows, m) /\
    length rows = length ["Lists"; "Quantum"] /\
    int_truediv (predicted_positives (tensor := unit) None None lit_0_9 ["Lists"; "Quantum"])
                (Z.of_nat (length rows)) = Ok (accuracy m) /\
    recall m = accuracy m /\
    precision m
    = (if 0 <? predicted_positives (tensor := unit) None None lit_0_9 ["Lists"; "Quantum"]
       then one else zero) /\
    (if is_zero (add (precision m) (recall m)) then f1 m = zero
     else truediv (mul (mul (of_int 2) (precision m)) (recall m))
                  (add (precision m) (recall m)) = Ok (f1 m)).
Proof.
  apply (metrics_of_nonempty_table (tensor := unit) None None
           ["Lists"; "Quantum"] ∅ lit_0_9).
  discriminate.
Defined.

Example metrics_of_two_domains :
  exists rows,
    create_evaluation_table (tensor := unit) None None None
      ["Lists"; "Quantum"] ∅ lit_0_9
    = Ok (rows, {| accuracy := lit_0_5; precision := one; recall := lit_0_5;
                   f1 := S754_finite false 6004799503160661 (-53) |}).
Proof. eexists. vm_compute. reflexivity. Qed.

(** C3. Under the lexical fallback, the score of two texts is the Jaccard
    index of their sets of lower-cased tokens, 1.0 when both sets are empty;
    it never raises, and the score of "the cat sat" and "the dog sat" is
    0.5. *)
Theorem lexical_score_is_jaccard {tensor}
    (MODEL : option (string -> tensor)) (util : option (tensor -> tensor -> float))
    (a b : string) :
  MODEL = None \/ util = None ->
  bert_similarity MODEL util a b = jaccard_index (token_set a) (token_set b) /\
  (exists s, bert_similarity MODEL util a b = Ok s) /\
  bert_similarity MODEL util "the cat sat" "the dog sat" = Ok lit_0_5.
Proof.
  intros Hnone. split; [|split].
  - apply bert_similarity_lexical. assumption.
  - apply bert_similarity_total.
  - rewrite bert_similarity_lexical by assumption. vm_compute. reflexivity.
Qed.

Lemma lexical_score_is_jaccard_witness :
  bert_similarity (tensor := unit) None None "Mutable ordered" "ordered pairs"
  = jaccard_index (token_set "Mutable ordered") (token_set "ordered pairs") /\
  (exists s, bert_similarity (tensor := unit) None None "Mutable ordered" "ordered pairs"
             = Ok s) /\
  bert_similarity (tensor := unit) None None "the cat sat" "the dog sat" = Ok lit_0_5.
Proof.
  apply (lexical_score_is_jaccard (tensor := unit) None None
           "Mutable ordered" "ordered pairs").
  left. reflexivity.
Defined.

(** C4. The verdict of every row comes from its score alone, by two strict
    comparisons, whatever the threshold of the metrics: above 0.9 the row is
    Excellent, else above 0.7 it is Good, else it is Moderate; a score of
    exactly 0.9 is Good and a score of exactly 0.7 is Moderate. *)
Theorem verdict_of_row {tensor}
    (MODEL : option (string -> tensor)) (util : option (tensor -> tensor -> float))
    (domains : list string) (mcq_bank : gmap string (list MCQ)) (threshold : float)
    (i : nat) (domain : string) :
  domains !! i = Some domain ->
  exists table y_true y_pred score row,
    evaluation_loop MODEL util domains mcq_bank threshold = Ok (table, y_true, y_pred) /\
    (forall sklearn rows m,
       create_evaluation_table MODEL util sklearn domains mcq_bank threshold
       = Ok (rows, m) -> rows = table) /\
    row_score MODEL util domain = Ok score /\
    table !! i = Some row /\
    (gt score lit_0_9 = true ->
     Description row = "Excellent alignment with reference material.") /\
    (gt score lit_0_9 = false -> gt score lit_0_7 = true ->
     Description row = "Good alignment but could improve in specific areas.") /\
    (gt score lit_0_9 = false -> gt score lit_0_7 = false ->
     Description row = "Moderate alignment, requires improvements in content generation.") /\
    (score = lit_0_9 ->
     Description row = "Good alignment but could improve in specific areas.") /\
    (score = lit_0_7 ->
     Description row = "Moderate alignment, requires improvements in content generation.").
Proof.
  intros Hi.
  destruct (evaluation_loop_lookup MODEL util mcq_bank threshold domains i domain Hi)
    as (table & y_true & y_pred & score & Hloop & _ & Hscore & Hrow & _).
  exists table, y_true, y_pred, score, (row_of mcq_bank domain score).
  split; [exact Hloop|]. split.
  { intros sklearn rows m. eapply create_evaluation_table_rows. exact Hloop. }
  split; [exact Hscore|]. split; [exact Hrow|].
  cbn [Description row_of]. unfold verdict_of.
  repeat split.
  - intros ->. reflexivity.
  - intros -> ->. reflexivity.
  - intros -> ->. reflexivity.
  - intros ->. reflexivity.
  - intros ->. reflexivity.
Qed.

Lemma verdict_of_row_witness :
  exists table y_true y_pred score row,
    evaluation_loop (Some (fun text => text)) (Some (fun _ _ => lit_0_9))
      ["Lists"] ∅ one = Ok (table, y_true, y_pred) /\
    (forall sklearn rows m,
       create_evaluation_table (Some (fun text => text)) (Some (fun _ _ => lit_0_9))
         sklearn ["Lists"] ∅ one = Ok (rows, m) -> rows = table) /\
    row_score (Some (fun text => text)) (Some (fun _ _ => lit_0_9)) "Lists" = Ok score /\
    table !! 0%nat = Some row /\
    (gt score lit_0_9 = true ->
     Description row = "Excellent alignment with reference material.") /\
    (gt score lit_0_9 = false -> gt score lit_0_7 = true ->
     Description row = "Good alignment but could improve in specific areas.") /\
    (gt score lit_0_9 = false -> gt score lit_0_7 = false ->
     Description row = "Moderate alignment, requires improvements in content generation.") /\
    (score = lit_0_9 ->
     Description row = "Good alignment but could improve in specific areas.") /\
    (score = lit_0_7 ->
     Description row = "Moderate alignment, requires improvements in content generation.").
Proof.
  apply (verdict_of_row (Some (fun text => text)) (Some (fun _ _ => lit_0_9))
           ["Lists"] ∅ one 0 "Lists").
  reflexivity.
Defined.

(** A table whose only score is exactly 0.9: the row is Good though the
    threshold of the metrics is 0.9 as well and the label is 1. *)
Example verdict_at_the_boundary :
  evaluation_loop (Some (fun text : string => text)) (Some (fun _ _ => lit_0_9))
    ["Lists"] ∅ lit_0_9
  = Ok ([{| Domain := "Lists";
            Generated_Learning_Material := "Mutable ordered collections.";
            Accuracy_Score := "90.00%";
            MCQs := "";
            Description := "Good alignment but could improve in specific areas." |}],
        [1], [1]).
Proof. vm_compute. reflexivity. Qed.

(** C5, as stated, fails: with a bank that holds no entry for "Lists" the one
    row has no formatted question, but its material is the text of "Lists"
    in the ontology and not the sentinel. *)
Lemma lists_material_is_not_the_sentinel :
  (∅ : gmap string (list MCQ)) !! "Lists" = None /\
  exists row m,
    create_evaluation_table (tensor := unit) None None None ["Lists"] ∅ default_threshold
    = Ok ([row], m) /\
    MCQs row = "" /\
    Generated_Learning_Material row = "Mutable ordered collections." /\
    Generated_Learning_Material row <> "No materials available for this topic.".
Proof.
  split; [reflexivity|]. eexists _, _. split; [vm_compute; reflexivity|].
  cbn [MCQs Generated_Learning_Material]. repeat split. discriminate.
Qed.

Lemma generate_learning_material_lists :
  generate_learning_material "Lists" = "Mutable ordered collections.".
Proof. vm_compute. reflexivity. Qed.

(** The sentinel is the material of the domains that the lookup does not
    hold, and of no other unless the lookup holds the sentinel itself. *)
Lemma generate_learning_material_missing domain :
  LEARNING_MATERIALS !! domain = None ->
  generate_learning_material domain = "No materials available for this topic.".
Proof. intros H. unfold generate_learning_material. rewrite H. reflexivity. Qed.

(** C5, amended. With a bank that holds no entry for "Lists", the call on
    ["Lists"] returns exactly one row; its formatted questions are the empty
    string and its material is the text of "Lists" in the reference lookup,
    "Mutable ordered collections.". *)
Theorem lists_row_without_questions {tensor}
    (MODEL : option (string -> tensor)) (util : option (tensor -> tensor -> float))
    (mcq_bank : gmap string (list MCQ)) (threshold : float) :
  mcq_bank !! "Lists" = None ->
  exists row m,
    create_evaluation_table MODEL util None ["Lists"] mcq_bank threshold
    = Ok ([row], m) /\
    Domain row = "Lists" /\
    MCQs row = "" /\
    Generated_Learning_Material row = "Mutable ordered collections.".
Proof.
  intros Hbank.
  destruct (create_evaluation_table_nonempty MODEL util mcq_bank threshold ["Lists"]
              ltac:(discriminate))
    as (scores & acc & f & Hall & _ & _ & Hcreate).
  destruct scores as [|s [|s' scores]];
    try (apply Forall2_length in Hall; discriminate).
  eexists _, _. split; [exact Hcreate|].
  cbn [Domain MCQs Generated_Learning_Material row_of].
  split; [reflexivity|]. split.
  - unfold generate_mcqs. rewrite Hbank. reflexivity.
  - apply generate_learning_material_lists.
Qed.

Lemma lists_row_without_questions_witness :
  exists row m,
    create_evaluation_table (tensor := unit) None None None ["Lists"]
      {[ "Loops" := [] ]} lit_0_9 = Ok ([row], m) /\
    Domain row = "Lists" /\
    MCQs row = "" /\
    Generated_Learning_Material row = "Mutable ordered collections.".
Proof.
  apply (lists_row_without_questions (tensor := unit) None None
           {[ "Loops" := [] ]} lit_0_9).
  reflexivity.
Defined.

(** C6. For a domain that the reference lookup does not hold,
    [evaluate_material] scores the candidate against the empty string; it
    does not raise. *)
Theorem evaluate_missing_domain {tensor}
    (MODEL : option (string -> tensor)) (util : option (tensor -> tensor -> float))
    (candidate domain : string) :
  LEARNING_MATERIALS !! domain = None ->
  evaluate_material MODEL util candidate domain = bert_similarity MODEL util candidate "" /\
  exists score, evaluate_material MODEL util candidate domain = Ok score.
Proof.
  intros Hmissing. unfold evaluate_material. rewrite Hmissing. cbn [default].
  split; [reflexivity|]. apply bert_similarity_total.
Qed.

Lemma evaluate_missing_domain_witness :
  evaluate_material (tensor := unit) None None "python lists" "Quantum"
  = bert_similarity (tensor := unit) None None "python lists" "" /\
  exists score,
    evaluate_material (tensor := unit) None None "python lists" "Quantum" = Ok score.
Proof.
  apply (evaluate_missing_domain (tensor := unit) None None "python lists" "Quantum").
  vm_compute. reflexivity.
Defined.

Lemma predicted_positives_antitone {tensor}
    (MODEL : option (string -> tensor)) (util : option (tensor -> tensor -> float))
    (t1 t2 : float) (domains : list string) :
  le t1 t2 = true ->
  predicted_positives MODEL util t2 domains <= predicted_positives MODEL util t1 domains.
Proof.
  intros Hle. unfold predicted_positives. apply inj_le, filter_mono_length.
  intros d. unfold predicted_positive.
  destruct (row_score MODEL util d) as [s|]; [|discriminate].
  intros Hge. eapply ge_le_trans; eassumption.
Qed.

(** C7. For thresholds [t1 <= t2], the same domains and the same bank, the
    labels at [t2] hold at most as many 1 as the labels at [t1]; the
    accuracy and the recall of a call at [t2] are at most those of a call at
    [t1], and both calls return when the sequence of domains is not empty. *)
Theorem threshold_monotone {tensor}
    (MODEL : option (string -> tensor)) (util : option (tensor -> tensor -> float))
    (domains : list string) (mcq_bank : gmap string (list MCQ)) (t1 t2 : float) :
  le t1 t2 = true ->
  (exists table1 y_true1 y_pred1 table2 y_true2 y_pred2,
     evaluation_loop MODEL util domains mcq_bank t1 = Ok (table1, y_true1, y_pred1) /\
     evaluation_loop MODEL util domains mcq_bank t2 = Ok (table2, y_true2, y_pred2) /\
     positives y_pred2 <= positives y_pred1) /\
  (forall rows1 m1 rows2 m2,
     create_evaluation_table MODEL util None domains mcq_bank t1 = Ok (rows1, m1) ->
     create_evaluation_table MODEL util None domains mcq_bank t2 = Ok (rows2, m2) ->
     le (accuracy m2) (accuracy m1) = true /\ le (recall m2) (recall m1) = true) /\
  (domains <> [] ->
   exists rows1 m1 rows2 m2,
     create_evaluation_table MODEL util None domains mcq_bank t1 = Ok (rows1, m1) /\
     create_evaluation_table MODEL util None domains mcq_bank t2 = Ok (rows2, m2)).
Proof.
  intros Hle.
  pose proof (predicted_positives_antitone MODEL util t1 t2 domains Hle) as Hk.
  split; [|split].
  - destruct (evaluation_loop_spec MODEL util mcq_bank t1 domains) as (s1 & _ & H1).
    destruct (evaluation_loop_spec MODEL util mcq_bank t2 domains) as (s2 & _ & H2).
    eexists _, _, _, _, _, _. split; [exact H1|]. split; [exact H2|].
    rewrite !positives_labels. exact Hk.
  - intros rows1 m1 rows2 m2 Hc1 Hc2.
    destruct domains as [|d ds]; [discriminate Hc1|].
    destruct (create_evaluation_table_nonempty MODEL util mcq_bank t1 (d :: ds)
                ltac:(discriminate)) as (? & acc1 & ? & _ & Hacc1 & _ & Hcreate1).
    destruct (create_evaluation_table_nonempty MODEL util mcq_bank t2 (d :: ds)
                ltac:(discriminate)) as (? & acc2 & ? & _ & Hacc2 & _ & Hcreate2).
    rewrite Hcreate1 in Hc1. rewrite Hcreate2 in Hc2.
    injection Hc1 as _ <-. injection Hc2 as _ <-. cbn [accuracy recall].
    pose proof (predicted_positives_range MODEL util t2 (d :: ds)) as Hr2.
    pose proof (predicted_positives_range MODEL util t1 (d :: ds)) as Hr1.
    assert (le acc2 acc1 = true) as Hacc.
    { eapply int_truediv_mono; [| | |exact Hacc2|exact Hacc1]; cbn [length] in *; lia. }
    split; exact Hacc.
  - intros Hne.
    destruct (create_evaluation_table_nonempty MODEL util mcq_bank t1 domains Hne)
      as (? & ? & ? & _ & _ & _ & Hcreate1).
    destruct (create_evaluation_table_nonempty MODEL util mcq_bank t2 domains Hne)
      as (? & ? & ? & _ & _ & _ & Hcreate2).
    eexists _, _, _, _. split; [exact Hcreate1|exact Hcreate2].
Qed.

Lemma threshold_monotone_witness :
  (exists table1 y_true1 y_pred1 table2 y_true2 y_pred2,
     evaluation_loop (tensor := unit) None None ["Lists"; "Quantum"] ∅ zero
     = Ok (table1, y_true1, y_pred1) /\
     evaluation_loop (tensor := unit) None None ["Lists"; "Quantum"] ∅ lit_0_9
     = Ok (table2, y_true2, y_pred2) /\
     positives y_pred2 <= positives y_pred1) /\
  (forall rows1 m1 rows2 m2,
     create_evaluation_table (tensor := unit) None None None ["Lists"; "Quantum"] ∅ zero
     = Ok (rows1, m1) ->
     create_evaluation_table (tensor := unit) None None None ["Lists"; "Quantum"] ∅ lit_0_9
     = Ok (rows2, m2) ->
     le (accuracy m2) (accuracy m1) = true /\ le (recall m2) (recall m1) = true) /\
  (["Lists"; "Quantum"] <> [] ->
   exists rows1 m1 rows2 m2,
     create_evaluation_table (tensor := unit) None None None ["Lists"; "Quantum"] ∅ zero
     = Ok (rows1, m1) /\
     create_evaluation_table (tensor := unit) None None None ["Lists"; "Quantum"] ∅ lit_0_9
     = Ok (rows2, m2)).
Proof.
  apply (threshold_monotone (tensor := unit) None None ["Lists"; "Quantum"] ∅
           zero lit_0_9).
  reflexivity.
Defined.

(** Raising the threshold from 0.0 to 0.9 on two domains, one of them
    unknown: two positives and accuracy 1.0, then one positive and 0.5. *)
Example threshold_monotone_values :
  exists rows1 m1 rows2 m2,
    create_evaluation_table (tensor := unit) None None None ["Lists"; "Quantum"] ∅ zero
    = Ok (rows1, m1) /\
    create_evaluation_table (tensor := unit) None None None ["Lists"; "Quantum"] ∅ lit_0_9
    = Ok (rows2, m2) /\
    accuracy m1 = one /\ accuracy m2 = lit_0_5.
Proof. eexists _, _, _, _. split; [|split]; vm_compute; eauto. Qed.

(** C8. Under the lexical fallback the score is symmetric. *)
Theorem lexical_score_symmetric {tensor}
    (MODEL : option (string -> tensor)) (util : option (tensor -> tensor -> float))
    (a b : string) :
  MODEL = None \/ util = None ->
  bert_similarity MODEL util a b = bert_similarity MODEL util b a.
Proof.
  intros Hnone. rewrite !bert_similarity_lexical by assumption.
  apply jaccard_index_comm.
Qed.

Lemma lexical_score_symmetric_witness :
  bert_similarity (tensor := unit) None None "the cat sat" "the dog"
  = bert_similarity (tensor := unit) None None "the dog" "the cat sat".
Proof.
  apply (lexical_score_symmetric (tensor := unit) None None "the cat sat" "the dog").
  left. reflexivity.
Defined.

Lemma verdict_of_one : verdict_of one = "Excellent alignment with reference material.".
Proof. reflexivity. Qed.

Lemma percent_of_one : format_2f (mul one (of_int 100)) +:+ "%" = "100.00%".
Proof. vm_compute. reflexivity. Qed.

(** Under the lexical fallback a domain of the lookup scores exactly 1.0:
    its material is its reference text. *)
Lemma row_score_known_domain {tensor}
    (MODEL : option (string -> tensor)) (util : option (tensor -> tensor -> float))
    (domain : string) :
  MODEL = None \/ util = None ->
  is_Some (LEARNING_MATERIALS !! domain) ->
  row_score MODEL util domain = Ok one.
Proof.
  intros Hnone [text Htext].
  unfold row_score, evaluate_material, generate_learning_material.
  rewrite Htext. cbn [default].
  rewrite bert_similarity_lexical by assumption. apply jaccard_index_self.
Qed.

(** C9. Under the lexical fallback, the row of a domain that the reference
    lookup holds has the score 1.0 exactly (shown as 100.00%), the verdict
    Excellent and, for every threshold [<= 1.0], the predicted label 1. *)
Theorem known_domain_row {tensor}
    (MODEL : option (string -> tensor)) (util : option (tensor -> tensor -> float))
    (domains : list string) (mcq_bank : gmap string (list MCQ)) (threshold : float)
    (i : nat) (domain : string) :
  MODEL = None \/ util = None ->
  domains !! i = Some domain ->
  is_Some (LEARNING_MATERIALS !! domain) ->
  exists table y_true y_pred row,
    evaluation_loop MODEL util domains mcq_bank threshold = Ok (table, y_true, y_pred) /\
    (forall sklearn rows m,
       create_evaluation_table MODEL util sklearn domains mcq_bank threshold
       = Ok (rows, m) -> rows = table) /\
    row_score MODEL util domain = Ok one /\
    table !! i = Some row /\
    Domain row = domain /\
    Accuracy_Score row = "100.00%" /\
    Description row = "Excellent alignment with reference material." /\
    (le threshold one = true -> y_pred !! i = Some 1).
Proof.
  intros Hnone Hi Hknown.
  pose proof (row_score_known_domain MODEL util domain Hnone Hknown) as Hone.
  destruct (evaluation_loop_lookup MODEL util mcq_bank threshold domains i domain Hi)
    as (table & y_true & y_pred & score & Hloop & _ & Hscore & Hrow & _ & Hlabel).
  rewrite Hone in Hscore. injection Hscore as <-.
  exists table, y_true, y_pred, (row_of mcq_bank domain one).
  split; [exact Hloop|]. split.
  { intros sklearn rows m. eapply create_evaluation_table_rows. exact Hloop. }
  split; [exact Hone|]. split; [exact Hrow|]. split; [reflexivity|].
  split; [exact percent_of_one|]. split; [exact verdict_of_one|].
  intros Hle. rewrite Hlabel. unfold label_of, predicted_positive. rewrite Hone.
  rewrite (le_ge _ _ Hle). reflexivity.
Qed.

Lemma known_domain_row_witness :
  exists table y_true y_pred row,
    evaluation_loop (tensor := unit) None None ["Quantum"; "Loops"] ∅ lit_0_9
    = Ok (table, y_true, y_pred) /\
    (forall sklearn rows m,
       create_evaluation_table (tensor := unit) None None sklearn
         ["Quantum"; "Loops"] ∅ lit_0_9 = Ok (rows, m) -> rows = table) /\
    row_score (tensor := unit) None None "Loops" = Ok one /\
    table !! 1%nat = Some row /\
    Domain row = "Loops" /\
    Accuracy_Score row = "100.00%" /\
    Description row = "Excellent alignment with reference material." /\
    (le lit_0_9 one = true -> y_pred !! 1%nat = Some 1).
Proof.
  apply (known_domain_row (tensor := unit) None None ["Quantum"; "Loops"] ∅ lit_0_9
           1 "Loops").
  - left. reflexivity.
  - reflexivity.
  - vm_compute. eexists. reflexivity.
Defined.

(** C10. The formatted questions of a row are the empty string exactly when
    the bank holds no question for the domain of the row: no entry, or an
    entry with no question. When the bank holds questions for the domain,
    they are the lines of these questions joined by line feeds: per question
    a line "Q: ", a line " - " per option, a line "Answer: " and an empty
    line. *)
Theorem formatted_questions_of_row {tensor}
    (MODEL : option (string -> tensor)) (util : option (tensor -> tensor -> float))
    (domains : list string) (mcq_bank : gmap string (list MCQ)) (threshold : float)
    (i : nat) (domain : string) :
  domains !! i = Some domain ->
  exists table y_true y_pred row,
    evaluation_loop MODEL util domains mcq_bank threshold = Ok (table, y_true, y_pred) /\
    (forall sklearn rows m,
       create_evaluation_table MODEL util sklearn domains mcq_bank threshold
       = Ok (rows, m) -> rows = table) /\
    table !! i = Some row /\
    Domain row = domain /\
    (MCQs row = "" <-> mcq_bank !! domain = None \/ mcq_bank !! domain = Some []) /\
    (forall mcqs,
       mcq_bank !! domain = Some mcqs ->
       MCQs row
       = join nl (concat (map (fun mcq =>
                                 ("Q: " +:+ question mcq)
                                   :: map (fun opt => " - " +:+ opt) (options mcq)
                                   ++ ["Answer: " +:+ answer mcq; ""])
                              mcqs))).
Proof.
  intros Hi.
  destruct (evaluation_loop_lookup MODEL util mcq_bank threshold domains i domain Hi)
    as (table & y_true & y_pred & score & Hloop & _ & _ & Hrow & _).
  exists table, y_true, y_pred, (row_of mcq_bank domain score).
  split; [exact Hloop|]. split.
  { intros sklearn rows m. eapply create_evaluation_table_rows. exact Hloop. }
  split; [exact Hrow|]. split; [reflexivity|]. cbn [MCQs row_of].
  unfold generate_mcqs. split.
  - rewrite format_mcqs_empty.
    destruct (mcq_bank !! domain) as [mcqs|]; cbn [default from_option id].
    + split; [intros ->; right; reflexivity|].
      intros [H|H]; [discriminate H|]. injection H as ->. reflexivity.
    + split; [intros _; left; reflexivity|reflexivity].
  - intros mcqs ->. apply format_mcqs_lines.
Qed.

Lemma formatted_questions_of_row_witness :
  exists table y_true y_pred row,
    evaluation_loop (tensor := unit) None None ["Lists"; "Loops"]
      {[ "Loops" := [ {| question := "Which loop?"; options := ["for"; "if"];
                         answer := "for"; difficulty := "Beginner" |} ] ]} lit_0_9
    = Ok (table, y_true, y_pred) /\
    (forall sklearn rows m,
       create_evaluation_table (tensor := unit) None None sklearn ["Lists"; "Loops"]
         {[ "Loops" := [ {| question := "Which loop?"; options := ["for"; "if"];
                            answer := "for"; difficulty := "Beginner" |} ] ]} lit_0_9
       = Ok (rows, m) -> rows = table) /\
    table !! 1%nat = Some row /\
    Domain row = "Loops" /\
    (MCQs row = "" <->
     ({[ "Loops" := [ {| question := "Which loop?"; options := ["for"; "if"];
                         answer := "for"; difficulty := "Beginner" |} ] ]}
        : gmap string (list MCQ)) !! "Loops" = None \/
     ({[ "Loops" := [ {| question := "Which loop?"; options := ["for"; "if"];
                         answer := "for"; difficulty := "Beginner" |} ] ]}
        : gmap string (list MCQ)) !! "Loops" = Some []) /\
    (forall mcqs,
       ({[ "Loops" := [ {| question := "Which loop?"; options := ["for"; "if"];
                           answer := "for"; difficulty := "Beginner" |} ] ]}
          : gmap string (list MCQ)) !! "Loops" = Some mcqs ->
       MCQs row
       = join nl (concat (map (fun mcq =>
                                 ("Q: " +:+ question mcq)
                                   :: map (fun opt => " - " +:+ opt) (options mcq)
                                   ++ ["Answer: " +:+ answer mcq; ""])
                              mcqs))).
Proof.
  apply (formatted_questions_of_row (tensor := unit) None None ["Lists"; "Loops"]
           {[ "Loops" := [ {| question := "Which loop?"; options := ["for"; "if"];
                              answer := "for"; difficulty := "Beginner" |} ] ]}
           lit_0_9 1 "Loops").
  reflexivity.
Defined.

(** The rows of a bank that holds a question for "Loops" and none for
    "Lists": the block of the question, and the empty string. *)
Example formatted_questions_of_bank :
  (fun r => match r with
            | Ok (table, _, _) => Some (map MCQs table)
            | Raise _ => None
            end)
    (evaluation_loop (tensor := unit) None None ["Lists"; "Loops"]
       {[ "Loops" := [ {| question := "Which loop?"; options := ["for"; "if"];
                          answer := "for"; difficulty := "Beginner" |} ] ]} lit_0_9)
  = Some [ "";
           "Q: Which loop?" +:+ nl +:+ " - for" +:+ nl +:+ " - if" +:+ nl
             +:+ "Answer: for" +:+ nl ].
Proof. vm_compute. reflexivity. Qed.

(** The block of one question with two options. *)
Example formatted_questions_value :
  format_mcqs [ {| question := "Which loop?"; options := ["for"; "if"];
                   answer := "for"; difficulty := "Beginner" |} ]
  = "Q: Which loop?" +:+ nl +:+ " - for" +:+ nl +:+ " - if" +:+ nl
    +:+ "Answer: for" +:+ nl.
Proof. vm_compute. reflexivity. Qed.

(** * Further properties of the code *)

(** ** python_ontology.py: the traversal and the dictionary *)

Lemma preorder_children n :
  preorder n = n :: concat (map preorder (rev (children n))).
Proof.
  destruct n as [nm d f e r c]. cbn [preorder children]. f_equal.
  induction c as [|x c IH]; [reflexivity|].
  cbn [rev]. rewrite map_app, concat_app, IH. cbn [map concat].
  rewrite app_nil_r. reflexivity.
Qed.

Lemma iter_nodes_loop_preorder fuel : forall stack,
  (nodes_count stack <= fuel)%nat ->
  iter_nodes_loop fuel stack = Some (concat (map preorder (rev stack))).
Proof.
  induction fuel as [|fuel IH]; intros stack Hfuel.
  - destruct stack as [|x stack]; [reflexivity|].
    exfalso. cbn [nodes_count foldr] in Hfuel.
    rewrite node_count_children in Hfuel. lia.
  - cbn [iter_nodes_loop]. destruct (rev stack) as [|node below] eqn:Hrev.
    + reflexivity.
    + assert (stack = rev below ++ [node]) as Hstack.
      { apply (f_equal (@rev _)) in Hrev. rewrite rev_involutive in Hrev.
        exact Hrev. }
      assert (nodes_count stack
              = S (nodes_count (rev below ++ children node))) as Hcount.
      { rewrite Hstack, !nodes_count_app. cbn [nodes_count foldr].
        rewrite node_count_children. lia. }
      rewrite IH by lia. cbn [mbind option_bind].
      rewrite rev_app_distr, rev_involutive, map_app, concat_app.
      cbn [map concat]. rewrite (preorder_children node). reflexivity.
Qed.

Lemma iter_nodes_preorder root : iter_nodes root = Some (preorder root).
Proof.
  unfold iter_nodes. rewrite iter_nodes_loop_preorder.
  - cbn [rev app map concat]. rewrite app_nil_r. reflexivity.
  - cbn [nodes_count foldr]. lia.
Qed.

(** X1. [iter_nodes] yields every node of the tree once: the root first,
    then the subtree of each child whole, from the last child to the
    first. *)
Theorem iter_nodes_order root :
  iter_nodes root = Some (root :: concat (map preorder (rev (children root)))) /\
  (forall nodes, iter_nodes root = Some nodes -> length nodes = node_count root).
Proof.
  split.
  - rewrite iter_nodes_preorder, preorder_children. reflexivity.
  - intros nodes Hnodes. destruct (iter_nodes_total root) as (nodes' & H' & Hlen).
    rewrite Hnodes in H'. injection H' as <-. exact Hlen.
Qed.

Lemma dict_of_nodes_snoc nodes n :
  dict_of_nodes (nodes ++ [n]) = <[name n := description n]> (dict_of_nodes nodes).
Proof. unfold dict_of_nodes. rewrite foldl_app. reflexivity. Qed.

(** A name maps to the description of the last node of that name. *)
Lemma dict_of_nodes_lookup nodes k :
  dict_of_nodes nodes !! k
  = description <$> last (List.filter (fun n => String.eqb (name n) k) nodes).
Proof.
  induction nodes as [|n nodes IH] using rev_ind; [reflexivity|].
  rewrite dict_of_nodes_snoc, List.filter_app. cbn [List.filter].
  destruct (String.eqb_spec (name n) k) as [Heq|Hne].
  - rewrite Heq, lookup_insert_eq, last_snoc. reflexivity.
  - rewrite lookup_insert_ne by assumption. rewrite app_nil_r. exact IH.
Qed.

Lemma filter_name_unique (nodes : list OntologyNode) n :
  NoDup (map name nodes) -> n ∈ nodes ->
  List.filter (fun n' => String.eqb (name n') (name n)) nodes = [n].
Proof.
  induction nodes as [|x nodes IH]; intros Hnd Hin.
  - apply elem_of_nil in Hin. contradiction.
  - cbn [map] in Hnd. apply NoDup_cons in Hnd as [Hx Hnd].
    cbn [List.filter]. apply elem_of_cons in Hin as [->|Hin].
    + rewrite String.eqb_refl. f_equal.
      clear IH Hnd. induction nodes as [|y nodes IH]; [reflexivity|].
      cbn [List.filter]. cbn [map] in Hx. apply not_elem_of_cons in Hx as [Hy Hx].
      destruct (String.eqb_spec (name y) (name x)) as [Heq|_]; [congruence|].
      apply IH. assumption.
    + destruct (String.eqb_spec (name x) (name n)) as [Heq|_].
      * exfalso. apply Hx. rewrite Heq. apply list_elem_of_fmap. eauto.
      * apply IH; assumption.
Qed.

(** X2. [ontology_as_dict] always returns a dictionary; a name maps to the
    description of the node of that name that the traversal reaches last, a
    name of no node is absent, and when the names of the tree are distinct
    every node is found under its name with its own description. *)
Theorem ontology_as_dict_lookup root :
  exists d,
    ontology_as_dict root = Some d /\
    (forall k, d !! k
               = description <$> last (List.filter (fun n => String.eqb (name n) k)
                                                   (preorder root))) /\
    (forall k, d !! k = None <-> forall n, n ∈ preorder root -> name n <> k) /\
    (NoDup (map name (preorder root)) ->
     forall n, n ∈ preorder root -> d !! name n = Some (description n)).
Proof.
  pose proof (iter_nodes_preorder root) as Hiter.
  exists (dict_of_nodes (preorder root)). split; [|split; [|split]].
  - unfold ontology_as_dict. rewrite Hiter. reflexivity.
  - apply dict_of_nodes_lookup.
  - intros k. rewrite dict_of_nodes_lookup. split.
    + intros Hnone n Hin Hname.
      destruct (last (List.filter (fun n0 => String.eqb (name n0) k) (preorder root)))
        as [x|] eqn:Hlast; [discriminate|].
      apply last_None in Hlast.
      assert (n ∈ List.filter (fun n0 => String.eqb (name n0) k) (preorder root)) as Hn.
      { apply list_elem_of_In, List.filter_In. split; [apply list_elem_of_In; exact Hin|].
        apply String.eqb_eq. exact Hname. }
      rewrite Hlast in Hn. apply elem_of_nil in Hn. contradiction.
    + intros Hall.
      destruct (List.filter (fun n0 => String.eqb (name n0) k) (preorder root))
        as [|x l] eqn:Hf; [reflexivity|]. exfalso.
      assert (x ∈ List.filter (fun n0 => String.eqb (name n0) k) (preorder root)) as Hx
        by (rewrite Hf; apply elem_of_cons; left; reflexivity).
      apply list_elem_of_In, List.filter_In in Hx as [Hin Hname].
      apply (Hall x); [apply list_elem_of_In; exact Hin|apply String.eqb_eq; exact Hname].
  - intros Hnd n Hin. rewrite dict_of_nodes_lookup, filter_name_unique by assumption.
    reflexivity.
Qed.

(** The names of the ontology of the module are distinct. *)
Example ontology_names_distinct : NoDup (map name (preorder ONTOLOGY_ROOT)).
Proof. apply (bool_decide_unpack _). vm_compute. reflexivity. Qed.

Example ontology_as_dict_two_nodes :
  ontology_as_dict (add_child (OntologyNode_init "Root" "r" "Beginner" [])
                              (OntologyNode_init "Leaf" "l" "Beginner" []))
  = Some {[ "Root" := "r"; "Leaf" := "l" ]}.
Proof. vm_compute. reflexivity. Qed.

(** *** [add_child] in place *)















(** *** The trees of the objects *)











(** The objects of the example after [add_child]: the traversal from the
    root, on objects and on trees. *)
Example add_child_sample :
  Heap.iter_nodes 4 (Heap.add_child sample_heap 0%nat 2%nat) 0%nat
  = Some [0; 2; 3; 1]%nat /\
  map name <$> iter_nodes (add_child sample_parent sample_child)
  = Some ["Root"; "B"; "C"; "A"].
Proof. split; vm_compute; reflexivity. Qed.

Lemma dict_of_nodes_pairs nodes nodes' :
  map (fun n => (name n, description n)) nodes
  = map (fun n => (name n, description n)) nodes' ->
  dict_of_nodes nodes = dict_of_nodes nodes'.
Proof.
  unfold dict_of_nodes. generalize (∅ : gmap string string) as d.
  revert nodes'. induction nodes as [|n nodes IH]; intros [|n' nodes'] d Heq;
    try discriminate; [reflexivity|].
  cbn [map] in Heq. injection Heq as Hn Hd Hrest.
  cbn [foldl]. rewrite Hn, Hd. apply IH. exact Hrest.
Qed.

(** X4. A relationship added to the root changes neither the number of
    nodes nor the dictionary of the ontology: the dictionary reads names and
    descriptions only. *)
Theorem add_relationship_keeps_dict root relation target :
  ontology_as_dict (add_relationship root relation target) = ontology_as_dict root /\
  node_count (add_relationship root relation target) = node_count root.
Proof.
  split.
  - unfold ontology_as_dict.
    rewrite !iter_nodes_preorder.
    cbn [fmap option_fmap option_map]. f_equal. apply dict_of_nodes_pairs.
    destruct root as [nm d f e r c]. reflexivity.
  - destruct root as [nm d f e r c]. reflexivity.
Qed.

(** ** ontology_quiz_generator.py: [load_mcq_bank] *)

Lemma load_rows_group bank rows :
  load_rows bank rows = (items ← parse_rows rows; Done (group_into bank items)).
Proof.
  revert bank. induction rows as [|row rows IH]; intros bank; [reflexivity|].
  cbn [load_rows parse_rows]. destruct (mcq_of_row row) as [[d m]|e]; [|reflexivity].
  cbn [mbind outcome_bind]. rewrite IH.
  destruct (parse_rows rows) as [items|e]; reflexivity.
Qed.

Lemma lookup_setdefault_append bank d m k :
  dict_of_items (setdefault_append bank d m) !! k
  = if decide (k = d) then Some (default [] (dict_of_items bank !! d) ++ [m])
    else dict_of_items bank !! k.
Proof.
  unfold dict_of_items. induction bank as [|[k0 v] bank IH]; cbn [setdefault_append].
  - rewrite list_to_map_cons, list_to_map_nil. destruct (decide (k = d)) as [->|Hne].
    + rewrite lookup_insert_eq. reflexivity.
    + rewrite lookup_insert_ne by congruence. reflexivity.
  - destruct (String.eqb_spec k0 d) as [->|Hk0].
    + rewrite !list_to_map_cons. destruct (decide (k = d)) as [->|Hne].
      * rewrite !lookup_insert_eq. reflexivity.
      * rewrite !lookup_insert_ne by congruence. reflexivity.
    + rewrite !list_to_map_cons. destruct (decide (k = k0)) as [->|Hne0].
      * rewrite !lookup_insert_eq. destruct (decide (k0 = d)); [congruence|reflexivity].
      * rewrite !lookup_insert_ne by congruence. rewrite IH.
        destruct (decide (k = d)) as [->|Hne]; reflexivity.
Qed.

Lemma lookup_group_into items : forall bank d,
  default [] (dict_of_items (group_into bank items) !! d)
  = default [] (dict_of_items bank !! d) ++ questions_of d items.
Proof.
  unfold questions_of.
  induction items as [|[d0 m] items IH]; intros bank d.
  - cbn. rewrite app_nil_r. reflexivity.
  - cbn [group_into foldl fst snd List.filter]. fold (group_into (setdefault_append bank d0 m) items).
    rewrite IH, lookup_setdefault_append.
    destruct (String.eqb_spec d0 d) as [->|Hne].
    + destruct (decide (d = d)); [|congruence]. cbn [default map snd from_option id].
      rewrite <- app_assoc. reflexivity.
    + destruct (decide (d = d0)); [congruence|]. reflexivity.
Qed.

Lemma mcq_of_row_Done row d m :
  mcq_of_row row = Done (d, m) ->
  row !! "Domain" = Some d /\
  length (options m) = 4%nat /\
  difficulty m = default "Beginner" (row !! "Difficulty").
Proof.
  unfold mcq_of_row, getitem.
  destruct (row !! "Domain") as [vd|]; [|discriminate].
  destruct (row !! "Question"); [|discriminate].
  destruct (row !! "A"); [|discriminate].
  destruct (row !! "B"); [|discriminate].
  destruct (row !! "C"); [|discriminate].
  destruct (row !! "D"); [|discriminate].
  destruct (row !! "Answer"); [|discriminate].
  cbn. intros [= <- <-]. repeat split.
Qed.

Lemma load_mcq_bank_parsed rows items :
  parse_rows rows = Done items -> load_mcq_bank rows = Done (group_into [] items).
Proof.
  intros Hparse. unfold load_mcq_bank. rewrite load_rows_group, Hparse. reflexivity.
Qed.

Lemma generate_mcqs_group_into d items :
  generate_mcqs d (dict_of_items (group_into [] items)) = questions_of d items.
Proof. unfold generate_mcqs. rewrite lookup_group_into. reflexivity. Qed.

Lemma group_into_nonempty items : forall bank,
  (forall k v, dict_of_items bank !! k = Some v -> v <> []) ->
  forall k v, dict_of_items (group_into bank items) !! k = Some v -> v <> [].
Proof.
  induction items as [|[d0 m] items IH]; intros bank Hbank; [exact Hbank|].
  cbn [group_into foldl fst snd]. fold (group_into (setdefault_append bank d0 m) items).
  apply IH. intros k v. rewrite lookup_setdefault_append.
  destruct (decide (k = d0)) as [->|_].
  - intros [= <-]. destruct (default [] (dict_of_items bank !! d0)); discriminate.
  - apply Hbank.
Qed.

Lemma lookup_group_into_None items d :
  dict_of_items (group_into [] items) !! d = None <-> questions_of d items = [].
Proof.
  rewrite <- generate_mcqs_group_into. unfold generate_mcqs. split.
  - intros ->. reflexivity.
  - destruct (dict_of_items (group_into [] items) !! d) as [qs|] eqn:Hlook;
      [|reflexivity].
    cbn [default from_option id]. intros ->. exfalso.
    eapply (group_into_nonempty items []); [|exact Hlook|reflexivity].
    intros k v. discriminate.
Qed.

(** X5. The loader groups the questions by domain and keeps the order of
    the file: under a domain the bank holds the questions of the rows of
    that domain, in the order of the rows, and nothing under a domain of no
    row. *)
Theorem load_mcq_bank_groups rows items :
  parse_rows rows = Done items ->
  exists bank,
    load_mcq_bank rows = Done bank /\
    (forall d, generate_mcqs d (dict_of_items bank) = questions_of d items) /\
    (forall d, dict_of_items bank !! d = None <-> questions_of d items = []).
Proof.
  intros Hparse. exists (group_into [] items).
  split; [apply load_mcq_bank_parsed; exact Hparse|]. split.
  - intros d. apply generate_mcqs_group_into.
  - intros d. apply lookup_group_into_None.
Qed.

Example sample_rows_bank :
  load_mcq_bank sample_rows
  = Done [ ("Loops",
            [ {| question := "Which keyword starts a loop?";
                 options := ["for"; "if"; "def"; "try"];
                 answer := "for"; difficulty := "Advanced" |};
              {| question := "Which loop tests a condition?";
                 options := ["while"; "with"; "pass"; "del"];
                 answer := "while"; difficulty := "Beginner" |} ]);
           ("Lists",
            [ {| question := "Which is a list?";
                 options := ["[1]"; "(1,)"; "{1}"; "1"];
                 answer := "[1]"; difficulty := "Beginner" |} ]) ].
Proof. vm_compute. reflexivity. Qed.

Lemma load_mcq_bank_groups_witness :
  exists bank,
    load_mcq_bank sample_rows = Done bank /\
    (forall d, generate_mcqs d (dict_of_items bank) = questions_of d sample_items) /\
    (forall d, dict_of_items bank !! d = None <-> questions_of d sample_items = []).
Proof.
  apply (load_mcq_bank_groups sample_rows sample_items).
  vm_compute. reflexivity.
Defined.

Lemma filter_filter_and {A : Type} (P Q : A -> bool) (l : list A) :
  List.filter P (List.filter Q l) = List.filter (fun y => Q y && P y) l.
Proof.
  induction l as [|x l IH]; [reflexivity|].
  cbn [List.filter]. destruct (Q x); cbn [andb List.filter]; [destruct (P x)|];
    rewrite IH; reflexivity.
Qed.

Lemma mem_app x l l' : mem x (l ++ l') = mem x l || mem x l'.
Proof. unfold mem. apply existsb_app. Qed.

Lemma mem_elem_of x l : mem x l = true <-> x ∈ l.
Proof.
  unfold mem. rewrite existsb_exists, list_elem_of_In. split.
  - intros (y & Hin & Heq). apply String.eqb_eq in Heq. subst. exact Hin.
  - intros Hin. exists x. split; [exact Hin|apply String.eqb_refl].
Qed.

Lemma keys_setdefault_append bank d m :
  keys (setdefault_append bank d m)
  = if mem d (keys bank) then keys bank else keys bank ++ [d].
Proof.
  unfold keys, mem. induction bank as [|[k0 v] bank IH]; [reflexivity|].
  cbn [setdefault_append map fst existsb]. rewrite (String.eqb_sym d k0).
  destruct (String.eqb k0 d); cbn [orb map fst]; [reflexivity|].
  rewrite IH. destruct (existsb (String.eqb d) (map fst bank)); reflexivity.
Qed.

Lemma keys_group_into items : forall bank,
  keys (group_into bank items)
  = keys bank
    ++ List.filter (fun y => negb (mem y (keys bank))) (first_occurrences (map fst items)).
Proof.
  induction items as [|[d m] items IH]; intros bank.
  - cbn. rewrite app_nil_r. reflexivity.
  - cbn [group_into foldl fst snd map first_occurrences List.filter].
    fold (group_into (setdefault_append bank d m) items).
    rewrite IH, keys_setdefault_append, filter_filter_and.
    destruct (mem d (keys bank)) eqn:Hd; cbn [negb].
    + f_equal. apply List.filter_ext. intros y.
      destruct (String.eqb_spec y d) as [->|_]; [rewrite Hd; reflexivity|].
      cbn [negb andb]. reflexivity.
    + rewrite <- app_assoc. cbn [app]. do 2 f_equal.
      apply List.filter_ext. intros y. rewrite mem_app. unfold mem at 2.
      cbn [existsb]. rewrite orb_false_r, negb_orb, andb_comm. reflexivity.
Qed.

Lemma first_occurrences_elem_of l x : x ∈ first_occurrences l <-> x ∈ l.
Proof.
  induction l as [|y l IH]; [reflexivity|].
  cbn [first_occurrences]. rewrite !elem_of_cons, <- IH.
  rewrite !list_elem_of_In, List.filter_In, <- !list_elem_of_In.
  destruct (String.eqb_spec x y) as [->|Hne]; cbn [negb]; intuition congruence.
Qed.

Lemma first_occurrences_NoDup l : NoDup (first_occurrences l).
Proof.
  induction l as [|y l IH]; [constructor|].
  cbn [first_occurrences]. constructor.
  - rewrite list_elem_of_In, List.filter_In. intros [_ Hne].
    rewrite String.eqb_refl in Hne. discriminate.
  - apply NoDup_ListNoDup, List.NoDup_filter, NoDup_ListNoDup. exact IH.
Qed.

Lemma keys_group_into_nil items :
  keys (group_into [] items) = first_occurrences (map fst items).
Proof.
  rewrite keys_group_into. cbn [keys map app].
  rewrite (List.filter_ext _ (fun _ => true)) by reflexivity.
  induction (first_occurrences (map fst items)) as [|x l IH]; [reflexivity|].
  cbn [List.filter]. rewrite IH. reflexivity.
Qed.

(** X6. The keys of the loaded bank, which [main] takes as its domains, are
    the domains of the rows in the order of their first occurrence, each
    once. *)
Theorem load_mcq_bank_keys rows items :
  parse_rows rows = Done items ->
  exists bank,
    load_mcq_bank rows = Done bank /\
    keys bank = first_occurrences (map fst items) /\
    NoDup (keys bank) /\
    (forall d, d ∈ keys bank <-> d ∈ map fst items).
Proof.
  intros Hparse. exists (group_into [] items).
  split; [apply load_mcq_bank_parsed; exact Hparse|].
  rewrite keys_group_into_nil. split; [reflexivity|]. split.
  - apply first_occurrences_NoDup.
  - intros d. apply first_occurrences_elem_of.
Qed.

Lemma load_mcq_bank_keys_witness :
  exists bank,
    load_mcq_bank sample_rows = Done bank /\
    keys bank = first_occurrences (map fst sample_items) /\
    NoDup (keys bank) /\
    (forall d, d ∈ keys bank <-> d ∈ map fst sample_items).
Proof.
  apply (load_mcq_bank_keys sample_rows sample_items).
  vm_compute. reflexivity.
Defined.

Lemma mcq_of_row_complete row :
  (exists item, mcq_of_row row = Done item)
  <-> Forall (fun k => is_Some (row !! k)) required_columns.
Proof.
  unfold required_columns. rewrite !Forall_cons, Forall_nil.
  unfold mcq_of_row, getitem. split.
  - intros [item H].
    destruct (row !! "Domain"); [|discriminate].
    destruct (row !! "Question"); [|discriminate].
    destruct (row !! "A"); [|discriminate].
    destruct (row !! "B"); [|discriminate].
    destruct (row !! "C"); [|discriminate].
    destruct (row !! "D"); [|discriminate].
    destruct (row !! "Answer"); [|discriminate].
    repeat split; eexists; reflexivity.
  - intros ([? ->] & [? ->] & [? ->] & [? ->] & [? ->] & [? ->] & [? ->] & _).
    eexists. reflexivity.
Qed.

Lemma mcq_of_row_Fail row e :
  mcq_of_row row = Fail e ->
  exists k, e = KeyError k /\ k ∈ required_columns /\ row !! k = None.
Proof.
  unfold mcq_of_row, getitem, required_columns.
  destruct (row !! "Domain") eqn:H1;
    [|intros [= <-]; eexists; split; [reflexivity|split; [set_solver|exact H1]]].
  destruct (row !! "Question") eqn:H2;
    [|intros [= <-]; eexists; split; [reflexivity|split; [set_solver|exact H2]]].
  destruct (row !! "A") eqn:H3;
    [|intros [= <-]; eexists; split; [reflexivity|split; [set_solver|exact H3]]].
  destruct (row !! "B") eqn:H4;
    [|intros [= <-]; eexists; split; [reflexivity|split; [set_solver|exact H4]]].
  destruct (row !! "C") eqn:H5;
    [|intros [= <-]; eexists; split; [reflexivity|split; [set_solver|exact H5]]].
  destruct (row !! "D") eqn:H6;
    [|intros [= <-]; eexists; split; [reflexivity|split; [set_solver|exact H6]]].
  destruct (row !! "Answer") eqn:H7;
    [|intros [= <-]; eexists; split; [reflexivity|split; [set_solver|exact H7]]].
  discriminate.
Qed.

Lemma parse_rows_complete rows :
  (exists items, parse_rows rows = Done items)
  <-> Forall (fun row => Forall (fun k => is_Some (row !! k)) required_columns) rows.
Proof.
  induction rows as [|row rows IH].
  - split; [constructor|]. intros _. exists []. reflexivity.
  - rewrite Forall_cons, <- IH, <- mcq_of_row_complete. cbn [parse_rows]. split.
    + intros [items H]. destruct (mcq_of_row row) as [item|]; [|discriminate].
      destruct (parse_rows rows) as [items'|]; [|discriminate]. eauto.
    + intros [[item ->] [items ->]]. eexists. reflexivity.
Qed.

Lemma parse_rows_Fail rows e :
  parse_rows rows = Fail e ->
  exists row k, row ∈ rows /\ e = KeyError k /\ k ∈ required_columns /\ row !! k = None.
Proof.
  induction rows as [|row rows IH]; [discriminate|].
  cbn [parse_rows]. destruct (mcq_of_row row) as [item|e'] eqn:Hrow.
  - destruct (parse_rows rows) as [items|e'']; [discriminate|].
    cbn. intros [= <-]. destruct (IH eq_refl) as (r & k & Hin & H).
    exists r, k. split; [apply elem_of_cons; right; exact Hin|exact H].
  - cbn. intros [= <-]. destruct (mcq_of_row_Fail _ _ Hrow) as (k & H).
    exists row, k. split; [apply elem_of_cons; left; reflexivity|exact H].
Qed.

(** X7. The loader returns a bank exactly when every row has the seven
    columns "Domain", "Question", "A", "B", "C", "D" and "Answer"; otherwise
    it fails with the [KeyError] of one of these columns, missing in a row. A
    missing "Difficulty" is no error. *)
Theorem load_mcq_bank_errors rows :
  ((exists bank, load_mcq_bank rows = Done bank)
   <-> Forall (fun row => Forall (fun k => is_Some (row !! k)) required_columns) rows) /\
  (forall e, load_mcq_bank rows = Fail e ->
             exists row k, row ∈ rows /\ e = KeyError k /\ k ∈ required_columns /\
                           row !! k = None).
Proof.
  unfold load_mcq_bank. rewrite load_rows_group. split.
  - rewrite <- parse_rows_complete. split.
    + intros [bank H]. destruct (parse_rows rows) as [items|]; [eauto|discriminate].
    + intros [items ->]. eexists. reflexivity.
  - intros e H. apply parse_rows_Fail.
    destruct (parse_rows rows) as [items|]; [discriminate|].
    cbn in H. injection H as ->. reflexivity.
Qed.

Example load_mcq_bank_missing_column :
  load_mcq_bank [ delete "Answer" (sample_row "Loops" "q" "a" "b" "c" "d" "a") ]
  = Fail (KeyError "Answer") /\
  load_mcq_bank [ delete "A" (delete "Domain" (sample_row "Loops" "q" "a" "b" "c" "d" "a")) ]
  = Fail (KeyError "Domain").
Proof. split; vm_compute; reflexivity. Qed.

Lemma parse_rows_items rows items :
  parse_rows rows = Done items ->
  length items = length rows /\
  Forall (fun item => length (options item.2) = 4%nat) items.
Proof.
  revert items. induction rows as [|row rows IH]; intros items.
  - intros [= <-]. split; [reflexivity|constructor].
  - cbn [parse_rows]. destruct (mcq_of_row row) as [[d m]|] eqn:Hrow; [|discriminate].
    destruct (parse_rows rows) as [items'|]; [|discriminate].
    cbn. intros [= <-]. destruct (IH items' eq_refl) as [Hlen Hall].
    apply mcq_of_row_Done in Hrow as (_ & Hopt & _).
    split; [cbn [length]; lia|]. constructor; assumption.
Qed.

Lemma setdefault_append_invariant bank d m :
  length (options m) = 4%nat ->
  Forall (fun entry => entry.2 <> [] /\
                       Forall (fun q => length (options q) = 4%nat) entry.2) bank ->
  Forall (fun entry => entry.2 <> [] /\
                       Forall (fun q => length (options q) = 4%nat) entry.2)
         (setdefault_append bank d m).
Proof.
  intros Hm. induction bank as [|[k v] bank IH]; intros Hbank; cbn [setdefault_append].
  - constructor; [|constructor]. cbn. split; [discriminate|]. constructor; [exact Hm|constructor].
  - apply Forall_cons in Hbank as [[Hv Hq] Hbank]. cbn [snd] in Hv, Hq.
    destruct (String.eqb k d).
    + constructor; [|exact Hbank]. cbn [snd]. split.
      * destruct v; discriminate.
      * apply Forall_app. split; [exact Hq|]. constructor; [exact Hm|constructor].
    + constructor; [split; assumption|]. apply IH. exact Hbank.
Qed.

Lemma setdefault_append_count bank d m :
  length (concat (map snd (setdefault_append bank d m)))
  = S (length (concat (map snd bank))).
Proof.
  induction bank as [|[k v] bank IH]; cbn [setdefault_append]; [reflexivity|].
  destruct (String.eqb k d); cbn [map snd concat].
  - rewrite !length_app. cbn [length]. lia.
  - rewrite !length_app, IH. lia.
Qed.

Lemma group_into_invariant items : forall bank,
  Forall (fun item => length (options item.2) = 4%nat) items ->
  Forall (fun entry => entry.2 <> [] /\
                       Forall (fun q => length (options q) = 4%nat) entry.2) bank ->
  Forall (fun entry => entry.2 <> [] /\
                       Forall (fun q => length (options q) = 4%nat) entry.2)
         (group_into bank items) /\
  length (concat (map snd (group_into bank items)))
  = (length (concat (map snd bank)) + length items)%nat.
Proof.
  induction items as [|[d m] items IH]; intros bank Hitems Hbank.
  - split; [exact Hbank|]. cbn. lia.
  - apply Forall_cons in Hitems as [Hm Hitems]. cbn [snd] in Hm.
    cbn [group_into foldl fst snd].
    fold (group_into (setdefault_append bank d m) items).
    destruct (IH (setdefault_append bank d m) Hitems
                 (setdefault_append_invariant bank d m Hm Hbank)) as [Hinv Hcount].
    split; [exact Hinv|]. rewrite Hcount, setdefault_append_count. cbn [length]. lia.
Qed.

(** X8. Every row of the file becomes one question of the bank: the bank
    holds as many questions as the file has rows, no domain of the bank is
    left without a question, and every question has exactly four options. *)
Theorem load_mcq_bank_invariants rows bank :
  load_mcq_bank rows = Done bank ->
  length (concat (map snd bank)) = length rows /\
  Forall (fun entry => entry.2 <> [] /\
                       Forall (fun q => length (options q) = 4%nat) entry.2) bank.
Proof.
  unfold load_mcq_bank. rewrite load_rows_group.
  destruct (parse_rows rows) as [items|] eqn:Hparse; [|discriminate].
  cbn. intros [= <-].
  destruct (parse_rows_items rows items Hparse) as [Hlen Hopts].
  destruct (group_into_invariant items [] Hopts ltac:(constructor)) as [Hinv Hcount].
  split; [|exact Hinv]. rewrite Hcount. cbn. lia.
Qed.

Lemma load_mcq_bank_invariants_witness :
  length (concat (map snd (group_into [] sample_items))) = length sample_rows /\
  Forall (fun entry => entry.2 <> [] /\
                       Forall (fun q => length (options q) = 4%nat) entry.2)
         (group_into [] sample_items).
Proof.
  apply (load_mcq_bank_invariants sample_rows (group_into [] sample_items)).
  vm_compute. reflexivity.
Defined.

(** ** ontology_quiz_generator.py: [main] *)

Lemma load_mcq_bank_Done rows bank :
  load_mcq_bank rows = Done bank ->
  exists items, parse_rows rows = Done items /\ bank = group_into [] items.
Proof.
  unfold load_mcq_bank. rewrite load_rows_group.
  destruct (parse_rows rows) as [items|]; [|discriminate].
  cbn. intros [= <-]. eauto.
Qed.

Lemma questions_of_nonempty d items : d ∈ map fst items -> questions_of d items <> [].
Proof.
  unfold questions_of. induction items as [|[d0 m] items IH]; cbn [map fst].
  - intros H. apply elem_of_nil in H. contradiction.
  - intros H. cbn [List.filter fst]. destruct (String.eqb_spec d0 d) as [->|Hne].
    + discriminate.
    + apply elem_of_cons in H as [->|H]; [congruence|]. apply IH. exact H.
Qed.

(** The domains that [main] passes on all have a question. *)
Lemma load_mcq_bank_key_has_questions rows bank d :
  load_mcq_bank rows = Done bank -> d ∈ keys bank ->
  generate_mcqs d (dict_of_items bank) <> [].
Proof.
  intros Hload Hd.
  destruct (load_mcq_bank_Done rows bank Hload) as (items & Hparse & ->).
  rewrite generate_mcqs_group_into. apply questions_of_nonempty.
  rewrite keys_group_into_nil in Hd. apply first_occurrences_elem_of. exact Hd.
Qed.

Lemma first_occurrences_nil l : first_occurrences l = [] -> l = [].
Proof. destruct l; [reflexivity|discriminate]. Qed.

(** X9. Without scikit-learn, [main] returns exactly when the file has at
    least one row and every row has the seven columns of the loader; a file
    with a header only makes it raise [ZeroDivisionError], and an error of
    the loader is the error of [main]. *)
Theorem main_returns {tensor}
    (MODEL : option (string -> tensor)) (util : option (tensor -> tensor -> float))
    (rows : list (gmap string string)) :
  ((exists report, main MODEL util None rows = Done report)
   <-> rows <> [] /\
       Forall (fun row => Forall (fun k => is_Some (row !! k)) required_columns) rows) /\
  main MODEL util None [] = Fail (Uncaught ZeroDivisionError) /\
  (forall e, load_mcq_bank rows = Fail e -> main MODEL util None rows = Fail e).
Proof.
  split; [|split].
  - split.
    + intros [report Hmain]. split.
      * intros ->. discriminate Hmain.
      * apply parse_rows_complete. unfold main in Hmain.
        destruct (load_mcq_bank rows) as [bank|] eqn:Hload; [|discriminate].
        destruct (load_mcq_bank_Done rows bank Hload) as (items & Hparse & _). eauto.
    + intros [Hne Hall].
      apply parse_rows_complete in Hall as [items Hparse].
      pose proof (load_mcq_bank_parsed rows items Hparse) as Hload.
      set (bank := group_into [] items) in *.
      assert (keys bank <> []) as Hdomains.
      { unfold bank. rewrite keys_group_into_nil. intros Hnil. apply first_occurrences_nil in Hnil.
        destruct (parse_rows_items rows items Hparse) as [Hlen _].
        destruct items; [|discriminate]. destruct rows; [congruence|discriminate]. }
      destruct (create_evaluation_table_nonempty MODEL util (dict_of_items bank)
                  default_threshold (keys bank) Hdomains)
        as (scores & acc & f & _ & _ & _ & Hcreate).
      unfold main. rewrite Hload. cbn [mbind outcome_bind].
      rewrite Hcreate. cbn [uncaught mbind outcome_bind]. eexists. reflexivity.
  - reflexivity.
  - intros e Hload. unfold main. rewrite Hload. reflexivity.
Qed.

Lemma print_row_length row :
  MCQs row <> "" -> length (print_row row) = 4%nat.
Proof.
  intros Hne. unfold print_row. destruct (MCQs row); [congruence|]. reflexivity.
Qed.

Lemma rows_Forall (P : Row -> Prop) bank (ds : list string) (scores : list float) :
  length ds = length scores ->
  (forall d s, d ∈ ds -> P (row_of bank d s)) ->
  Forall P (zip_with (row_of bank) ds scores).
Proof.
  revert scores. induction ds as [|d ds IH]; intros [|s scores] Hlen HP;
    try discriminate; [constructor|].
  cbn [zip_with]. constructor.
  - apply HP. apply elem_of_cons. left. reflexivity.
  - apply IH; [cbn [length] in Hlen; lia|].
    intros d' s' Hd'. apply HP. apply elem_of_cons. right. exact Hd'.
Qed.

Lemma rows_domains bank (ds : list string) (scores : list float) :
  length ds = length scores ->
  map Domain (zip_with (row_of bank) ds scores) = ds.
Proof.
  revert scores. induction ds as [|d ds IH]; intros [|s scores] Hlen;
    try discriminate; [reflexivity|].
  cbn [zip_with map Domain row_of]. f_equal. apply IH. cbn [length] in Hlen. lia.
Qed.

Lemma print_rows_length table :
  Forall (fun row => MCQs row <> "") table ->
  length (concat (map print_row table)) = (4 * length table)%nat.
Proof.
  induction 1 as [|row table Hrow _ IH]; [reflexivity|].
  cbn [map concat length]. rewrite length_app, IH, (print_row_length row Hrow). lia.
Qed.

(** X10. When [main] returns, the table written has one row per domain of
    the file, in the order of their first occurrence; every row has
    formatted questions, so their block is printed for every row: four
    lines per row, then the five lines of the metrics. *)
Theorem main_report {tensor}
    (MODEL : option (string -> tensor)) (util : option (tensor -> tensor -> float))
    (sklearn : option Sklearn) (rows : list (gmap string string)) (report : Report) :
  main MODEL util sklearn rows = Done report ->
  exists items,
    parse_rows rows = Done items /\
    map Domain (csv_rows report) = first_occurrences (map fst items) /\
    Forall (fun row => MCQs row <> ""
                       /\ MCQs row = format_mcqs (questions_of (Domain row) items))
           (csv_rows report) /\
    length (printed report) = (4 * length (csv_rows report) + 5)%nat.
Proof.
  intros Hmain. unfold main in Hmain.
  destruct (load_mcq_bank rows) as [bank|] eqn:Hload; [|discriminate].
  cbn [mbind outcome_bind] in Hmain.
  destruct (create_evaluation_table MODEL util sklearn (keys bank)
              (dict_of_items bank) default_threshold) as [[table metrics]|] eqn:Hcreate;
    [|discriminate].
  cbn in Hmain. injection Hmain as <-. cbn [csv_rows printed].
  destruct (load_mcq_bank_Done rows bank Hload) as (items & Hparse & Hbank).
  assert (forall d, generate_mcqs d (dict_of_items bank) = questions_of d items) as Hget.
  { intros d. rewrite Hbank. apply generate_mcqs_group_into. }
  assert (keys bank = first_occurrences (map fst items)) as Hkeys.
  { rewrite Hbank. apply keys_group_into_nil. }
  assert (forall d, d ∈ keys bank <-> d ∈ map fst items) as Hin.
  { intros d. rewrite Hkeys. apply first_occurrences_elem_of. }
  destruct (evaluation_loop_spec MODEL util (dict_of_items bank) default_threshold
              (keys bank)) as (scores & Hscores & Hloop).
  pose proof (create_evaluation_table_rows MODEL util (dict_of_items bank)
                default_threshold sklearn _ _ _ _ _ _ Hloop Hcreate) as ->.
  apply Forall2_length in Hscores.
  exists items. split; [exact Hparse|].
  rewrite <- Hkeys.
  assert (Forall (fun row => MCQs row <> ""
                             /\ MCQs row = format_mcqs (questions_of (Domain row) items))
                 (zip_with (row_of (dict_of_items bank)) (keys bank) scores)) as Hall.
  { apply rows_Forall; [exact Hscores|]. intros d s Hd.
    cbn [MCQs Domain row_of]. rewrite Hget. split; [|reflexivity].
    intros Hempty. apply format_mcqs_empty in Hempty.
    apply (questions_of_nonempty d items); [|exact Hempty]. apply Hin. exact Hd. }
  split; [apply rows_domains; exact Hscores|]. split; [exact Hall|].
  rewrite length_app, print_rows_length; [cbn [length]; lia|].
  eapply Forall_impl; [exact Hall|]. intros row [Hrow _]. exact Hrow.
Qed.

Lemma main_report_witness :
  exists items,
    parse_rows sample_rows = Done items /\
    map Domain (csv_rows sample_report) = first_occurrences (map fst items) /\
    Forall (fun row => MCQs row <> ""
                       /\ MCQs row = format_mcqs (questions_of (Domain row) items))
           (csv_rows sample_report) /\
    length (printed sample_report) = (4 * length (csv_rows sample_report) + 5)%nat.
Proof.
  apply (main_report (tensor := unit) None None None sample_rows sample_report).
  vm_compute. reflexivity.
Defined.

(** What [main] prints for the three rows of [sample_rows]. *)
Example main_prints_sample :
  printed <$> (match main (tensor := unit) None None None sample_rows with
               | Done report => Some report
               | Fail _ => None
               end)
  = Some [ "Domain: Loops"; "Accuracy: 100.00%";
           "MCQs:" +:+ nl +:+ "Q: Which keyword starts a loop?" +:+ nl
             +:+ " - for" +:+ nl +:+ " - if" +:+ nl +:+ " - def" +:+ nl +:+ " - try" +:+ nl
             +:+ "Answer: for" +:+ nl +:+ nl
             +:+ "Q: Which loop tests a condition?" +:+ nl
             +:+ " - while" +:+ nl +:+ " - with" +:+ nl +:+ " - pass" +:+ nl +:+ " - del" +:+ nl
             +:+ "Answer: while" +:+ nl;
           "----------------------------------------";
           "Domain: Lists"; "Accuracy: 100.00%";
           "MCQs:" +:+ nl +:+ "Q: Which is a list?" +:+ nl
             +:+ " - [1]" +:+ nl +:+ " - (1,)" +:+ nl +:+ " - {1}" +:+ nl +:+ " - 1" +:+ nl
             +:+ "Answer: [1]" +:+ nl;
           "----------------------------------------";
           "Overall Metrics:"; "Accuracy: 100.00%"; "Precision: 100.00%";
           "Recall: 100.00%"; "F1-Score: 100.00%" ].
Proof. vm_compute. reflexivity. Qed.

(** ** ontology_quiz_generator.py: [compute_metrics] on any labels *)

Lemma count_pairs_length (cond : Z -> Z -> bool) (pairs : list (Z * Z)) :
  count_pairs cond pairs
  = Z.of_nat (length (List.filter (fun tp => cond tp.1 tp.2) pairs)).
Proof. unfold count_pairs. rewrite foldl_add_ones. lia. Qed.

(** The four counts share out the counted pairs; the true positives and the
    true negatives are the counted pairs whose labels agree. *)
Lemma four_counts (pairs : list (Z * Z)) :
  let tp := count_pairs (fun t p => (t =? p) && (p =? 1)) pairs in
  let fp := count_pairs (fun t p => (t =? 0) && (p =? 1)) pairs in
  let fn := count_pairs (fun t p => (t =? 1) && (p =? 0)) pairs in
  let tn := count_pairs (fun t p => (t =? p) && (p =? 0)) pairs in
  0 <= tp /\ 0 <= fp /\ 0 <= fn /\ 0 <= tn /\
  tp + fp + fn + tn
  = Z.of_nat (length (List.filter (fun tp => counted tp.1 tp.2) pairs)) /\
  tp + tn
  = Z.of_nat (length (List.filter (fun tp => counted tp.1 tp.2 && (tp.1 =? tp.2)) pairs)).
Proof.
  cbv zeta. rewrite !count_pairs_length.
  split; [lia|]. split; [lia|]. split; [lia|]. split; [lia|].
  induction pairs as [|[t p] pairs [IH1 IH2]]; [split; reflexivity|].
  cbn [List.filter fst snd]. unfold counted in *.
  destruct (Z.eqb_spec t p), (Z.eqb_spec p 1), (Z.eqb_spec p 0),
    (Z.eqb_spec t 0), (Z.eqb_spec t 1);
    try lia; cbn [andb orb length]; lia.
Qed.

Lemma int_truediv_unit_range a b q :
  0 <= a <= b -> 0 < b -> int_truediv a b = Ok q ->
  le zero q = true /\ le q one = true.
Proof.
  intros Hab Hb Hq. split.
  - eapply (int_truediv_mono 0 a b); [| | | |exact Hq]; try lia.
    apply int_truediv_zero. exact Hb.
  - eapply (int_truediv_mono a b b); [| | |exact Hq|]; try lia.
    apply int_truediv_self. exact Hb.
Qed.

(** X11. [compute_metrics] counts the pairs of labels that are both 0 or
    1, up to the end of the shorter list. With no such pair it raises
    [ZeroDivisionError]; otherwise it returns, its accuracy is the share of
    the counted pairs whose labels agree, and accuracy, precision and recall
    lie between 0.0 and 1.0. *)
Theorem compute_metrics_total (y_true y_pred : list Z) :
  (counted_pairs y_true y_pred = 0 ->
   compute_metrics y_true y_pred = Raise ZeroDivisionError) /\
  (0 < counted_pairs y_true y_pred ->
   exists m,
     compute_metrics y_true y_pred = Ok m /\
     int_truediv (agreements y_true y_pred) (counted_pairs y_true y_pred)
     = Ok (accuracy m) /\
     (le zero (accuracy m) = true /\ le (accuracy m) one = true) /\
     (le zero (precision m) = true /\ le (precision m) one = true) /\
     (le zero (recall m) = true /\ le (recall m) one = true)).
Proof.
  unfold counted_pairs, agreements.
  destruct (four_counts (zip y_true y_pred))
    as (Htp & Hfp & Hfn & Htn & Htotal & Hagree).
  cbv zeta in *. unfold compute_metrics.
  set (tp := count_pairs (fun t p => (t =? p) && (p =? 1)) (zip y_true y_pred)) in *.
  set (fp := count_pairs (fun t p => (t =? 0) && (p =? 1)) (zip y_true y_pred)) in *.
  set (fn := count_pairs (fun t p => (t =? 1) && (p =? 0)) (zip y_true y_pred)) in *.
  set (tn := count_pairs (fun t p => (t =? p) && (p =? 0)) (zip y_true y_pred)) in *.
  rewrite <- Htotal, <- Hagree. clearbody tp fp fn tn. split.
  - intros Hzero. unfold int_truediv at 1. rewrite Hzero. reflexivity.
  - intros Hpos.
    destruct (int_truediv_le_Ok (tp + tn) (tp + fp + fn + tn) ltac:(lia) Hpos)
      as [acc Hacc].
    assert (0 <= tp + tn <= tp + fp + fn + tn) as Hle by lia.
    pose proof (int_truediv_unit_range _ _ _ Hle Hpos Hacc) as Hacc_range.
    rewrite Hacc. cbn [mbind result_bind].
    assert (exists prec,
              (if negb (tp + fp =? 0) then int_truediv tp (tp + fp) else Ok zero) = Ok prec /\
              le zero prec = true /\ le prec one = true) as (prec & -> & Hprec).
    { destruct (Z.eqb_spec (tp + fp) 0) as [|Hne]; cbn [negb].
      - exists zero. repeat split.
      - destruct (int_truediv_le_Ok tp (tp + fp) ltac:(lia) ltac:(lia)) as [q Hq].
        exists q. split; [exact Hq|].
        apply (int_truediv_unit_range tp (tp + fp)); [lia|lia|exact Hq]. }
    assert (exists rec,
              (if negb (tp + fn =? 0) then int_truediv tp (tp + fn) else Ok zero) = Ok rec /\
              le zero rec = true /\ le rec one = true) as (rec & -> & Hrec).
    { destruct (Z.eqb_spec (tp + fn) 0) as [|Hne]; cbn [negb].
      - exists zero. repeat split.
      - destruct (int_truediv_le_Ok tp (tp + fn) ltac:(lia) ltac:(lia)) as [q Hq].
        exists q. split; [exact Hq|].
        apply (int_truediv_unit_range tp (tp + fn)); [lia|lia|exact Hq]. }
    cbn [mbind result_bind]. unfold truthy, truediv.
    destruct (is_zero (add prec rec)) eqn:Hz; cbn [negb mbind result_bind];
      eexists; (split; [reflexivity|]); cbn [accuracy precision recall];
      repeat split; first [exact Hacc | apply Hacc_range | apply Hprec | apply Hrec].
Qed.

Example compute_metrics_values :
  compute_metrics [1; 0; 1; 1] [1; 1; 0; 1]
  = Ok {| accuracy := lit_0_5;
          precision := S754_finite false 6004799503160661 (-53);
          recall := S754_finite false 6004799503160661 (-53);
          f1 := S754_finite false 6004799503160661 (-53) |} /\
  compute_metrics [2; 3] [1; 0] = Raise ZeroDivisionError /\
  compute_metrics [1; 0; 1] [1] = compute_metrics [1] [1].
Proof. repeat split; vm_compute; reflexivity. Qed.

Lemma count_pairs_diagonal (cond : Z -> Z -> bool) (y : list Z) :
  count_pairs cond (zip y y) = Z.of_nat (length (List.filter (fun z => cond z z) y)).
Proof.
  rewrite count_pairs_length. f_equal.
  induction y as [|z y IH]; [reflexivity|].
  cbn [zip_with List.filter fst snd]. destruct (cond z z); cbn [length]; lia.
Qed.

Lemma ones_and_zeros (y : list Z) :
  Forall (fun z => z = 0 \/ z = 1) y ->
  Z.of_nat (length (List.filter (fun z => (z =? z) && (z =? 1)) y))
  + Z.of_nat (length (List.filter (fun z => (z =? z) && (z =? 0)) y))
  = Z.of_nat (length y).
Proof.
  induction 1 as [|z y Hz _ IH]; [reflexivity|].
  cbn [List.filter]. destruct Hz as [-> | ->]; cbn [Z.eqb Pos.eqb andb length]; lia.
Qed.

Lemma existsb_ones (y : list Z) :
  existsb (Z.eqb 1) y
  = negb (Z.of_nat (length (List.filter (fun z => (z =? z) && (z =? 1)) y)) =? 0).
Proof.
  induction y as [|z y IH]; [reflexivity|].
  cbn [existsb List.filter]. rewrite Z.eqb_refl, (Z.eqb_sym 1 z). cbn [andb].
  destruct (z =? 1); cbn [orb length]; [|exact IH].
  destruct (Z.eqb_spec (Z.of_nat (S (length (List.filter
              (fun z1 => (z1 =? z1) && (z1 =? 1)) y)))) 0); [lia|reflexivity].
Qed.

(** X12. A prediction equal to the truth, on labels 0 and 1, has accuracy
    1.0; its precision, recall and f1 are 1.0 when a label is 1, and 0.0
    when all the labels are 0. *)
Theorem compute_metrics_perfect (y : list Z) :
  Forall (fun z => z = 0 \/ z = 1) y -> y <> [] ->
  compute_metrics y y
  = Ok (if existsb (Z.eqb 1) y
        then {| accuracy := one; precision := one; recall := one; f1 := one |}
        else {| accuracy := one; precision := zero; recall := zero; f1 := zero |}).
Proof.
  intros Hbin Hne. unfold compute_metrics. rewrite !count_pairs_diagonal.
  rewrite existsb_ones. pose proof (ones_and_zeros y Hbin) as Hsum.
  assert (0 < length y)%nat as Hlen by (destruct y; [congruence|cbn; lia]).
  set (k := Z.of_nat (length (List.filter (fun z => (z =? z) && (z =? 1)) y))) in *.
  set (z0 := Z.of_nat (length (List.filter (fun z => (z =? z) && (z =? 0)) y))) in *.
  assert (0 <= k /\ 0 <= z0 /\ 0 < k + z0) as (Hk & Hz0 & Hpos) by (unfold k, z0; lia).
  assert (Z.of_nat (length (List.filter (fun z => (z =? 0) && (z =? 1)) y)) = 0) as ->.
  { rewrite (filter_ext_length _ (fun _ => false)), filter_false_length; [reflexivity|].
    intros z. destruct (Z.eqb_spec z 0) as [->|]; reflexivity. }
  assert (Z.of_nat (length (List.filter (fun z => (z =? 1) && (z =? 0)) y)) = 0) as ->.
  { rewrite (filter_ext_length _ (fun _ => false)), filter_false_length; [reflexivity|].
    intros z. destruct (Z.eqb_spec z 1) as [->|]; reflexivity. }
  clearbody k z0.
  replace (k + 0 + 0 + z0) with (k + z0) by lia.
  replace (k + 0) with k by lia.
  rewrite (int_truediv_self (k + z0)) by lia. cbn [mbind result_bind].
  destruct (Z.eqb_spec k 0) as [Hk0|Hk0]; cbn [negb mbind result_bind].
  - reflexivity.
  - rewrite (int_truediv_self k) by lia. reflexivity.
Qed.

Lemma compute_metrics_perfect_witness :
  compute_metrics [1; 0; 0] [1; 0; 0]
  = Ok (if existsb (Z.eqb 1) [1; 0; 0]
        then {| accuracy := one; precision := one; recall := one; f1 := one |}
        else {| accuracy := one; precision := zero; recall := zero; f1 := zero |}).
Proof.
  apply (compute_metrics_perfect [1; 0; 0]).
  - repeat constructor; lia.
  - discriminate.
Defined.

(** ** ontology_quiz_generator.py: the lexical score *)

(** X13. Under the lexical fallback the score of two texts lies between
    0.0 and 1.0. *)
Theorem lexical_score_range {tensor}
    (MODEL : option (string -> tensor)) (util : option (tensor -> tensor -> float))
    (a b : string) :
  MODEL = None \/ util = None ->
  exists s, bert_similarity MODEL util a b = Ok s /\
            le zero s = true /\ le s one = true.
Proof.
  intros Hnone. destruct (bert_similarity_total MODEL util a b) as [s Hs].
  exists s. split; [exact Hs|].
  rewrite bert_similarity_lexical in Hs by assumption.
  eapply jaccard_index_range. exact Hs.
Qed.

Lemma lexical_score_range_witness :
  exists s, bert_similarity (tensor := unit) None None "the cat sat" "a cat" = Ok s /\
            le zero s = true /\ le s one = true.
Proof.
  apply (lexical_score_range (tensor := unit) None None "the cat sat" "a cat").
  left. reflexivity.
Defined.

(** X14. Under the lexical fallback two texts with the same set of
    lower-cased tokens score exactly 1.0: the score of a text with itself is
    1.0, and case, order, repetition and spacing of the words do not count. *)
Theorem lexical_score_same_tokens {tensor}
    (MODEL : option (string -> tensor)) (util : option (tensor -> tensor -> float))
    (a b : string) :
  MODEL = None \/ util = None ->
  token_set a = token_set b ->
  bert_similarity MODEL util a b = Ok one /\ bert_similarity MODEL util a a = Ok one.
Proof.
  intros Hnone Hsame. rewrite !bert_similarity_lexical by assumption.
  rewrite Hsame. split; apply jaccard_index_self.
Qed.

Lemma lexical_score_same_tokens_witness :
  bert_similarity (tensor := unit) None None "The cat  sat" "sat CAT the the" = Ok one /\
  bert_similarity (tensor := unit) None None "The cat  sat" "The cat  sat" = Ok one.
Proof.
  apply (lexical_score_same_tokens (tensor := unit) None None
           "The cat  sat" "sat CAT the the").
  - left. reflexivity.
  - vm_compute. reflexivity.
Defined.

Lemma jaccard_index_disjoint (A B : gset string) :
  A ∩ B = ∅ -> A <> ∅ \/ B <> ∅ -> jaccard_index A B = Ok zero.
Proof.
  intros HAB HA. unfold jaccard_index.
  destruct (decide (A = ∅ /\ B = ∅)) as [[-> ->]|_]; [destruct HA; congruence|].
  rewrite HAB, size_empty. apply int_truediv_zero.
  destruct (Nat.eq_dec (size (A ∪ B)) 0%nat) as [Hz|Hnz]; [|lia].
  exfalso. apply size_empty_L, empty_union_L in Hz as [-> ->].
  destruct HA; congruence.
Qed.

(** X15. Under the lexical fallback two texts that share no token score
    exactly 0.0, unless neither has a token; so a text with a token scores
    0.0 against the empty text. *)
Theorem lexical_score_disjoint {tensor}
    (MODEL : option (string -> tensor)) (util : option (tensor -> tensor -> float))
    (a b : string) :
  MODEL = None \/ util = None ->
  token_set a ∩ token_set b = ∅ ->
  token_set a <> ∅ \/ token_set b <> ∅ ->
  bert_similarity MODEL util a b = Ok zero /\
  (token_set a <> ∅ -> bert_similarity MODEL util a "" = Ok zero).
Proof.
  intros Hnone Hdisjoint Hsome.
  rewrite !bert_similarity_lexical by assumption. split.
  - apply jaccard_index_disjoint; assumption.
  - intros Ha. apply jaccard_index_disjoint; [|left; exact Ha].
    change (token_set "") with (∅ : gset string). apply (right_absorb_L ∅ (∩)).
Qed.

Lemma lexical_score_disjoint_witness :
  bert_similarity (tensor := unit) None None "the cat" "a dog" = Ok zero /\
  (token_set "the cat" <> ∅ ->
   bert_similarity (tensor := unit) None None "the cat" "" = Ok zero).
Proof.
  apply (lexical_score_disjoint (tensor := unit) None None "the cat" "a dog").
  - left. reflexivity.
  - vm_compute. reflexivity.
  - left. apply (bool_decide_unpack _). vm_compute. reflexivity.
Defined.

(** ** ontology_quiz_generator.py: the table *)

Lemma row_scores_unique {tensor}
    (MODEL : option (string -> tensor)) (util : option (tensor -> tensor -> float))
    (domains : list string) (l1 l2 : list float) :
  Forall2 (fun d s => row_score MODEL util d = Ok s) domains l1 ->
  Forall2 (fun d s => row_score MODEL util d = Ok s) domains l2 ->
  l1 = l2.
Proof.
  intros H1. revert l2. induction H1 as [|d s ds l1 Hs _ IH]; intros l2 H2.
  - inversion H2. reflexivity.
  - inversion H2 as [|d' s' ds' l2' Hs' H2']; subst.
    rewrite Hs in Hs'. injection Hs' as <-. f_equal. apply IH. exact H2'.
Qed.

Lemma label_of_binary {tensor}
    (MODEL : option (string -> tensor)) (util : option (tensor -> tensor -> float))
    (threshold : float) (domain : string) :
  label_of MODEL util threshold domain = 0 \/ label_of MODEL util threshold domain = 1.
Proof. unfold label_of. destruct (predicted_positive _ _ _ _); auto. Qed.

(** X16. The loop returns for every sequence of domains, also with
    unknown or repeated domains: the table holds one row per domain, in
    the order of the domains; it does not depend on the threshold; the true
    labels are all 1 and the predicted labels are 0 or 1, one per domain. *)
Theorem evaluation_loop_shape {tensor}
    (MODEL : option (string -> tensor)) (util : option (tensor -> tensor -> float))
    (domains : list string) (mcq_bank : gmap string (list MCQ)) (t1 t2 : float) :
  exists table y_true y_pred1 y_pred2,
    evaluation_loop MODEL util domains mcq_bank t1 = Ok (table, y_true, y_pred1) /\
    evaluation_loop MODEL util domains mcq_bank t2 = Ok (table, y_true, y_pred2) /\
    map Domain table = domains /\
    y_true = repeat 1 (length domains) /\
    length y_pred1 = length domains /\
    Forall (fun p => p = 0 \/ p = 1) y_pred1.
Proof.
  destruct (evaluation_loop_spec MODEL util mcq_bank t1 domains) as (s1 & H1 & Hloop1).
  destruct (evaluation_loop_spec MODEL util mcq_bank t2 domains) as (s2 & H2 & Hloop2).
  pose proof (row_scores_unique MODEL util domains s1 s2 H1 H2) as <-.
  eexists _, _, _, _. split; [exact Hloop1|]. split; [exact Hloop2|].
  apply Forall2_length in H1. split; [|split; [|split]].
  - apply rows_domains. exact H1.
  - clear. induction domains as [|d ds IH]; [reflexivity|].
    cbn [map length repeat]. rewrite IH. reflexivity.
  - apply length_map.
  - apply Forall_fmap, Forall_forall. intros d _. apply label_of_binary.
Qed.

Lemma for_each_app {S A : Type} (body : S -> A -> result S) (l1 l2 : list A) : forall st,
  for_each body st (l1 ++ l2) = (st' ← for_each body st l1; for_each body st' l2).
Proof.
  induction l1 as [|x l1 IH]; intros st; [reflexivity|].
  cbn [app for_each]. destruct (body st x) as [st'|e]; [|reflexivity].
  cbn [mbind result_bind]. apply IH.
Qed.

(** X17. The loop on two sequences of domains one after the other yields
    the table and the labels of the first followed by those of the second:
    a row depends on its own domain only. *)
Theorem evaluation_loop_app {tensor}
    (MODEL : option (string -> tensor)) (util : option (tensor -> tensor -> float))
    (domains1 domains2 : list string) (mcq_bank : gmap string (list MCQ))
    (threshold : float) :
  exists table1 y_true1 y_pred1 table2 y_true2 y_pred2,
    evaluation_loop MODEL util domains1 mcq_bank threshold
    = Ok (table1, y_true1, y_pred1) /\
    evaluation_loop MODEL util domains2 mcq_bank threshold
    = Ok (table2, y_true2, y_pred2) /\
    evaluation_loop MODEL util (domains1 ++ domains2) mcq_bank threshold
    = Ok (table1 ++ table2, y_true1 ++ y_true2, y_pred1 ++ y_pred2).
Proof.
  destruct (evaluation_loop_spec MODEL util mcq_bank threshold domains1)
    as (s1 & H1 & Hloop1).
  destruct (evaluation_loop_spec MODEL util mcq_bank threshold domains2)
    as (s2 & H2 & Hloop2).
  eexists _, _, _, _, _, _. split; [exact Hloop1|]. split; [exact Hloop2|].
  unfold evaluation_loop in *. rewrite for_each_app, Hloop1. cbn [mbind result_bind].
  destruct (for_each_evaluation_step MODEL util mcq_bank threshold domains2
              (zip_with (row_of mcq_bank) domains1 s1)
              (map (fun _ => 1) domains1)
              (map (label_of MODEL util threshold) domains1))
    as (s2' & H2' & Hloop2').
  pose proof (row_scores_unique MODEL util domains2 s2 s2' H2 H2') as <-.
  exact Hloop2'.
Qed.

Lemma sentinel_has_tokens : token_set "No materials available for this topic." <> ∅.
Proof. apply (bool_decide_unpack _). vm_compute. reflexivity. Qed.

(** Under the lexical fallback a domain that the lookup does not hold scores
    0.0: the sentinel against the empty reference. *)
Lemma row_score_unknown_domain {tensor}
    (MODEL : option (string -> tensor)) (util : option (tensor -> tensor -> float))
    (domain : string) :
  MODEL = None \/ util = None ->
  LEARNING_MATERIALS !! domain = None ->
  row_score MODEL util domain = Ok zero.
Proof.
  intros Hnone Hmissing.
  unfold row_score, evaluate_material, generate_learning_material.
  rewrite Hmissing. cbn [default].
  rewrite bert_similarity_lexical by assumption.
  apply jaccard_index_disjoint; [|left; exact sentinel_has_tokens].
  change (token_set "") with (∅ : gset string). apply (right_absorb_L ∅ (∩)).
Qed.

Lemma verdict_of_zero :
  verdict_of zero = "Moderate alignment, requires improvements in content generation.".
Proof. reflexivity. Qed.

Lemma percent_of_zero : format_2f (mul zero (of_int 100)) +:+ "%" = "0.00%".
Proof. vm_compute. reflexivity. Qed.

(** X18. Under the lexical fallback, the row of a domain that the reference
    lookup does not hold carries the sentinel as its material, the score 0.0
    (shown as 0.00%) and the verdict Moderate; its predicted label is 1 only
    for a threshold [<= 0.0]. *)
Theorem unknown_domain_row {tensor}
    (MODEL : option (string -> tensor)) (util : option (tensor -> tensor -> float))
    (domains : list string) (mcq_bank : gmap string (list MCQ)) (threshold : float)
    (i : nat) (domain : string) :
  MODEL = None \/ util = None ->
  domains !! i = Some domain ->
  LEARNING_MATERIALS !! domain = None ->
  exists table y_true y_pred row,
    evaluation_loop MODEL util domains mcq_bank threshold = Ok (table, y_true, y_pred) /\
    table !! i = Some row /\
    Generated_Learning_Material row = "No materials available for this topic." /\
    row_score MODEL util domain = Ok zero /\
    Accuracy_Score row = "0.00%" /\
    Description row = "Moderate alignment, requires improvements in content generation." /\
    y_pred !! i = Some (if le threshold zero then 1 else 0).
Proof.
  intros Hnone Hi Hmissing.
  pose proof (row_score_unknown_domain MODEL util domain Hnone Hmissing) as Hzero.
  destruct (evaluation_loop_lookup MODEL util mcq_bank threshold domains i domain Hi)
    as (table & y_true & y_pred & score & Hloop & _ & Hscore & Hrow & _ & Hlabel).
  rewrite Hzero in Hscore. injection Hscore as <-.
  exists table, y_true, y_pred, (row_of mcq_bank domain zero).
  split; [exact Hloop|]. split; [exact Hrow|].
  cbn [Generated_Learning_Material Accuracy_Score Description row_of].
  split; [unfold generate_learning_material; rewrite Hmissing; reflexivity|].
  split; [exact Hzero|]. split; [exact percent_of_zero|]. split; [exact verdict_of_zero|].
  rewrite Hlabel. unfold label_of, predicted_positive. rewrite Hzero, ge_SFleb.
  reflexivity.
Qed.

Lemma unknown_domain_row_witness :
  exists table y_true y_pred row,
    evaluation_loop (tensor := unit) None None ["Lists"; "Quantum"] ∅ lit_0_9
    = Ok (table, y_true, y_pred) /\
    table !! 1%nat = Some row /\
    Generated_Learning_Material row = "No materials available for this topic." /\
    row_score (tensor := unit) None None "Quantum" = Ok zero /\
    Accuracy_Score row = "0.00%" /\
    Description row = "Moderate alignment, requires improvements in content generation." /\
    y_pred !! 1%nat = Some (if le lit_0_9 zero then 1 else 0).
Proof.
  apply (unknown_domain_row (tensor := unit) None None ["Lists"; "Quantum"] ∅ lit_0_9
           1 "Quantum").
  - left. reflexivity.
  - reflexivity.
  - vm_compute. reflexivity.
Defined.

Lemma predicted_positive_lexical {tensor}
    (MODEL : option (string -> tensor)) (util : option (tensor -> tensor -> float))
    (threshold : float) (domain : string) :
  MODEL = None \/ util = None ->
  gt threshold zero = true -> le threshold one = true ->
  predicted_positive MODEL util threshold domain = known_domain domain.
Proof.
  intros Hnone Hgt Hle. unfold predicted_positive, known_domain.
  destruct (LEARNING_MATERIALS !! domain) as [text|] eqn:Hlook.
  - rewrite (row_score_known_domain MODEL util domain Hnone) by (rewrite Hlook; eauto).
    apply le_ge. exact Hle.
  - rewrite (row_score_unknown_domain MODEL util domain Hnone Hlook), ge_SFleb.
    unfold gt in Hgt. unfold SFleb.
    destruct (SFcompare threshold zero) as [[]|];
      first [discriminate Hgt | reflexivity].
Qed.

(** X19. Under the lexical fallback every row is Excellent at 100.00%, when
    the lookup holds its domain, or Moderate at 0.00%, when it does not: no
    row is ever Good. With a threshold above 0.0 and at most 1.0, the
    accuracy of a table that is not empty is the share of its domains that
    the lookup holds. *)
Theorem lexical_table {tensor}
    (MODEL : option (string -> tensor)) (util : option (tensor -> tensor -> float))
    (domains : list string) (mcq_bank : gmap string (list MCQ)) (threshold : float) :
  MODEL = None \/ util = None ->
  gt threshold zero = true -> le threshold one = true ->
  domains <> [] ->
  exists rows m,
    create_evaluation_table MODEL util None domains mcq_bank threshold = Ok (rows, m) /\
    int_truediv (Z.of_nat (length (List.filter known_domain domains)))
                (Z.of_nat (length domains)) = Ok (accuracy m) /\
    Forall (fun row =>
              (known_domain (Domain row) = true /\
               Accuracy_Score row = "100.00%" /\
               Description row = "Excellent alignment with reference material.") \/
              (known_domain (Domain row) = false /\
               Accuracy_Score row = "0.00%" /\
               Description row
               = "Moderate alignment, requires improvements in content generation."))
           rows.
Proof.
  intros Hnone Hgt Hle Hne.
  destruct (create_evaluation_table_nonempty MODEL util mcq_bank threshold domains Hne)
    as (scores & acc & f & Hscores & Hacc & _ & Hcreate).
  eexists _, _. split; [exact Hcreate|]. cbn [accuracy]. split.
  - rewrite <- Hacc. unfold predicted_positives.
    rewrite (filter_ext_length known_domain (predicted_positive MODEL util threshold));
      [reflexivity|].
    intros d. symmetry. apply predicted_positive_lexical; assumption.
  - clear Hcreate Hacc Hne. induction Hscores as [|d s ds scores Hs _ IH]; [constructor|].
    cbn [zip_with]. constructor; [|exact IH].
    cbn [Domain Accuracy_Score Description row_of]. unfold known_domain.
    destruct (LEARNING_MATERIALS !! d) as [text|] eqn:Hlook.
    + rewrite (row_score_known_domain MODEL util d Hnone) in Hs by (rewrite Hlook; eauto).
      injection Hs as <-. left. split; [reflexivity|].
      split; [exact percent_of_one|exact verdict_of_one].
    + rewrite (row_score_unknown_domain MODEL util d Hnone Hlook) in Hs.
      injection Hs as <-. right. split; [reflexivity|].
      split; [exact percent_of_zero|exact verdict_of_zero].
Qed.

Lemma lexical_table_witness :
  exists rows m,
    create_evaluation_table (tensor := unit) None None None
      ["Lists"; "Quantum"; "Loops"] ∅ lit_0_9 = Ok (rows, m) /\
    int_truediv (Z.of_nat (length (List.filter known_domain ["Lists"; "Quantum"; "Loops"])))
                (Z.of_nat (length ["Lists"; "Quantum"; "Loops"])) = Ok (accuracy m) /\
    Forall (fun row =>
              (known_domain (Domain row) = true /\
               Accuracy_Score row = "100.00%" /\
               Description row = "Excellent alignment with reference material.") \/
              (known_domain (Domain row) = false /\
               Accuracy_Score row = "0.00%" /\
               Description row
               = "Moderate alignment, requires improvements in content generation."))
           rows.
Proof.
  apply (lexical_table (tensor := unit) None None ["Lists"; "Quantum"; "Loops"] ∅ lit_0_9).
  - left. reflexivity.
  - reflexivity.
  - reflexivity.
  - discriminate.
Defined.

(** ** flask_app.py: the route [quiz] *)

Section QuizProperties.

Context {tensor : Type}.
Variable MODEL : option (string -> tensor).
Variable util : option (tensor -> tensor -> float).
Variable MCQ_BANK : gmap string (list MCQ).
Variable py_int : string -> option Z.
Variable random_sample : list MCQ -> Z -> option (list MCQ).

(** The route in three steps: the sample, the score, the page. *)
Lemma quiz_steps form :
  quiz MODEL util MCQ_BANK py_int random_sample form
  = (sampled ← match random_sample (eligible_questions MCQ_BANK form)
                                   (requested py_int MCQ_BANK form) with
               | Some l => Done l
               | None => Fail ValueError
               end;
     sim ← (if (0 <? length (eligible_questions MCQ_BANK form))%nat
            then score ← uncaught (evaluate_material_at MODEL util
                                     (get_or FLASK_LEARNING_MATERIALS (form !! "domain") "")
                                     (form !! "domain"));
                 Done (mul score (of_int 100))
            else Done zero);
     Done {| page_domain := form !! "domain";
             page_questions := sampled;
             page_difficulty := default "Any" (form !! "difficulty");
             page_similarity := format_2f sim |}).
Proof. reflexivity. Qed.

Lemma evaluate_material_at_total material domain :
  exists s, evaluate_material_at MODEL util material domain = Ok s.
Proof.
  unfold evaluate_material_at, evaluate_material.
  destruct domain as [d|].
  - exact (bert_similarity_total MODEL util material (default "" (LEARNING_MATERIALS !! d))).
  - exact (bert_similarity_total MODEL util material "").
Qed.

End QuizProperties.

Section QuizPage.

Context {tensor : Type}.
Variable MODEL : option (string -> tensor).
Variable util : option (tensor -> tensor -> float).
Variable MCQ_BANK : gmap string (list MCQ).
Variable py_int : string -> option Z.
Variable random_sample : list MCQ -> Z -> option (list MCQ).

(** X20. The route returns a page exactly when [random.sample] returns a
    sample of the eligible questions; its only error is the [ValueError] of
    the sampling: the evaluation of the material never makes it fail, also
    for a form without domain or with an unknown domain. The page shows the
    sample and the difficulty of the form, "Any" when it has none. *)
Theorem quiz_returns (form : gmap string string) :
  (forall sampled,
     random_sample (eligible_questions MCQ_BANK form) (requested py_int MCQ_BANK form)
     = Some sampled ->
     exists page,
       quiz MODEL util MCQ_BANK py_int random_sample form = Done page /\
       page_questions page = sampled /\
       page_domain page = form !! "domain" /\
       page_difficulty page = default "Any" (form !! "difficulty")) /\
  (random_sample (eligible_questions MCQ_BANK form) (requested py_int MCQ_BANK form)
   = None ->
   quiz MODEL util MCQ_BANK py_int random_sample form = Fail ValueError) /\
  (forall e, quiz MODEL util MCQ_BANK py_int random_sample form = Fail e ->
             e = ValueError).
Proof.
  rewrite quiz_steps.
  destruct (evaluate_material_at_total MODEL util
              (get_or FLASK_LEARNING_MATERIALS (form !! "domain") "") (form !! "domain"))
    as [s Hs].
  rewrite Hs. cbn [uncaught mbind outcome_bind].
  destruct (random_sample (eligible_questions MCQ_BANK form)
                          (requested py_int MCQ_BANK form)) as [l|];
    cbn [mbind outcome_bind].
  - split; [|split].
    + intros sampled [= <-].
      destruct (0 <? length (eligible_questions MCQ_BANK form))%nat;
        cbn [mbind outcome_bind]; eexists; repeat split.
    + discriminate.
    + destruct (0 <? length (eligible_questions MCQ_BANK form))%nat; discriminate.
  - split; [|split].
    + discriminate.
    + reflexivity.
    + intros e [= <-]. reflexivity.
Qed.

Lemma learning_materials_other_topics d :
  d ∉ updated_topics ->
  LEARNING_MATERIALS !! d = FLASK_LEARNING_MATERIALS !! d.
Proof.
  unfold updated_topics. intros Hd.
  apply not_elem_of_cons in Hd as [H1 Hd]. apply not_elem_of_cons in Hd as [H2 Hd].
  apply not_elem_of_cons in Hd as [H3 Hd]. apply not_elem_of_cons in Hd as [H4 _].
  unfold LEARNING_MATERIALS.
  change (default ∅ (ontology_as_dict ONTOLOGY_ROOT)) with FLASK_LEARNING_MATERIALS.
  generalize FLASK_LEARNING_MATERIALS as m. intros m.
  unfold dict_update. cbn [foldl fst snd].
  rewrite !lookup_insert_ne by congruence. reflexivity.
Qed.

(** X21. What the page shows as similarity, under the lexical fallback:
    "0.00" when no question is eligible, whatever the material; "100.00"
    when a question is eligible and the domain is none of the four topics
    that the generator updates in its lookup, whether the ontology knows the
    domain or not. *)
Theorem quiz_similarity (form : gmap string string) (page : QuizPage) :
  MODEL = None \/ util = None ->
  quiz MODEL util MCQ_BANK py_int random_sample form = Done page ->
  (eligible_questions MCQ_BANK form = [] -> page_similarity page = "0.00") /\
  (eligible_questions MCQ_BANK form <> [] ->
   (forall d, form !! "domain" = Some d -> d ∉ updated_topics) ->
   page_similarity page = "100.00").
Proof.
  intros Hnone. rewrite quiz_steps.
  destruct (random_sample (eligible_questions MCQ_BANK form)
                          (requested py_int MCQ_BANK form)) as [l|]; [|discriminate].
  cbn [mbind outcome_bind]. intros Hpage. split.
  - intros Hnil. rewrite Hnil in Hpage. cbn in Hpage. injection Hpage as <-. reflexivity.
  - intros Hsome Hother.
    destruct (eligible_questions MCQ_BANK form) as [|q qs] eqn:Hq; [congruence|].
    cbn [length Nat.ltb Nat.leb] in Hpage.
    assert (evaluate_material_at MODEL util
              (get_or FLASK_LEARNING_MATERIALS (form !! "domain") "") (form !! "domain")
            = Ok one) as Hone.
    { unfold evaluate_material_at, evaluate_material, get_or.
      destruct (form !! "domain") as [d|] eqn:Hd.
      - rewrite (learning_materials_other_topics d (Hother d eq_refl)).
        rewrite bert_similarity_lexical by assumption. apply jaccard_index_self.
      - rewrite bert_similarity_lexical by assumption. apply jaccard_index_self. }
    rewrite Hone in Hpage. cbn [uncaught mbind outcome_bind] in Hpage.
    injection Hpage as <-. cbn [page_similarity]. vm_compute. reflexivity.
Qed.

End QuizPage.

Lemma quiz_similarity_witness : page_similarity sample_page = "100.00".
Proof.
  apply (quiz_similarity (tensor := unit) None None sample_bank (fun _ => None)
           first_questions sample_form sample_page).
  - left. reflexivity.
  - vm_compute. reflexivity.
  - vm_compute. discriminate.
  - intros d Hd. vm_compute in Hd. injection Hd as <-.
    unfold updated_topics. intros Hin.
    repeat (apply elem_of_cons in Hin as [Hin|Hin]; [discriminate Hin|]).
    apply elem_of_nil in Hin. exact Hin.
Defined.

(** The four updated topics are out of reach of the second part. The
    ontology has a node "Algorithms", whose description shares 3 of 20 tokens
    with the text of the generator, and no node "Variable", so that the
    empty material is compared with the text of the generator. *)
Example quiz_similarity_updated_topics :
  let one_question := [ {| question := "q"; options := ["a"; "b"; "c"; "d"];
                           answer := "a"; difficulty := "Beginner" |} ] in
  let similarity_of domain :=
    page_similarity <$>
      (match quiz (tensor := unit) None None {[ domain := one_question ]}
               (fun _ => None) first_questions {[ "domain" := domain ]} with
       | Done page => Some page
       | Fail _ => None
       end) in
  similarity_of "Algorithms" = Some "15.00" /\
  similarity_of "Variable" = Some "0.00".
Proof. split; vm_compute; reflexivity. Qed.
